(** * WeeklyScheduler: view windowing, slot axis, placement and selection

  A shallow embedding of [packages/azos-ui/vcl/time/scheduler.js]
  (classes [WeeklyScheduler] and [SchedulingItem]) together with the
  properties its specification states about it.

  Conventions of the embedding.
  - A JavaScript [Date] is its local civil time value: the number of
    milliseconds since local midnight of 1970-01-01, as in a time zone
    with a fixed offset.  All [Date] methods the scheduler calls
    ([getDay], [getDate], [setDate], [setHours], [toDateString],
    [toLocaleDateString]) work on local civil time, and are written here
    after ECMAScript's abstract operations [Day], [WeekDay],
    [DateFromTime], [MakeDay] and [MakeDate].
  - Minute counts and day counts are integers ([Z]); JavaScript numbers
    that are not integers are outside the embedding.
  - [requestUpdate()] and the templates built for rendering have no
    effect on the state kept here and are left out.
  - A method that can throw returns an [outcome]; methods that mutate the
    component return the new component state. *)

From Stdlib Require Import ZArith Lia Bool String.
From stdpp Require Import base tactics option list numbers sorting.

Local Open Scope Z_scope.

(** ** Dates *)

Module JSDate.

(** Local civil time value in milliseconds. *)
Definition Date := Z.

Definition msPerDay : Z := 86400000.

(** [Day(t)] and [TimeWithinDay(t)]. *)
Definition Day (t : Date) : Z := t / msPerDay.
Definition TimeWithinDay (t : Date) : Z := t mod msPerDay.
Definition MakeDate (day time : Z) : Date := day * msPerDay + time.

(** [WeekDay(t)]: 0 is Sunday; 1970-01-01 was a Thursday. *)
Definition WeekDay (t : Date) : Z := (Day t + 4) mod 7.

(** Proleptic Gregorian calendar: year, month (1..12) and day of month of a
    day number, by eras of 400 years starting on March 1st. *)
Definition civil_from_days (z : Z) : Z * Z * Z :=
  let z := z + 719468 in
  let era := z / 146097 in
  let doe := z - era * 146097 in
  let yoe := (doe - doe / 1460 + doe / 36524 - doe / 146096) / 365 in
  let doy := doe - (365 * yoe + yoe / 4 - yoe / 100) in
  let mp := (5 * doy + 2) / 153 in
  let d := doy - (153 * mp + 2) / 5 + 1 in
  let m := if mp <? 10 then mp + 3 else mp - 9 in
  let y := yoe + era * 400 in
  (if m <=? 2 then y + 1 else y, m, d).

Definition days_from_civil (y m d : Z) : Z :=
  let y := if m <=? 2 then y - 1 else y in
  let era := y / 400 in
  let yoe := y - era * 400 in
  let doy := (153 * (if 2 <? m then m - 3 else m + 9) + 2) / 5 + d - 1 in
  let doe := yoe * 365 + yoe / 4 - yoe / 100 + doy in
  era * 146097 + doe - 719468.

Definition YearFromTime (t : Date) : Z := (civil_from_days (Day t)).1.1.
(** Months are numbered from 0 in JavaScript. *)
Definition MonthFromTime (t : Date) : Z := (civil_from_days (Day t)).1.2 - 1.
Definition DateFromTime (t : Date) : Z := (civil_from_days (Day t)).2.

(** [MakeDay(year, month, date)]: months outside 0..11 carry into the
    year, and the date counts on from the first of that month. *)
Definition MakeDay (year month date : Z) : Z :=
  let ym := year + month / 12 in
  let mn := month mod 12 in
  days_from_civil ym (mn + 1) 1 + date - 1.

(** [Date.prototype] methods used by the scheduler. *)
Definition getDay (t : Date) : Z := WeekDay t.
Definition getDate (t : Date) : Z := DateFromTime t.
Definition setDate (t : Date) (date : Z) : Date :=
  MakeDate (MakeDay (YearFromTime t) (MonthFromTime t) date) (TimeWithinDay t).
(** [setHours(0, 0, 0, 0)]. *)
Definition setHoursMidnight (t : Date) : Date := MakeDate (Day t) 0.

(** The year as a numeric locale date prints it, without the era: year 0
    is 1 BC and prints as 1, like year 1; year -1 is 2 BC and prints as 2. *)
Definition eraYear (year : Z) : Z := if year <=? 0 then 1 - year else year.

(** [toDateString()]: weekday, month, day of month and signed year;
    [toLocaleDateString()] in the default locale: month, day of month and
    year of the era, the era left out.  Only equality of the strings is
    used, so they are kept as tuples of their fields. *)
Definition toDateString (t : Date) : Z * Z * Z * Z :=
  (getDay t, MonthFromTime t, DateFromTime t, YearFromTime t).
Definition toLocaleDateString (t : Date) : Z * Z * Z :=
  (MonthFromTime t, DateFromTime t, eraYear (YearFromTime t)).

(** A date of year 1 or later. *)
Definition commonEra (t : Date) : Prop := 1 <= YearFromTime t.

Definition addDays (t : Date) (n : Z) : Date := t + n * msPerDay.

(** A date given as year, month (1..12) and day, at local midnight. *)
Definition ymd (y m d : Z) : Date := MakeDate (days_from_civil y m d) 0.

(** [TimeClip]: a time value beyond 8.64e15 milliseconds either side of
    the epoch is no date, and a [Date] object set to it is an Invalid Date
    ([None]).  The limit is applied to the local value, which is the time
    value itself in a zone of offset zero. *)
Definition maxTime : Z := 8640000000000000.
Definition TimeClip (t : Z) : option Date :=
  if Z.abs t <=? maxTime then Some t else None.

End JSDate.

Import JSDate.

(** ** JavaScript values, outcomes and the method monad *)

(** The values an item spec can carry in its fields.  Numbers are the
  integers; functions, arrays and plain objects are kept by reference. *)
Inductive JSValue : Type :=
| JSUndefined
| JSNull
| JSBoolean (b : bool)
| JSNumber (n : Z)
| JSString (s : string)
| JSFunction (ref : nat)
| JSArray (ref : nat)
| JSDateObject (t : Date)
| JSObject (ref : nat).

Inductive error : Type :=
| AvermentFailure      (* thrown by the helpers of azos/aver *)
| Unimplemented        (* Error("Unimplemented--...") *)
| TypeError.           (* destructuring an undefined array element *)

(** How a call ends: it returns, it throws, or the bounded unrolling of one
  of its loops was used up before the loop condition became false. *)
Inductive outcome (A : Type) : Type :=
| Returns (a : A)
| Throws (e : error)
| OutOfFuel.
Arguments Returns {A} a.
Arguments Throws {A} e.
Arguments OutOfFuel {A}.

Module types.

(** Modelled from the spec: the type tests of [azos/types], imported by
    scheduler.js but not among the sources; each is the test its name
    says.  [types.isNonEmptyString(v)]. *)
Definition isNonEmptyString (v : JSValue) : bool :=
  match v with JSString s => negb (String.length s =? 0)%nat | _ => false end.

(** Modelled from the spec: [types.isFunction(v)] of [azos/types]. *)
Definition isFunction (v : JSValue) : bool :=
  match v with JSFunction _ => true | _ => false end.

(** Modelled from the spec: [types.isDate(v)] of [azos/types]. *)
Definition isDate (v : JSValue) : bool :=
  match v with JSDateObject _ => true | _ => false end.

(** Modelled from the spec: [types.isNumber(v)] of [azos/types]. *)
Definition isNumber (v : JSValue) : bool :=
  match v with JSNumber _ => true | _ => false end.

(** Modelled from the spec: [types.isObject(v)] of [azos/types]; an object
    that is neither an array nor a function (a [Date] is one). *)
Definition isObject (v : JSValue) : bool :=
  match v with JSObject _ | JSDateObject _ => true | _ => false end.

End types.

Module aver.

(** Modelled from the spec: the assertions of [azos/aver], imported by
    scheduler.js but not among the sources; [aver.isX(v)] hands [v] back
    when [types.isX(v)] holds and throws an averment failure otherwise.
    [aver.isNonEmptyString(v)]. *)
Definition isNonEmptyString (v : JSValue) : outcome JSValue :=
  if types.isNonEmptyString v then Returns v else Throws AvermentFailure.

(** Modelled from the spec: [aver.isObject(v)] of [azos/aver]. *)
Definition isObject (v : JSValue) : outcome JSValue :=
  if types.isObject v then Returns v else Throws AvermentFailure.

(** Modelled from the spec: [aver.isDate(v)] of [azos/aver]; the checked
    value is handed back at its type. *)
Definition isDate (v : JSValue) : outcome Date :=
  match v with JSDateObject t => Returns t | _ => Throws AvermentFailure end.

(** Modelled from the spec: [aver.isNumber(v)] of [azos/aver]; the checked
    value is handed back at its type. *)
Definition isNumber (v : JSValue) : outcome Z :=
  match v with JSNumber n => Returns n | _ => Throws AvermentFailure end.

(** Modelled from the spec: [aver.isTrue(b)] of [azos/aver] throws unless
    [b] is true. *)
Definition isTrue (b : bool) : outcome bool :=
  if b then Returns true else Throws AvermentFailure.

End aver.

(** ** SchedulingItem *)

(** The private fields of a [SchedulingItem] after its constructor ran.
  [day], [startTimeMins] and [durationMins] have passed [aver.isDate] and
  [aver.isNumber], so they are kept at their types. *)
Record SchedulingItem : Type := mkItem {
  id : Z;
  day : Date;
  caption : JSValue;
  startTimeMins : Z;
  durationMins : Z;
  data : JSValue;
}.

(** [get endTimeMins()]. *)
Definition endTimeMins (it : SchedulingItem) : Z :=
  startTimeMins it + durationMins it - 1.

(** Items are objects, compared by reference in [indexOf]; every item gets
  its own [id] from the class-wide seed, so two references are the same
  object exactly when the ids agree. *)
Definition sameItem (a b : SchedulingItem) : bool := id a =? id b.

(** The object literal handed to [addItem]; an absent field reads as
  [undefined] when the constructor destructures it. *)
Record ItemSpec : Type := mkSpec {
  spec_caption : JSValue;
  spec_day : JSValue;
  spec_startTimeMins : JSValue;
  spec_data : JSValue;
  spec_durationMins : JSValue;
}.

(** One entry of [schedulingItemsByDay]: [{ day, items }]. *)
Record DayBucket : Type := mkBucket {
  bucket_day : Date;
  bucket_items : list SchedulingItem;
}.

(** ** The component state *)

(** The fields of a [WeeklyScheduler] that the windowing, placement and
  selection code reads or writes.  A private field written [#name] in the
  source is [name_] here; [None] is the source's [null]. *)
Record WeeklyScheduler : Type := mkScheduler {
  timeViewGranularityMins_ : Z;
  effectiveStartDate_ : option Date;
  viewStartDay_ : Z;
  viewStartDate_ : option Date;
  viewNumDays : Z;
  timeSlotsView_ : option (list (Z * bool));
  schedulingItemsByDay_ : list DayBucket;
  selectedItems : list SchedulingItem;
  maxSelectedItems : Z;
  timeViewRenderOffMins : Z;
  viewStartTimeMins : Z;
  viewEndTimeMins : Z;
}.

(** What a method call can touch: the component, the class-wide
  [SchedulingItem.#seed], and the clock read by [new Date()]. *)
Record World : Type := mkWorld {
  seed : Z;
  clock : Date;
  this : WeeklyScheduler;
}.

Definition M (A : Type) : Type := World -> outcome A * World.

Definition ret {A} (a : A) : M A := fun w => (Returns a, w).
Definition throw {A} (e : error) : M A := fun w => (Throws e, w).
Definition bind {A B} (m : M A) (k : A -> M B) : M B :=
  fun w =>
  match m w with
  | (Returns a, w') => k a w'
  | (Throws e, w') => (Throws e, w')
  | (OutOfFuel, w') => (OutOfFuel, w')
  end.
Definition lift {A} (o : outcome A) : M A := fun w => (o, w).
Definition gets {A} (f : WeeklyScheduler -> A) : M A := fun w => (Returns (f (this w)), w).
Definition modify (f : WeeklyScheduler -> WeeklyScheduler) : M unit :=
  fun w => (Returns tt, mkWorld (seed w) (clock w) (f (this w))).

Declare Scope js_scope.
Delimit Scope js_scope with js.
Notation "'let*' x ':=' m 'in' k" := (bind m (fun x => k))
  (at level 10, x name, m at level 100, k at level 200) : js_scope.
Notation "m ';;' k" := (bind m (fun _ => k))
  (at level 100, k at level 200, right associativity) : js_scope.

(** Field assignments. *)
Definition set_effectiveStartDate_ (v : option Date) (s : WeeklyScheduler) :=
  mkScheduler (timeViewGranularityMins_ s) v (viewStartDay_ s) (viewStartDate_ s)
  (viewNumDays s) (timeSlotsView_ s) (schedulingItemsByDay_ s) (selectedItems s)
  (maxSelectedItems s) (timeViewRenderOffMins s) (viewStartTimeMins s) (viewEndTimeMins s).
Definition set_viewStartDay_ (v : Z) (s : WeeklyScheduler) :=
  mkScheduler (timeViewGranularityMins_ s) (effectiveStartDate_ s) v (viewStartDate_ s)
  (viewNumDays s) (timeSlotsView_ s) (schedulingItemsByDay_ s) (selectedItems s)
  (maxSelectedItems s) (timeViewRenderOffMins s) (viewStartTimeMins s) (viewEndTimeMins s).
Definition set_viewStartDate_ (v : option Date) (s : WeeklyScheduler) :=
  mkScheduler (timeViewGranularityMins_ s) (effectiveStartDate_ s) (viewStartDay_ s) v
  (viewNumDays s) (timeSlotsView_ s) (schedulingItemsByDay_ s) (selectedItems s)
  (maxSelectedItems s) (timeViewRenderOffMins s) (viewStartTimeMins s) (viewEndTimeMins s).
Definition set_timeSlotsView_ (v : option (list (Z * bool))) (s : WeeklyScheduler) :=
  mkScheduler (timeViewGranularityMins_ s) (effectiveStartDate_ s) (viewStartDay_ s)
  (viewStartDate_ s) (viewNumDays s) v (schedulingItemsByDay_ s) (selectedItems s)
  (maxSelectedItems s) (timeViewRenderOffMins s) (viewStartTimeMins s) (viewEndTimeMins s).
Definition set_schedulingItemsByDay_ (v : list DayBucket) (s : WeeklyScheduler) :=
  mkScheduler (timeViewGranularityMins_ s) (effectiveStartDate_ s) (viewStartDay_ s)
  (viewStartDate_ s) (viewNumDays s) (timeSlotsView_ s) v (selectedItems s)
  (maxSelectedItems s) (timeViewRenderOffMins s) (viewStartTimeMins s) (viewEndTimeMins s).
Definition set_selectedItems (v : list SchedulingItem) (s : WeeklyScheduler) :=
  mkScheduler (timeViewGranularityMins_ s) (effectiveStartDate_ s) (viewStartDay_ s)
  (viewStartDate_ s) (viewNumDays s) (timeSlotsView_ s) (schedulingItemsByDay_ s) v
  (maxSelectedItems s) (timeViewRenderOffMins s) (viewStartTimeMins s) (viewEndTimeMins s).
Definition set_viewStartTimeMins (v : Z) (s : WeeklyScheduler) :=
  mkScheduler (timeViewGranularityMins_ s) (effectiveStartDate_ s) (viewStartDay_ s)
  (viewStartDate_ s) (viewNumDays s) (timeSlotsView_ s) (schedulingItemsByDay_ s)
  (selectedItems s) (maxSelectedItems s) (timeViewRenderOffMins s) v (viewEndTimeMins s).
Definition set_viewEndTimeMins (v : Z) (s : WeeklyScheduler) :=
  mkScheduler (timeViewGranularityMins_ s) (effectiveStartDate_ s) (viewStartDay_ s)
  (viewStartDate_ s) (viewNumDays s) (timeSlotsView_ s) (schedulingItemsByDay_ s)
  (selectedItems s) (maxSelectedItems s) (timeViewRenderOffMins s) (viewStartTimeMins s) v.

Local Open Scope js_scope.

(** ** Array methods *)

(** [Array.prototype.findIndex]: the first position whose element passes
    the test, or -1. *)
Fixpoint findIndexFrom {A} (p : A -> bool) (l : list A) (i : Z) : Z :=
  match l with
  | [] => -1
  | x :: l' => if p x then i else findIndexFrom p l' (i + 1)
  end.
Definition findIndex {A} (p : A -> bool) (l : list A) : Z := findIndexFrom p l 0.

(** The same when the callback itself reads a caching getter. *)
Fixpoint findIndexM {A} (p : A -> M bool) (l : list A) (i : Z) : M Z :=
  match l with
  | [] => ret (-1)
  | x :: l' => let* b := p x in if b then ret i else findIndexM p l' (i + 1)
  end.

(** [Array.prototype.slice(start, end)], negative arguments counting from
    the end. *)
Definition slice {A} (l : list A) (start stop : Z) : list A :=
  let len := Z.of_nat (length l) in
  let k := if start <? 0 then Z.max (len + start) 0 else Z.min start len in
  let final := if stop <? 0 then Z.max (len + stop) 0 else Z.min stop len in
  take (Z.to_nat (final - k)) (drop (Z.to_nat k) l).

(** [Array.prototype.sort(compare)] is stable; insertion from the left
    gives the one stable sorted arrangement of a consistent comparator. *)
Fixpoint insertSorted {A} (compare : A -> A -> Z) (x : A) (l : list A) : list A :=
  match l with
  | [] => [x]
  | y :: l' => if compare x y <? 0 then x :: y :: l' else y :: insertSorted compare x l'
  end.
Definition sort {A} (compare : A -> A -> Z) (l : list A) : list A :=
  foldl (fun acc x => insertSorted compare x acc) [] l.

(** Mutating the element that [find] returned: the first element passing
    the test is replaced by its update. *)
Fixpoint updateFound {A} (p : A -> bool) (f : A -> A) (l : list A) : list A :=
  match l with
  | [] => []
  | x :: l' => if p x then f x :: l' else x :: updateFound p f l'
  end.

(** [array[i]] for an integer [i]; [None] is [undefined]. *)
Definition at_index {A} (l : list A) (i : Z) : option A :=
  if i <? 0 then None else l !! Z.to_nat i.

(** ** SchedulingItem constructor *)

(** [v === null]. *)
Definition strictEqualsNull (v : JSValue) : bool :=
  match v with JSNull => true | _ => false end.

(** [new SchedulingItem(spec)].  The field initialiser [#id = ++seed] runs
    before the constructor body, so the seed advances even when the body
    throws. *)
Definition nextId : M Z :=
  fun w => (Returns (seed w + 1), mkWorld (seed w + 1) (clock w) (this w)).

Definition new_SchedulingItem (spec : ItemSpec) : M SchedulingItem :=
  let* id := nextId in
  let caption := spec_caption spec in
  (if negb (strictEqualsNull caption)
      && negb (types.isNonEmptyString caption)
      && negb (types.isFunction caption)
   then lift (aver.isNonEmptyString caption) else ret caption);;
  let* day := lift (aver.isDate (spec_day spec)) in
  let* startTimeMins := lift (aver.isNumber (spec_startTimeMins spec)) in
  let* durationMins := lift (aver.isNumber (spec_durationMins spec)) in
  let* data := lift (aver.isObject (spec_data spec)) in
  ret (mkItem id day caption startTimeMins durationMins data).

(** ** WeeklyScheduler: view window *)

(** [new Date()]. *)
Definition newDate : M Date := fun w => (Returns (clock w), w).

(** [set timeViewGranularityMins(v)]. *)
Definition set_timeViewGranularityMins (v : Z) : M unit := throw Unimplemented.

(** [get effectiveStartDate()]. *)
Definition get_effectiveStartDate : M Date :=
  let* cached := gets effectiveStartDate_ in
  match cached with
  | Some d => ret d
  | None =>
      let* byDay := gets schedulingItemsByDay_ in
      let* d := match byDay with
                | first :: _ => ret (bucket_day first)
                | [] => newDate
                end in
      modify (set_effectiveStartDate_ (Some d));;
      modify (set_viewStartDate_ None);;
      ret d
  end.

(** [set viewStartDay(v)]. *)
Definition set_viewStartDay (v : Z) : M unit :=
  lift (aver.isTrue ((0 <=? v) && (v <? 7)));;
  modify (set_viewStartDay_ v).

(** [calculateStartDate(date)]. *)
Definition calculateStartDate (date : Date) : M Date :=
  let dt := setHoursMidnight date in
  let* viewStartDay := gets viewStartDay_ in
  ret (setDate dt (getDate dt - getDay dt + viewStartDay)).

(** [get viewStartDate()]. *)
Definition get_viewStartDate : M Date :=
  let* cached := gets viewStartDate_ in
  match cached with
  | Some d => ret d
  | None =>
      let* eff := get_effectiveStartDate in
      let* d := calculateStartDate eff in
      modify (set_viewStartDate_ (Some d));;
      ret d
  end.

(** [set viewStartDate(v)]; the reset of the day-header cache [#daysView]
    is not part of the state kept here. *)
Definition set_viewStartDate (v : Date) : M unit :=
  let v := setHoursMidnight v in
  let* viewStartDay := gets viewStartDay_ in
  lift (aver.isTrue (getDay v =? viewStartDay));;
  modify (set_viewStartDate_ (Some v)).

(** [changeViewPage(count)].  When [setDate] leaves the range of time
    values, [date] is an Invalid Date: its [getDay()] is [NaN], which is
    not [viewStartDay], so the setter's averment fails. *)
Definition changeViewPage (count : Z) : M unit :=
  let* date := get_viewStartDate in
  let* current := get_viewStartDate in
  match TimeClip (setDate date (getDate current + 7 * count)) with
  | Some date => set_viewStartDate date
  | None => throw AvermentFailure
  end.

(** ** WeeklyScheduler: time window *)

(** [d.day === this.#viewStartDate] compares object references.  The field
    is [null] whenever [#calculateMinStartTime] runs (its only caller nulls
    it first), and otherwise holds a [Date] allocated by
    [calculateStartDate] or [changeViewPage], never a bucket's own object. *)
Definition sameDateObject (d : Date) (field : option Date) : bool :=
  match field with
  | None => false
  | Some _ => false
  end.

(** [#calculateMinStartTime()]; [None] stands for [Infinity] while
    scanning and for [null] in the result. *)
Definition calculateMinStartTime : M (option Z) :=
  let* byDay := gets schedulingItemsByDay_ in
  let* field := gets viewStartDate_ in
  let startDateIndex := findIndex (fun d => sameDateObject (bucket_day d) field) byDay in
  let* viewNumDays := gets viewNumDays in
  let viewDays := slice byDay startDateIndex (startDateIndex + viewNumDays) in
  ret (foldl (fun minTime b =>
                match bucket_items b with
                | [] => minTime
                | first :: _ =>
                    match minTime with
                    | None => Some (startTimeMins first)
                    | Some m => if startTimeMins first <? m
                                then Some (startTimeMins first) else Some m
                    end
                end) None viewDays).

(** [#calculateMaxEndTime()]. *)
Definition calculateMaxEndTime : M (option Z) :=
  let* byDay := gets schedulingItemsByDay_ in
  let* found := findIndexM (fun d => let* v := get_viewStartDate in
                                     ret (bucket_day d <? v)) (rev byDay) 0 in
  let startDateIndex := 1 + found in
  let* viewNumDays := gets viewNumDays in
  let viewDays := slice byDay startDateIndex (startDateIndex + viewNumDays) in
  let maxTime := foldl (fun maxTime b =>
                          match last (bucket_items b) with
                          | None => maxTime
                          | Some final => if maxTime <? endTimeMins final
                                          then endTimeMins final else maxTime
                          end) 0 viewDays in
  ret (if maxTime =? 0 then None else Some maxTime).

(** [#updateViewProperties()]. *)
Definition updateViewProperties : M unit :=
  modify (set_effectiveStartDate_ None);;
  modify (set_viewStartDate_ None);;
  let* minStart := calculateMinStartTime in
  modify (set_viewStartTimeMins (default (9 * 60) minStart));;
  let* maxEnd := calculateMaxEndTime in
  modify (set_viewEndTimeMins (default (17 * 60) maxEnd)).

(** The constructor: field defaults, then [#updateViewProperties()].  The
    two time bounds are unassigned until that call sets them. *)
Definition constructorFields : WeeklyScheduler :=
  {| timeViewGranularityMins_ := 30;
     effectiveStartDate_ := None;
     viewStartDay_ := 1;
     viewStartDate_ := None;
     viewNumDays := 6;
     timeSlotsView_ := None;
     schedulingItemsByDay_ := [];
     selectedItems := [];
     maxSelectedItems := 2;
     timeViewRenderOffMins := 60;
     viewStartTimeMins := 0;
     viewEndTimeMins := 0 |}.

Definition new_WeeklyScheduler (seed0 : Z) (now : Date) : outcome unit * World :=
  updateViewProperties (mkWorld seed0 now constructorFields).

(** ** WeeklyScheduler: item store *)

(** The comparator of [addItem]: [(a, b) => new Date(a.day) - new Date(b.day)]. *)
Definition compareDays (a b : DayBucket) : Z := bucket_day a - bucket_day b.

(** [addItem(item)] for an object literal.  When no bucket exists for the
    item's calendar date a new one is pushed and the array re-sorted;
    [found] still refers to that bucket, so the item is pushed into it
    wherever the sort put it. *)
Definition addItem (spec : ItemSpec) : M SchedulingItem :=
  let* item := new_SchedulingItem spec in
  let* byDay := gets schedulingItemsByDay_ in
  let sameDate := fun d =>
    bool_decide (toLocaleDateString (day item) = toLocaleDateString (bucket_day d)) in
  let push := fun d => mkBucket (bucket_day d) (bucket_items d ++ [item]) in
  match find sameDate byDay with
  | None =>
      modify (set_schedulingItemsByDay_
                (sort compareDays (byDay ++ [push (mkBucket (day item) [])])))
  | Some _ =>
      modify (set_schedulingItemsByDay_ (updateFound sameDate push byDay))
  end;;
  updateViewProperties;;
  ret item.

(** [calculateTheDaysItems(date)]; [None] is [undefined]. *)
Definition calculateTheDaysItems (date : Date) : M (option (list SchedulingItem)) :=
  let* byDay := gets schedulingItemsByDay_ in
  ret (bucket_items <$>
         find (fun d => bool_decide (toDateString (bucket_day d) = toDateString date)) byDay).

(** ** WeeklyScheduler: selection *)

(** [Array.prototype.indexOf] on item references. *)
Definition indexOf (item : SchedulingItem) (l : list SchedulingItem) : Z :=
  findIndex (sameItem item) l.

(** [array.splice(i, 1)] for [i >= 0]. *)
Definition splice1 {A} (i : Z) (l : list A) : list A :=
  take (Z.to_nat i) l ++ drop (S (Z.to_nat i)) l.

(** [#handleSelectItem(item)]. *)
Definition handleSelectItem (item : SchedulingItem) : M unit :=
  let* selected := gets selectedItems in
  let itemIndex := indexOf item selected in
  if -1 <? itemIndex then modify (set_selectedItems (splice1 itemIndex selected))
  else
    let* maxSelected := gets maxSelectedItems in
    let push := let* selected := gets selectedItems in
                modify (set_selectedItems (selected ++ [item])) in
    if maxSelected <=? Z.of_nat (length selected) then
      if 1 <? maxSelected then ret tt
      else (modify (set_selectedItems []);; push)
    else push.

(** ** WeeklyScheduler: slot axis and placement *)

(** The [while] loop of [get timeSlotsView()], unrolled at most [fuel]
    times. *)
Fixpoint timeSlotsLoop (fuel : nat) (currentMins renderEndMins viewStart viewEnd granularity : Z)
    (slots : list (Z * bool)) : outcome (list (Z * bool)) :=
  match fuel with
  | O => OutOfFuel
  | S fuel' =>
      if currentMins <? renderEndMins then
        let available := (viewStart <=? currentMins) && (currentMins <? viewEnd) in
        timeSlotsLoop fuel' (currentMins + granularity) renderEndMins viewStart viewEnd
          granularity (slots ++ [(currentMins, available)])
      else Returns slots
  end.

(** [get timeSlotsView()]. *)
Definition get_timeSlotsView (fuel : nat) : M (list (Z * bool)) :=
  let* cached := gets timeSlotsView_ in
  match cached with
  | Some slots => ret slots
  | None =>
      let* viewStart := gets viewStartTimeMins in
      let* viewEnd := gets viewEndTimeMins in
      let* renderOff := gets timeViewRenderOffMins in
      let* granularity := gets timeViewGranularityMins_ in
      let renderStartMins := viewStart - renderOff in
      let renderEndMins := viewEnd + renderOff in
      let* slots := lift (timeSlotsLoop fuel renderStartMins renderEndMins
                            viewStart viewEnd granularity []) in
      modify (set_timeSlotsView_ (Some slots));;
      ret slots
  end.

(** What [renderTimeCells] pushes for one slot: the slot it was read at,
    whether it is in view, and the item placed there with its row span. *)
Record TimeCell : Type := mkCell {
  cell_slotIndex : Z;
  cell_slotMins : Z;
  cell_inView : bool;
  cell_item : option SchedulingItem;
  cell_rowSpan : option Z;
}.

(** One pass through the body of the [for] loop of [renderTimeCells] at
    index [i]: the cell pushed and the value of [i] when the body ends
    (before the loop's [i++]). *)
Definition timeCellAt (slots : list (Z * bool)) (thisDayItems : option (list SchedulingItem))
    (granularity : Z) (i : Z) : outcome (TimeCell * Z) :=
  match at_index slots i with
  | None => Throws TypeError
  | Some (slotMins, inView) =>
      if inView then
        match thisDayItems ≫= find (fun item => startTimeMins item =? slotMins) with
        | Some foundItem =>
            let rowSpan := durationMins foundItem / granularity in
            Returns (mkCell i slotMins inView (Some foundItem) (Some rowSpan),
                     i + (rowSpan - 1))
        | None => Returns (mkCell i slotMins inView None None, i)
        end
      else Returns (mkCell i slotMins inView None None, i)
  end.

(** The [for] loop, unrolled at most [fuel] times. *)
Fixpoint timeCellsLoop (fuel : nat) (slots : list (Z * bool))
    (thisDayItems : option (list SchedulingItem)) (granularity : Z)
    (i : Z) (toRender : list TimeCell) : outcome (list TimeCell) :=
  match fuel with
  | O => OutOfFuel
  | S fuel' =>
      if i <? Z.of_nat (length slots) then
        match timeCellAt slots thisDayItems granularity i with
        | Returns (cell, i') =>
            timeCellsLoop fuel' slots thisDayItems granularity (i' + 1) (toRender ++ [cell])
        | Throws e => Throws e
        | OutOfFuel => OutOfFuel
        end
      else Returns toRender
  end.

(** [renderTimeCells(date)]. *)
Definition renderTimeCells (fuel : nat) (date : Date) : M (list TimeCell) :=
  let* thisDayItems := calculateTheDaysItems date in
  let* slots := get_timeSlotsView fuel in
  let* granularity := gets timeViewGranularityMins_ in
  lift (timeCellsLoop fuel slots thisDayItems granularity 0 []).

(** ** Specification-side notions *)


(** The value [get effectiveStartDate()] hands out in a given world. *)
Definition effectiveDate (w : World) : Date :=
  match effectiveStartDate_ (this w) with
  | Some d => d
  | None => match schedulingItemsByDay_ (this w) with
            | first :: _ => bucket_day first
            | [] => clock w
            end
  end.

(** The cached view start date, when there is one, is a midnight falling
    on the configured first weekday. *)
Definition viewStartDate_ok (s : WeeklyScheduler) : Prop :=
  0 <= viewStartDay_ s < 7 /\
  forall d, viewStartDate_ s = Some d ->
            getDay d = viewStartDay_ s /\ setHoursMidnight d = d.

(** ** Worlds used in examples *)


(** A scheduler constructed on Saturday 2024-11-02 at 10:00, nothing added. *)
Definition freshWorld : World :=
  (new_WeeklyScheduler 0 (ymd 2024 11 2 + 36000000)).2.


(** An item is selected when the selection holds a reference to it. *)
Definition isSelected (item : SchedulingItem) (selected : list SchedulingItem) : Prop :=
  exists x, x ∈ selected /\ id x = id item.

(** The state after a click on [item], and after a series of clicks. *)
Definition toggle (item : SchedulingItem) (w : World) : World :=
  (handleSelectItem item w).2.
Definition toggleAll (items : list SchedulingItem) (w : World) : World :=
  foldl (fun w item => toggle item w) w items.

(** The selection a click on [item] leaves, as a function of the cap and
    the selection before (read off [#handleSelectItem]). *)
Definition toggled (maxSelected : Z) (item : SchedulingItem)
    (selected : list SchedulingItem) : list SchedulingItem :=
  if -1 <? indexOf item selected then splice1 (indexOf item selected) selected
  else if maxSelected <=? Z.of_nat (length selected)
       then if 1 <? maxSelected then selected else [item]
       else selected ++ [item].

(** Three distinct items, as three constructor calls would make them. *)
Definition itemA : SchedulingItem := mkItem 1 (ymd 2024 12 28) JSNull 540 60 (JSObject 0).
Definition itemB : SchedulingItem := mkItem 2 (ymd 2024 12 28) JSNull 600 60 (JSObject 0).
Definition itemC : SchedulingItem := mkItem 3 (ymd 2024 12 28) JSNull 660 60 (JSObject 0).

(** What the constructor checks of a spec: the caption is [null], a
    non-empty string or a function; [day] is a [Date]; both minute counts
    are numbers; [data] is an object.  [specItem] is the item it then
    builds. *)
Definition captionAccepted (v : JSValue) : bool :=
  strictEqualsNull v || types.isNonEmptyString v || types.isFunction v.

Definition specItem (newId : Z) (spec : ItemSpec) : option SchedulingItem :=
  match spec_day spec, spec_startTimeMins spec, spec_durationMins spec with
  | JSDateObject d, JSNumber sta, JSNumber dur =>
      if captionAccepted (spec_caption spec) && types.isObject (spec_data spec)
      then Some (mkItem newId d (spec_caption spec) sta dur (spec_data spec))
      else None
  | _, _, _ => None
  end.

Definition accepted (spec : ItemSpec) : Prop :=
  captionAccepted (spec_caption spec) = true /\
  types.isDate (spec_day spec) = true /\
  types.isNumber (spec_startTimeMins spec) = true /\
  types.isNumber (spec_durationMins spec) = true /\
  types.isObject (spec_data spec) = true.

(** Two worlds that differ at most in the cached dates and the derived
    time bounds. *)
Definition same_items (w w' : World) : Prop :=
  seed w' = seed w /\ clock w' = clock w /\
  schedulingItemsByDay_ (this w') = schedulingItemsByDay_ (this w) /\
  selectedItems (this w') = selectedItems (this w) /\
  maxSelectedItems (this w') = maxSelectedItems (this w) /\
  viewStartDay_ (this w') = viewStartDay_ (this w) /\
  viewNumDays (this w') = viewNumDays (this w) /\
  timeViewGranularityMins_ (this w') = timeViewGranularityMins_ (this w) /\
  timeViewRenderOffMins (this w') = timeViewRenderOffMins (this w) /\
  timeSlotsView_ (this w') = timeSlotsView_ (this w).

(** The items stored for the calendar date of [date], as the store has
    them. *)
Definition theDaysItems (date : Date) (w : World) : option (list SchedulingItem) :=
  bucket_items <$>
    find (fun d => bool_decide (toDateString (bucket_day d) = toDateString date))
         (schedulingItemsByDay_ (this w)).

(** A spec with a zero duration and a start past the end of the day. *)
Definition outOfRangeSpec : ItemSpec :=
  mkSpec JSNull (JSDateObject (ymd 2024 12 28)) (JSNumber 2000) (JSObject 0) (JSNumber 0).

(** The spec of the end-to-end scenario, with the [caption: null] and
    [data: {}] the constructor insists on, and as literally written. *)
Definition scenarioSpec : ItemSpec :=
  mkSpec JSNull (JSDateObject (ymd 2024 12 28)) (JSNumber 540) (JSObject 0) (JSNumber 60).
Definition scenarioSpecLiteral : ItemSpec :=
  mkSpec JSUndefined (JSDateObject (ymd 2024 12 28)) (JSNumber 540) JSUndefined (JSNumber 60).

(** What [addItem] does to the bucket array for a constructed [item]. *)
Definition bucketInsert (item : SchedulingItem) (byDay : list DayBucket) : list DayBucket :=
  let sameDate := fun d =>
    bool_decide (toLocaleDateString (day item) = toLocaleDateString (bucket_day d)) in
  let push := fun d => mkBucket (bucket_day d) (bucket_items d ++ [item]) in
  match find sameDate byDay with
  | None => sort compareDays (byDay ++ [push (mkBucket (day item) [])])
  | Some _ => updateFound sameDate push byDay
  end.

(** Calendar-date equality of two dates. *)
Definition sameDay (a b : Date) : bool := Day a =? Day b.

(** The time window as the specification words it: scan the items whose
    day falls in [[viewStartDate, viewStartDate + viewNumDays)], take the
    least [startTimeMins] and the greatest [endTimeMins], or 540 and 1020
    when there are none. *)
Definition spec_windowItems (viewStart : Date) (numDays : Z) (byDay : list DayBucket)
  : list SchedulingItem :=
  concat (map bucket_items
            (List.filter (fun b => (viewStart <=? bucket_day b)
                                   && (bucket_day b <? addDays viewStart numDays)) byDay)).

Definition spec_viewStartTimeMins (items : list SchedulingItem) : Z :=
  match items with
  | [] => 540
  | first :: rest => foldl (fun m item => Z.min m (startTimeMins item)) (startTimeMins first) rest
  end.

Definition spec_viewEndTimeMins (items : list SchedulingItem) : Z :=
  match items with
  | [] => 1020
  | first :: rest => foldl (fun m item => Z.max m (endTimeMins item)) (endTimeMins first) rest
  end.

(** Two items on one day, the later-starting one added first. *)
Definition lateSpec : ItemSpec :=
  mkSpec JSNull (JSDateObject (ymd 2024 12 28)) (JSNumber 600) (JSObject 0) (JSNumber 60).
Definition earlySpec : ItemSpec :=
  mkSpec JSNull (JSDateObject (ymd 2024 12 28)) (JSNumber 540) (JSObject 0) (JSNumber 30).

(** Whether a cell carries an item. *)
Definition hasItem (c : TimeCell) : bool :=
  match cell_item c with Some _ => true | None => false end.

(** A series of [addItem] calls whose caller carries on after a rejected
    spec: the items created, in call order, and the final world. *)
Fixpoint addAll (specs : list ItemSpec) (w : World) : list SchedulingItem * World :=
  match specs with
  | [] => ([], w)
  | spec :: rest =>
      match addItem spec w with
      | (Returns item, w') => let r := addAll rest w' in (item :: r.1, r.2)
      | (_, w') => addAll rest w'
      end
  end.

(** The items among [added] whose day is the calendar date of [date]. *)
Definition storedFor (date : Date) (added : list SchedulingItem) : list SchedulingItem :=
  List.filter (fun item => sameDay (day item) date) added.

Definition dayOf (b : DayBucket) : Z := Day (bucket_day b).

(** The store invariant relative to the items added so far: buckets in
    strictly ascending calendar days, each holding exactly the items added
    for its day (at least one), every added item's day having a bucket. *)
Definition store_ok (added : list SchedulingItem) (byDay : list DayBucket) : Prop :=
  StronglySorted (fun a b => dayOf a < dayOf b) byDay /\
  (forall b, b ∈ byDay ->
     bucket_items b <> [] /\ bucket_items b = storedFor (bucket_day b) added) /\
  (forall item, item ∈ added -> exists b, b ∈ byDay /\ dayOf b = Day (day item)).

(** Three specs over two days, the later day first, and one rejected spec. *)
Definition threeSpecs : list ItemSpec :=
  [ mkSpec JSNull (JSDateObject (ymd 2024 12 30 + 3600000)) (JSNumber 600) (JSObject 0) (JSNumber 60);
    mkSpec JSNull (JSDateObject (ymd 2024 12 28)) (JSNumber 540) (JSObject 0) (JSNumber 30);
    mkSpec JSNull JSUndefined (JSNumber 540) (JSObject 0) (JSNumber 30);
    mkSpec JSNull (JSDateObject (ymd 2024 12 30)) (JSNumber 480) (JSObject 0) (JSNumber 30) ].


(** ** Slot axis and placement: notions for the statements *)

(** The slots the [while] loop of [get timeSlotsView()] pushes, in closed
    form: [count] slots from [currentMins] on, one granularity apart. *)
Fixpoint slotsFrom (count : nat) (currentMins viewStart viewEnd granularity : Z)
  : list (Z * bool) :=
  match count with
  | O => []
  | S count' =>
      (currentMins, (viewStart <=? currentMins) && (currentMins <? viewEnd))
        :: slotsFrom count' (currentMins + granularity) viewStart viewEnd granularity
  end.

(** How many slots lie in [[currentMins, renderEndMins)]. *)
Definition slotCount (currentMins renderEndMins granularity : Z) : nat :=
  Z.to_nat ((renderEndMins - currentMins + granularity - 1) / granularity).

(** The axis [get timeSlotsView()] hands out in a given state: the cached
    one, or the one it would generate. *)
Definition axisOf (w : World) : list (Z * bool) :=
  match timeSlotsView_ (this w) with
  | Some slots => slots
  | None =>
      let s := this w in
      let renderStartMins := viewStartTimeMins s - timeViewRenderOffMins s in
      let renderEndMins := viewEndTimeMins s + timeViewRenderOffMins s in
      slotsFrom (slotCount renderStartMins renderEndMins (timeViewGranularityMins_ s))
        renderStartMins (viewStartTimeMins s) (viewEndTimeMins s)
        (timeViewGranularityMins_ s)
  end.

(** Unrollings [get timeSlotsView()] needs in a given state. *)
Definition axisFuel (w : World) : nat :=
  match timeSlotsView_ (this w) with
  | Some _ => O
  | None =>
      let s := this w in
      S (slotCount (viewStartTimeMins s - timeViewRenderOffMins s)
           (viewEndTimeMins s + timeViewRenderOffMins s) (timeViewGranularityMins_ s))
  end.

(** The rows a cell takes: its row span, or one row when it is empty. *)
Definition cellSpan (c : TimeCell) : Z := default 1 (cell_rowSpan c).

(** Slot position [j] is taken by one of the cells. *)
Definition covered (cells : list TimeCell) (j : Z) : Prop :=
  exists c, c ∈ cells /\ cell_slotIndex c <= j < cell_slotIndex c + cellSpan c.

(** The cells lie end to end from slot position [i] on: each starts where
    the one before stops and takes at least one row.  The result is the
    position after the last cell. *)
Fixpoint tilesFrom (i : Z) (cells : list TimeCell) : option Z :=
  match cells with
  | [] => Some i
  | c :: rest =>
      if (cell_slotIndex c =? i) && (1 <=? cellSpan c)
      then tilesFrom (i + cellSpan c) rest
      else None
  end.

(** The indices at which the [for] loop of [renderTimeCells] runs its
    body. *)
Inductive visited (slots : list (Z * bool)) (thisDayItems : option (list SchedulingItem))
    (granularity : Z) : Z -> Prop :=
| visited_first : visited slots thisDayItems granularity 0
| visited_next i cell i' :
    visited slots thisDayItems granularity i ->
    i < Z.of_nat (length slots) ->
    timeCellAt slots thisDayItems granularity i = Returns (cell, i') ->
    visited slots thisDayItems granularity (i' + 1).

(** Items that start on an in-view slot last at least one granularity. *)
Definition spansAtLeastOneSlot (slots : list (Z * bool))
    (thisDayItems : option (list SchedulingItem)) (granularity : Z) : Prop :=
  forall item m,
    item ∈ default [] thisDayItems -> (m, true) ∈ slots ->
    startTimeMins item = m -> granularity <= durationMins item.

(** A fifteen-minute item at 09:00 on 2024-12-28. *)
Definition shortSpec : ItemSpec :=
  mkSpec JSNull (JSDateObject (ymd 2024 12 28)) (JSNumber 540) (JSObject 0) (JSNumber 15).
Definition shortWorld : World := (addItem shortSpec freshWorld).2.
Definition scenarioWorld : World := (addItem scenarioSpec freshWorld).2.

Definition shortItem : SchedulingItem := mkItem 1 (ymd 2024 12 28) JSNull 540 15 (JSObject 0).

(** ** The transaction bracket of the item store *)

(** Modelled from the spec: the store state behind [beginChanges()] and
    [endChanges()], which the showcase calls around [addItem] (once inside
    [try]/[finally]) but which scheduler.js does not define.  The spec
    gives the store a depth counter; [flushes] counts the recomputations of
    the derived window, to state how often they happen. *)
Record Store : Type := mkStore {
  world : World;
  depth : nat;
  flushes : nat;
}.

(** Modelled from the spec: the deferred work, cache invalidation and
    window recomputation, is what scheduler.js does in
    [#updateViewProperties()]. *)
Definition flush (st : Store) : Store :=
  mkStore (updateViewProperties (world st)).2 (depth st) (S (flushes st)).

(** Modelled from the spec: [beginChanges()] is missing from the sources;
    nested calls increment the depth counter. *)
Definition beginChanges (st : Store) : Store :=
  mkStore (world st) (S (depth st)) (flushes st).

(** Modelled from the spec: [endChanges()] is missing from the sources; it
    decrements the depth counter and, at the outermost exit, does the
    deferred invalidation and recomputation.  Without an open bracket it
    does nothing. *)
Definition endChanges (st : Store) : Store :=
  match depth st with
  | O => st
  | S d =>
      let st' := mkStore (world st) d (flushes st) in
      match d with O => flush st' | S _ => st' end
  end.

(** [addItem] up to its call of [#updateViewProperties()]: construct the
    item and put it into its bucket. *)
Definition storeItem (spec : ItemSpec) : M SchedulingItem :=
  let* item := new_SchedulingItem spec in
  let* byDay := gets schedulingItemsByDay_ in
  modify (set_schedulingItemsByDay_ (bucketInsert item byDay));;
  ret item.

(** Modelled from the spec: [addItem] of a store with a bracket, missing
    from the sources; the recomputation that scheduler.js's [addItem] does
    at once is deferred while a bracket is open. *)
Definition addItemIn (spec : ItemSpec) (st : Store) : outcome SchedulingItem * Store :=
  match storeItem spec (world st) with
  | (Returns item, w') =>
      let st' := mkStore w' (depth st) (flushes st) in
      (Returns item, match depth st with O => flush st' | S _ => st' end)
  | (o, w') => (o, mkStore w' (depth st) (flushes st))
  end.

(** Consumer code working on the store: nothing, an [addItem], a failure of
    its own, a sequence, the two calls of the bracket, and
    [try { body } finally { final }]. *)
Inductive consumer : Type :=
| Skip
| Add (spec : ItemSpec)
| Raise
| Seq (first second : consumer)
| BeginChanges
| EndChanges
| TryFinally (body final : consumer).

Fixpoint run (c : consumer) (st : Store) : outcome unit * Store :=
  match c with
  | Skip => (Returns tt, st)
  | Add spec =>
      match addItemIn spec st with
      | (Returns _, st') => (Returns tt, st')
      | (Throws e, st') => (Throws e, st')
      | (OutOfFuel, st') => (OutOfFuel, st')
      end
  | Raise => (Throws TypeError, st)
  | Seq first second =>
      match run first st with
      | (Returns _, st') => run second st'
      | failed => failed
      end
  | BeginChanges => (Returns tt, beginChanges st)
  | EndChanges => (Returns tt, endChanges st)
  | TryFinally body final =>
      let r := run body st in
      match run final r.2 with
      | (Returns _, st') => (r.1, st')
      | failed => failed
      end
  end.

(** The bracket as [#loadSchedulingItems] of the showcase writes it,
    [beginChanges(); try { body } finally { endChanges(); }], and as its
    [btnAddItem] writes it, [beginChanges(); body; endChanges();]. *)
Definition Changes (body : consumer) : consumer :=
  Seq BeginChanges (TryFinally body EndChanges).


(** The derived window of a store: the time bounds and the date caches. *)
Definition window (st : Store) : Z * Z * option Date * option Date :=
  let s := this (world st) in
  (viewStartTimeMins s, viewEndTimeMins s, effectiveStartDate_ s, viewStartDate_ s).

(** A bulk load with a rejected spec in the middle and a nested bracket. *)
Definition bulkLoad : consumer :=
  Seq (Add lateSpec)
      (Seq (Changes (Add earlySpec))
           (Seq (Add scenarioSpecLiteral) (Add scenarioSpec))).
Definition openStore : Store := mkStore freshWorld 0 0.


(** Six single-item days, Monday 2024-12-23 to Saturday 2024-12-28, every
    item at 10:00 for an hour. *)
Definition weekSpecs : list ItemSpec :=
  map (fun d => mkSpec JSNull (JSDateObject (ymd 2024 12 d)) (JSNumber 600) (JSObject 0)
                  (JSNumber 60))
      [23; 24; 25; 26; 27; 28].

(** * Further methods of the scheduler *)

(** ** Setters of the view window *)

(** [set effectiveStartDate(v)]: both old values are read through their
    caching getters before the field is assigned. *)
Definition set_effectiveStartDate (v : JSValue) : M unit :=
  let* oldViewValue := get_viewStartDate in
  let* oldValue := get_effectiveStartDate in
  let* d := lift (aver.isDate v) in
  modify (set_effectiveStartDate_ (Some d));;
  modify (set_viewStartDate_ None).

(** ** Series of calls on one scheduler *)

(** A call a user of the component can make; what it returns or throws is
    dropped, the component carries on in the state the call left. *)
Inductive call : Type :=
| CallAddItem (spec : ItemSpec)
| CallChangeViewPage (count : Z)
| CallSetViewStartDate (v : Date)
| CallSetViewStartDay (v : Z)
| CallSetEffectiveStartDate (v : JSValue)
| CallSetGranularity (v : Z)
| CallSelect (item : SchedulingItem)
| CallGetViewStartDate
| CallGetEffectiveStartDate
| CallRenderTimeCells (fuel : nat) (date : Date).

Definition perform (w : World) (c : call) : World :=
  match c with
  | CallAddItem spec => (addItem spec w).2
  | CallChangeViewPage count => (changeViewPage count w).2
  | CallSetViewStartDate v => (set_viewStartDate v w).2
  | CallSetViewStartDay v => (set_viewStartDay v w).2
  | CallSetEffectiveStartDate v => (set_effectiveStartDate v w).2
  | CallSetGranularity v => (set_timeViewGranularityMins v w).2
  | CallSelect item => (handleSelectItem item w).2
  | CallGetViewStartDate => (get_viewStartDate w).2
  | CallGetEffectiveStartDate => (get_effectiveStartDate w).2
  | CallRenderTimeCells fuel date => (renderTimeCells fuel date w).2
  end.

Definition performAll (calls : list call) (w : World) : World := foldl perform w calls.


(** The week alignment [calculateStartDate] computes, as a function. *)
Definition weekStart (viewStartDay : Z) (date : Date) : Date :=
  addDays (setHoursMidnight date) (viewStartDay - getDay date).

(** The scans of [#calculateMinStartTime] and [#calculateMaxEndTime] as
    functions of the bucket array, the window width and, for the second,
    the view start date its callback reads. *)
Definition minStartOf (byDay : list DayBucket) (numDays : Z) : option Z :=
  foldl (fun minTime b =>
           match bucket_items b with
           | [] => minTime
           | first :: _ =>
               match minTime with
               | None => Some (startTimeMins first)
               | Some m => if startTimeMins first <? m
                           then Some (startTimeMins first) else Some m
               end
           end) None (slice byDay (-1) (-1 + numDays)).

Definition maxEndOf (byDay : list DayBucket) (numDays : Z) (viewStart : Date) : option Z :=
  let startDateIndex := 1 + findIndex (fun d => bucket_day d <? viewStart) (rev byDay) in
  let maxTime := foldl (fun maxTime b =>
                          match last (bucket_items b) with
                          | None => maxTime
                          | Some final => if maxTime <? endTimeMins final
                                          then endTimeMins final else maxTime
                          end) 0 (slice byDay startDateIndex (startDateIndex + numDays)) in
  if maxTime =? 0 then None else Some maxTime.

(** A session on one scheduler: items on two days, paging, an explicit
    view start date on a Wednesday (refused) and on a Monday, a click and a
    rendering pass. *)
Definition session : list call :=
  [ CallAddItem scenarioSpec;
    CallChangeViewPage 2;
    CallRenderTimeCells 30 (ymd 2024 12 28);
    CallSetViewStartDate (ymd 2025 1 1);
    CallAddItem outOfRangeSpec;
    CallSetViewStartDate (ymd 2025 1 6 + 1000);
    CallSelect itemA;
    CallSetEffectiveStartDate (JSDateObject (ymd 2025 2 2));
    CallChangeViewPage (-1) ].

(** A scheduler whose view start date has been read (and so cached), and
    one whose slot axis has been read. *)
Definition readWorld : World := (get_viewStartDate freshWorld).2.
Definition renderedWorld : World := (get_timeSlotsView 30 freshWorld).2.

(** An item at 06:00 on 2024-12-28. *)
Definition dawnSpec : ItemSpec :=
  mkSpec JSNull (JSDateObject (ymd 2024 12 28)) (JSNumber 360) (JSObject 0) (JSNumber 60).

(** The date caches hold what [#updateViewProperties] derives from a
    non-empty store. *)
Definition dates_derived (w : World) : Prop :=
  exists first rest,
    schedulingItemsByDay_ (this w) = first :: rest /\
    effectiveStartDate_ (this w) = Some (bucket_day first) /\
    viewStartDate_ (this w) = Some (weekStart (viewStartDay_ (this w)) (bucket_day first)).

(** Assignment to the public property [maxSelectedItems]. *)
Definition set_maxSelectedItems (v : Z) (s : WeeklyScheduler) :=
  mkScheduler (timeViewGranularityMins_ s) (effectiveStartDate_ s) (viewStartDay_ s)
  (viewStartDate_ s) (viewNumDays s) (timeSlotsView_ s) (schedulingItemsByDay_ s)
  (selectedItems s) v (timeViewRenderOffMins s) (viewStartTimeMins s) (viewEndTimeMins s).

(** A scheduler whose [maxSelectedItems] property has been assigned. *)
Definition withMaxSelected (n : Z) (w : World) : World :=
  mkWorld (seed w) (clock w) (set_maxSelectedItems n (this w)).

(** What a cell of [renderTimeCells] says about the axis and the day's
    items: it sits on a slot of the axis, and either shows the first item
    of the day that starts on that slot's minute, the slot being in view,
    with the whole number of granularities the item lasts as its row span,
    or shows nothing, no item of the day starting there if the slot is in
    view. *)
Definition cellReflects (slots : list (Z * bool)) (thisDayItems : option (list SchedulingItem))
    (granularity : Z) (c : TimeCell) : Prop :=
  at_index slots (cell_slotIndex c) = Some (cell_slotMins c, cell_inView c) /\
  match cell_item c with
  | Some item =>
      cell_inView c = true /\
      startTimeMins item = cell_slotMins c /\
      cell_rowSpan c = Some (durationMins item / granularity) /\
      exists before after,
        thisDayItems = Some (before ++ item :: after) /\
        forall x, x ∈ before -> startTimeMins x <> startTimeMins item
  | None =>
      cell_rowSpan c = None /\
      (cell_inView c = true ->
       forall x, x ∈ default [] thisDayItems -> startTimeMins x <> cell_slotMins c)
  end.

(** A second one-hour item at 09:00 on 2024-12-28, and a 45-minute item at
    10:00. *)
Definition clashSpec : ItemSpec :=
  mkSpec JSNull (JSDateObject (ymd 2024 12 28)) (JSNumber 540) (JSObject 1) (JSNumber 60).
Definition longSpec : ItemSpec :=
  mkSpec JSNull (JSDateObject (ymd 2024 12 28)) (JSNumber 600) (JSObject 2) (JSNumber 45).
Definition clashWorld : World := (addAll [scenarioSpec; clashSpec; longSpec] freshWorld).2.

(** The time bounds hold what [#updateViewProperties] derives from a
    non-empty store. *)
Definition window_derived (w : World) : Prop :=
  let s := this w in
  viewStartTimeMins s = default 540 (minStartOf (schedulingItemsByDay_ s) (viewNumDays s)) /\
  exists first rest,
    schedulingItemsByDay_ s = first :: rest /\
    viewEndTimeMins s
    = default 1020 (maxEndOf (schedulingItemsByDay_ s) (viewNumDays s)
                      (weekStart (viewStartDay_ s) (bucket_day first))).

(** The [endTimeMins] of the last item of each bucket that has one. *)
Definition lastEnds (byDay : list DayBucket) : list Z :=
  omap (fun b => endTimeMins <$> last (bucket_items b)) byDay.

(** Items on two Mondays a week apart, the later one ending at 19:59. *)
Definition twoMondays : list ItemSpec :=
  [ mkSpec JSNull (JSDateObject (ymd 2024 12 30)) (JSNumber 600) (JSObject 0) (JSNumber 60);
    mkSpec JSNull (JSDateObject (ymd 2025 1 6)) (JSNumber 1140) (JSObject 0) (JSNumber 60) ].

(** ** Week start and view end *)


(** [MakeTime(hour, min, sec, ms)] and [setHours(23, 59, 59, 99)]. *)
Definition MakeTime (hour min sec ms : Z) : Z :=
  hour * 3600000 + min * 60000 + sec * 1000 + ms.
Definition setHoursEndOfDay (t : Date) : Date := MakeDate (Day t) (MakeTime 23 59 59 99).

(** [get viewEndDate()]. *)
Definition get_viewEndDate : M Date :=
  let* viewStart := get_viewStartDate in
  let endOfWeek := setHoursEndOfDay viewStart in
  let* viewStart' := get_viewStartDate in
  let* numDays := gets viewNumDays in
  ret (setDate endOfWeek (getDate viewStart' + numDays)).


(** ** The window a store calls for *)

(** * Properties *)

(** ** Dates *)

Example civil_2024_12_28 : civil_from_days 20085 = (2024, 12, 28).
Proof. reflexivity. Qed.

Example ymd_2024_12_28 : ymd 2024 12 28 = 20085 * msPerDay /\ getDay (ymd 2024 12 28) = 6.
Proof. split; reflexivity. Qed.

Section DateFacts.

Lemma Day_MakeDate d t : 0 <= t < msPerDay -> Day (MakeDate d t) = d.
Proof.
  unfold Day, MakeDate, msPerDay. intros H.
  symmetry. apply (Z.div_unique _ _ d t); lia.
Qed.


Lemma TimeWithinDay_range t : 0 <= TimeWithinDay t < msPerDay.
Proof. unfold TimeWithinDay, msPerDay. apply Z.mod_pos_bound. lia. Qed.

Lemma MakeDate_Day_Time t : MakeDate (Day t) (TimeWithinDay t) = t.
Proof.
  unfold MakeDate, Day, TimeWithinDay, msPerDay.
  pose proof (Z.div_mod t 86400000). lia.
Qed.

(** The calendar round trip the scheduler's date stepping relies on:
    counting [date] days on from the first of [t]'s month. *)
Lemma MakeDay_of_fields t k :
  MakeDay (YearFromTime t) (MonthFromTime t) (DateFromTime t + k) = Day t + k.
Proof.
  unfold MakeDay, YearFromTime, MonthFromTime, DateFromTime.
  generalize (Day t). intros z.
  unfold civil_from_days, days_from_civil. cbn [fst snd].
  set (z' := z + 719468).
  set (era := z' / 146097).
  set (doe := z' - era * 146097).
  assert (Hdoe : 0 <= doe < 146097).
  { subst doe era. pose proof (Z.div_mod z' 146097).
    pose proof (Z.mod_pos_bound z' 146097). lia. }
  set (yoe := (doe - doe / 1460 + doe / 36524 - doe / 146096) / 365).
  assert (Hyoe : 0 <= yoe < 400) by (subst yoe; Z.div_mod_to_equations; lia).
  set (doy := doe - (365 * yoe + yoe / 4 - yoe / 100)).
  assert (Hdoy : 0 <= doy < 366) by (subst doy yoe; Z.div_mod_to_equations; lia).
  set (mp := (5 * doy + 2) / 153).
  assert (Hmp : 0 <= mp < 12) by (subst mp; Z.div_mod_to_equations; lia).
  assert (Hera : forall r, 0 <= r < 400 -> (r + era * 400) / 400 = era).
  { intros r Hr. symmetry. apply (Z.div_unique _ _ era r); lia. }
  destruct (Z.ltb_spec mp 10) as [Hlt|Hge].
  - destruct (Z.leb_spec (mp + 3) 2) as [?|_]; [lia|].
    rewrite (Z.div_small (mp + 3 - 1) 12), (Z.mod_small (mp + 3 - 1) 12) by lia.
    destruct (Z.leb_spec (mp + 3 - 1 + 1) 2) as [?|_]; [lia|].
    destruct (Z.ltb_spec 2 (mp + 3 - 1 + 1)) as [_|?]; [|lia].
    rewrite Z.add_0_r, (Hera yoe Hyoe).
    replace (yoe + era * 400 - era * 400) with yoe by lia.
    replace (mp + 3 - 1 + 1 - 3) with mp by lia.
    subst doy doe z'. lia.
  - destruct (Z.leb_spec (mp - 9) 2) as [_|?]; [|lia].
    rewrite (Z.div_small (mp - 9 - 1) 12), (Z.mod_small (mp - 9 - 1) 12) by lia.
    destruct (Z.leb_spec (mp - 9 - 1 + 1) 2) as [_|?]; [|lia].
    destruct (Z.ltb_spec 2 (mp - 9 - 1 + 1)) as [?|_]; [lia|].
    replace (yoe + era * 400 + 1 + 0 - 1) with (yoe + era * 400) by lia.
    rewrite (Hera yoe Hyoe).
    replace (yoe + era * 400 - era * 400) with yoe by lia.
    replace (mp - 9 - 1 + 1 + 9) with mp by lia.
    subst doy doe z'. lia.
Qed.

End DateFacts.

Section DateMethodFacts.

Lemma Day_setHoursMidnight t : Day (setHoursMidnight t) = Day t.
Proof. apply Day_MakeDate. unfold msPerDay. lia. Qed.

Lemma getDay_setHoursMidnight t : getDay (setHoursMidnight t) = getDay t.
Proof. unfold getDay, WeekDay. now rewrite Day_setHoursMidnight. Qed.

Lemma setHoursMidnight_le t : setHoursMidnight t <= t.
Proof.
  unfold setHoursMidnight. pose proof (MakeDate_Day_Time t).
  pose proof (TimeWithinDay_range t). unfold MakeDate in *. lia.
Qed.

Lemma setHoursMidnight_idem t : setHoursMidnight (setHoursMidnight t) = setHoursMidnight t.
Proof. unfold setHoursMidnight at 1. now rewrite Day_setHoursMidnight. Qed.

(** [d.setDate(d.getDate() + k)] moves [d] by [k] calendar days and keeps
    its time of day, across month and year ends. *)
Lemma setDate_getDate t k : setDate t (getDate t + k) = addDays t k.
Proof.
  unfold setDate, getDate. rewrite MakeDay_of_fields.
  unfold addDays. rewrite <- (MakeDate_Day_Time t) at 3.
  unfold MakeDate. lia.
Qed.

Lemma Day_addDays t k : Day (addDays t k) = Day t + k.
Proof.
  unfold addDays, Day, msPerDay. rewrite Z.div_add by lia. reflexivity.
Qed.

Lemma getDay_addDays_week t k : getDay (addDays t (7 * k)) = getDay t.
Proof.
  unfold getDay, WeekDay. rewrite Day_addDays.
  replace (Day t + 7 * k + 4) with (Day t + 4 + k * 7) by lia.
  apply Z.mod_add. lia.
Qed.


Lemma setHoursMidnight_addDays t k :
  setHoursMidnight (addDays t k) = addDays (setHoursMidnight t) k.
Proof.
  unfold setHoursMidnight. rewrite Day_addDays.
  unfold addDays, MakeDate. lia.
Qed.



(** Month, day of month and year determine the day. *)
Lemma civil_fields_eq a b :
  (MonthFromTime a, DateFromTime a, YearFromTime a)
  = (MonthFromTime b, DateFromTime b, YearFromTime b) <-> Day a = Day b.
Proof.
  split.
  - intros H. injection H as Hm Hd Hy.
    pose proof (MakeDay_of_fields a 0) as Ha.
    pose proof (MakeDay_of_fields b 0) as Hb.
    rewrite Hm, Hd, Hy in Ha. lia.
  - intros H. unfold MonthFromTime, DateFromTime, YearFromTime.
    now rewrite H.
Qed.

(** Two dates of the same day print the same locale date; two dates of
    year 1 or later that print the same locale date fall on the same
    day. *)
Lemma toLocaleDateString_same_Day a b :
  Day a = Day b -> toLocaleDateString a = toLocaleDateString b.
Proof.
  intros H. apply civil_fields_eq in H. injection H as Hm Hd Hy.
  unfold toLocaleDateString. now rewrite Hm, Hd, Hy.
Qed.

Lemma toLocaleDateString_eq a b :
  commonEra a -> commonEra b ->
  toLocaleDateString a = toLocaleDateString b <-> Day a = Day b.
Proof.
  unfold commonEra. intros Ha Hb. split; [|apply toLocaleDateString_same_Day].
  unfold toLocaleDateString, eraYear. intros H. injection H as Hm Hd Hy.
  apply civil_fields_eq.
  destruct (Z.leb_spec (YearFromTime a) 0); [lia|].
  destruct (Z.leb_spec (YearFromTime b) 0); [lia|]. congruence.
Qed.

Lemma toDateString_eq a b :
  toDateString a = toDateString b <-> Day a = Day b.
Proof.
  split.
  - unfold toDateString. intros H. injection H as _ Hm Hd Hy.
    apply civil_fields_eq. congruence.
  - intros H.
    unfold toDateString, getDay, WeekDay, MonthFromTime, DateFromTime, YearFromTime.
    now rewrite H.
Qed.

Lemma commonEra_same_Day a b : Day a = Day b -> commonEra a -> commonEra b.
Proof. unfold commonEra, YearFromTime. now intros ->. Qed.

End DateMethodFacts.



(** ** Running the method monad *)

Ltac unfold_monad :=
  unfold bind, ret, gets, modify, lift, throw, newDate in *.

(** Reduce the plumbing only: projections of pairs and records, matches on
    constructors. *)
Ltac mred :=
  cbv beta iota;
  cbn [fst snd this seed clock
       timeViewGranularityMins_ effectiveStartDate_ viewStartDay_ viewStartDate_
       viewNumDays timeSlotsView_ schedulingItemsByDay_ selectedItems
       maxSelectedItems timeViewRenderOffMins viewStartTimeMins viewEndTimeMins
       set_effectiveStartDate_ set_viewStartDay_ set_viewStartDate_
       set_timeSlotsView_ set_schedulingItemsByDay_ set_selectedItems
       set_viewStartTimeMins set_viewEndTimeMins].

Lemma get_effectiveStartDate_eq w :
  get_effectiveStartDate w =
  (Returns (effectiveDate w),
   match effectiveStartDate_ (this w) with
   | Some _ => w
   | None => mkWorld (seed w) (clock w)
               (set_viewStartDate_ None
                  (set_effectiveStartDate_ (Some (effectiveDate w)) (this w)))
   end).
Proof.
  unfold get_effectiveStartDate, effectiveDate. unfold_monad.
  destruct (effectiveStartDate_ (this w)) as [d|]; [reflexivity|].
  destruct (schedulingItemsByDay_ (this w)); reflexivity.
Qed.

Lemma calculateStartDate_eq date w :
  calculateStartDate date w =
  (Returns (addDays (setHoursMidnight date) (viewStartDay_ (this w) - getDay date)), w).
Proof.
  unfold calculateStartDate. unfold_monad. cbv beta iota.
  replace (getDate (setHoursMidnight date) - getDay (setHoursMidnight date)
           + viewStartDay_ (this w))
    with (getDate (setHoursMidnight date)
          + (viewStartDay_ (this w) - getDay date))
    by (rewrite getDay_setHoursMidnight; lia).
  now rewrite setDate_getDate.
Qed.

(** The date [get viewStartDate()] hands out. *)
Lemma get_viewStartDate_value w :
  (get_viewStartDate w).1 =
  Returns match viewStartDate_ (this w) with
          | Some d => d
          | None => addDays (setHoursMidnight (effectiveDate w))
                            (viewStartDay_ (this w) - getDay (effectiveDate w))
          end.
Proof.
  unfold get_viewStartDate. unfold_monad. mred.
  destruct (viewStartDate_ (this w)) as [d|]; [reflexivity|].
  rewrite get_effectiveStartDate_eq. mred. rewrite calculateStartDate_eq. mred.
  destruct (effectiveStartDate_ (this w)); reflexivity.
Qed.

(** After the getter ran the value is cached, and nothing but the two date
    caches has changed. *)
Lemma get_viewStartDate_state w :
  let w' := (get_viewStartDate w).2 in
  (forall d, (get_viewStartDate w).1 = Returns d -> viewStartDate_ (this w') = Some d) /\
  viewStartDay_ (this w') = viewStartDay_ (this w) /\
  schedulingItemsByDay_ (this w') = schedulingItemsByDay_ (this w) /\
  seed w' = seed w /\ clock w' = clock w /\
  (viewStartDate_ (this w) <> None -> w' = w).
Proof.
  unfold get_viewStartDate. unfold_monad. mred.
  destruct (viewStartDate_ (this w)) as [d|] eqn:E.
  - mred. rewrite E. repeat split; congruence.
  - rewrite get_effectiveStartDate_eq. mred. rewrite calculateStartDate_eq. mred.
    destruct (effectiveStartDate_ (this w)); mred;
      (repeat split; try congruence).
Qed.


Ltac mred_in_all :=
  cbn [fst snd this seed clock
       timeViewGranularityMins_ effectiveStartDate_ viewStartDay_ viewStartDate_
       viewNumDays timeSlotsView_ schedulingItemsByDay_ selectedItems
       maxSelectedItems timeViewRenderOffMins viewStartTimeMins viewEndTimeMins
       set_effectiveStartDate_ set_viewStartDay_ set_viewStartDate_
       set_timeSlotsView_ set_schedulingItemsByDay_ set_selectedItems
       set_viewStartTimeMins set_viewEndTimeMins] in *.

Lemma bind_Returns {A B} (m : M A) (k : A -> M B) w a w' :
  m w = (Returns a, w') -> bind m k w = k a w'.
Proof. unfold bind. now intros ->. Qed.

Lemma bind_ret {A B} (a : A) (k : A -> M B) w : bind (ret a) k w = k a w.
Proof. reflexivity. Qed.

Lemma bind_gets {A B} (f : WeeklyScheduler -> A) (k : A -> M B) w :
  bind (gets f) k w = k (f (this w)) w.
Proof. reflexivity. Qed.

Lemma bind_modify {B} f (k : unit -> M B) w :
  bind (modify f) k w = k tt (mkWorld (seed w) (clock w) (f (this w))).
Proof. reflexivity. Qed.

Lemma bind_bind {A B C} (m : M A) (k : A -> M B) (h : B -> M C) w :
  bind (bind m k) h w = bind m (fun a => bind (k a) h) w.
Proof. unfold bind. destruct (m w) as [[a| |] w']; reflexivity. Qed.

(** ** C1: week alignment of the derived view start date *)




(** ** C8: paging by whole weeks *)

Lemma aver_isTrue_true : aver.isTrue true = Returns true.
Proof. reflexivity. Qed.



(** [changeViewPage] in one equation: [w1] is the state the getter
    leaves and [d0] the date it returns. *)
Lemma changeViewPage_eq w count d0 w1 :
  get_viewStartDate w = (Returns d0, w1) ->
  changeViewPage count w =
  if (Z.abs (addDays d0 (7 * count)) <=? maxTime) && (getDay d0 =? viewStartDay_ (this w))
  then (Returns tt,
        mkWorld (seed w1) (clock w1)
          (set_viewStartDate_ (Some (addDays (setHoursMidnight d0) (7 * count))) (this w1)))
  else (Throws AvermentFailure, w1).
Proof.
  intros Hget.
  pose proof (get_viewStartDate_state w) as (Hcache & Hvsd & _).
  rewrite Hget in Hcache, Hvsd. cbn [fst snd] in Hcache, Hvsd.
  specialize (Hcache d0 eq_refl).
  assert (E2 : get_viewStartDate w1 = (Returns d0, w1)).
  { unfold get_viewStartDate. unfold_monad. now rewrite Hcache. }
  unfold changeViewPage.
  rewrite (bind_Returns _ _ _ _ _ Hget), (bind_Returns _ _ _ _ _ E2).
  rewrite setDate_getDate. unfold TimeClip.
  destruct (Z.abs (addDays d0 (7 * count)) <=? maxTime); [|reflexivity].
  cbn [andb]. unfold set_viewStartDate. unfold_monad. mred.
  rewrite setHoursMidnight_addDays, getDay_addDays_week, getDay_setHoursMidnight, Hvsd.
  destruct (getDay d0 =? viewStartDay_ (this w)); reflexivity.
Qed.


Lemma new_WeeklyScheduler_ok seed0 now :
  viewStartDate_ok (this (new_WeeklyScheduler seed0 now).2).
Proof. split; [cbn; lia|]. intros d. discriminate. Qed.



(** ** C6: the granularity setter *)

(** C6 (as the code has it).  A constructed scheduler has granularity 30,
    and assigning [timeViewGranularityMins] throws for every value, the
    default 30 included, leaving the whole state (so the stored 30) as it
    was. *)
Theorem timeViewGranularityMins_setter_always_throws (v : Z) (w : World) :
  set_timeViewGranularityMins v w = (Throws Unimplemented, w) /\
  forall seed0 now,
    timeViewGranularityMins_ (this (new_WeeklyScheduler seed0 now).2) = 30.
Proof. split; reflexivity. Qed.

(** C6 as stated fails: assigning the default value 30 throws as well. *)
Lemma timeViewGranularityMins_setter_counterexample :
  timeViewGranularityMins_ (this freshWorld) = 30 /\
  (set_timeViewGranularityMins 30 freshWorld).1 = Throws Unimplemented.
Proof. split; reflexivity. Qed.

(** ** C7: the selection law *)

Lemma findIndexFrom_found {A} (p : A -> bool) l i :
  findIndexFrom p l i <> -1 -> 0 <= i ->
  exists n x, findIndexFrom p l i = i + Z.of_nat n /\ l !! n = Some x /\ p x = true /\
              forall m y, (m < n)%nat -> l !! m = Some y -> p y = false.
Proof.
  revert i. induction l as [|a l IH]; intros i Hfound Hi; cbn in *; [congruence|].
  destruct (p a) eqn:Ha.
  - exists 0%nat, a. repeat split; auto; try lia.
  - destruct (IH (i + 1) Hfound ltac:(lia)) as (n & x & Hn & Hx & Hp & Hbefore).
    exists (S n), x. repeat split; auto; try lia.
    intros [|m] y Hm Hy; cbn in Hy; [congruence|]. apply (Hbefore m); [lia|done].
Qed.

Lemma findIndexFrom_none {A} (p : A -> bool) l i :
  findIndexFrom p l i = -1 -> 0 <= i -> forall x, x ∈ l -> p x = false.
Proof.
  revert i. induction l as [|a l IH]; intros i Hnone Hi x Hx; cbn in *.
  - inversion Hx.
  - destruct (p a) eqn:Ha; [lia|].
    apply elem_of_cons in Hx as [->|Hx]; [done|]. apply (IH (i + 1)); auto; lia.
Qed.

Lemma findIndexFrom_range {A} (p : A -> bool) l i :
  0 <= i -> findIndexFrom p l i = -1 \/ i <= findIndexFrom p l i.
Proof.
  revert i. induction l as [|a l IH]; intros i Hi; cbn; [auto|].
  destruct (p a); [right; lia|]. destruct (IH (i + 1)); [lia|auto|right; lia].
Qed.

Lemma indexOf_selected item sel :
  indexOf item sel <> -1 <-> isSelected item sel.
Proof.
  unfold indexOf, findIndex, isSelected, sameItem. split.
  - intros H. destruct (findIndexFrom_found _ _ _ H) as (n & x & _ & Hx & Hp & _); [lia|].
    exists x. split; [eapply list_elem_of_lookup_2; eauto|].
    apply Z.eqb_eq in Hp. lia.
  - intros (x & Hx & Hid) Hnone.
    pose proof (findIndexFrom_none _ _ _ Hnone ltac:(lia) x Hx) as Hp.
    apply Z.eqb_neq in Hp. lia.
Qed.

(** [#handleSelectItem] as one equation on the selection. *)
Lemma handleSelectItem_eq item w :
  let sel := selectedItems (this w) in
  let mx := maxSelectedItems (this w) in
  handleSelectItem item w =
  (Returns tt,
   if -1 <? indexOf item sel
   then mkWorld (seed w) (clock w) (set_selectedItems (splice1 (indexOf item sel) sel) (this w))
   else if mx <=? Z.of_nat (length sel)
        then if 1 <? mx then w
             else mkWorld (seed w) (clock w) (set_selectedItems [item] (this w))
        else mkWorld (seed w) (clock w) (set_selectedItems (sel ++ [item]) (this w))).
Proof.
  intros sel mx. subst sel mx. unfold handleSelectItem. unfold_monad. mred.
  destruct (-1 <? indexOf item (selectedItems (this w))); [reflexivity|].
  destruct (maxSelectedItems (this w) <=? Z.of_nat (length (selectedItems (this w))));
    [|reflexivity].
  destruct (1 <? maxSelectedItems (this w)); reflexivity.
Qed.

Lemma toggle_maxSelectedItems item w :
  maxSelectedItems (this (toggle item w)) = maxSelectedItems (this w).
Proof.
  unfold toggle. rewrite handleSelectItem_eq. mred.
  repeat match goal with |- context [if ?b then _ else _] => destruct b end; reflexivity.
Qed.

Lemma toggle_selectedItems item w :
  selectedItems (this (toggle item w)) =
  toggled (maxSelectedItems (this w)) item (selectedItems (this w)).
Proof.
  unfold toggle, toggled. rewrite handleSelectItem_eq. mred.
  repeat match goal with |- context [if ?b then _ else _] => destruct b end; reflexivity.
Qed.

Lemma toggleAll_selectedItems items w :
  selectedItems (this (toggleAll items w)) =
  foldl (fun sel item => toggled (maxSelectedItems (this w)) item sel)
        (selectedItems (this w)) items.
Proof.
  unfold toggleAll. revert w. induction items as [|item items IH]; intros w; [reflexivity|].
  cbn [foldl]. rewrite IH, toggle_maxSelectedItems, toggle_selectedItems. reflexivity.
Qed.

(** Clicks never put an item into the selection twice. *)
Lemma toggled_NoDup mx item sel :
  NoDup (id <$> sel) -> NoDup (id <$> toggled mx item sel).
Proof.
  intros Hnodup. unfold toggled.
  pose proof (indexOf_selected item sel) as Hsel.
  destruct (Z.ltb_spec (-1) (indexOf item sel)) as [Hin|Hout].
  - destruct (findIndexFrom_found (sameItem item) sel 0) as (i & x & Hi & Hx & _);
      [unfold indexOf, findIndex in Hin; lia|lia|].
    fold (findIndex (sameItem item) sel) in Hi. fold (indexOf item sel) in Hi.
    unfold splice1. rewrite Hi, Z.add_0_l, Nat2Z.id.
    rewrite <- (take_drop_middle sel i x Hx) in Hnodup.
    rewrite fmap_app, fmap_cons in Hnodup. rewrite fmap_app.
    apply NoDup_app in Hnodup as (Hl & Hcross & Hr).
    apply NoDup_cons in Hr as [_ Hr].
    apply NoDup_app. split; [done|]. split; [|done].
    intros z Hz Hz'. apply (Hcross z Hz). now right.
  - assert (Hnone : indexOf item sel = -1).
    { destruct (findIndexFrom_range (sameItem item) sel 0 ltac:(lia)) as [H|H];
        unfold indexOf, findIndex in *; lia. }
    destruct (mx <=? Z.of_nat (length sel)).
    + destruct (1 <? mx); [done|]. cbn. apply NoDup_singleton.
    + rewrite fmap_app. apply NoDup_app. split; [done|].
      split; [|cbn; apply NoDup_singleton].
      intros z Hz Hz'. apply list_elem_of_singleton in Hz'. subst z.
      apply list_elem_of_fmap in Hz as (y & Hid & Hy).
      assert (isSelected item sel) by (exists y; split; [done|lia]).
      apply Hsel in H. lia.
Qed.

(** C7.  A click on a selected item removes it, the items after it moving
    up one rank; a click on an unselected item when the selection is full
    changes nothing if [maxSelectedItems > 1] and otherwise replaces the
    selection by that item; below the cap the item is appended.  With a cap
    of 2, clicks on A, B, C give [A; B], a further click on A gives [B] and
    a further click on C gives [B; C]. *)
Theorem selection_toggle_law :
  (forall (w : World) (item : SchedulingItem),
     let sel := selectedItems (this w) in
     let mx := maxSelectedItems (this w) in
     let sel' := selectedItems (this (toggle item w)) in
     (handleSelectItem item w).1 = Returns tt /\
     (isSelected item sel ->
      exists (i : nat) x,
        sel !! i = Some x /\ id x = id item /\
        (forall (j : nat) y, (j < i)%nat -> sel !! j = Some y -> id y <> id item) /\
        sel' = take i sel ++ drop (S i) sel /\
        S (length sel') = length sel /\
        (forall j : nat, (j < i)%nat -> sel' !! j = sel !! j) /\
        (forall j : nat, (i <= j)%nat -> sel' !! j = sel !! S j) /\
        (NoDup (id <$> sel) -> ~ isSelected item sel')) /\
     (~ isSelected item sel -> mx <= Z.of_nat (length sel) -> 1 < mx ->
      toggle item w = w) /\
     (~ isSelected item sel -> mx <= Z.of_nat (length sel) -> mx <= 1 ->
      sel' = [item]) /\
     (~ isSelected item sel -> Z.of_nat (length sel) < mx ->
      sel' = sel ++ [item])) /\
  (forall (w : World) (A B C : SchedulingItem),
     selectedItems (this w) = [] -> maxSelectedItems (this w) = 2 ->
     id A <> id B -> id A <> id C -> id B <> id C ->
     selectedItems (this (toggleAll [A; B; C] w)) = [A; B] /\
     selectedItems (this (toggleAll [A; B; C; A] w)) = [B] /\
     selectedItems (this (toggleAll [A; B; C; A; C] w)) = [B; C]).
Proof.
  split.
  - intros w item sel mx sel'.
    pose proof (handleSelectItem_eq item w) as Heq. cbv zeta in Heq. fold sel mx in Heq.
    pose proof (indexOf_selected item sel) as Hsel.
    assert (Hrange : indexOf item sel = -1 \/ 0 <= indexOf item sel)
      by (apply findIndexFrom_range; lia).
    split; [now rewrite Heq|].
    subst sel'. unfold toggle. rewrite Heq. mred.
    split; [|split; [|split]].
    + intros His. apply Hsel in His.
      destruct (findIndexFrom_found (sameItem item) sel 0 His) as (i & x & Hi & Hx & Hp & Hb);
        [lia|].
      fold (findIndex (sameItem item) sel) in Hi. fold (indexOf item sel) in Hi.
      destruct (Z.ltb_spec (-1) (indexOf item sel)); [|lia]. mred.
      unfold splice1. rewrite Hi, Z.add_0_l, Nat2Z.id.
      assert (Hlen : (i < length sel)%nat) by (eapply lookup_lt_Some; eauto).
      exists i, x. unfold sameItem in *.
      split; [done|]. split; [apply Z.eqb_eq in Hp; lia|].
      split; [intros j y Hj Hy; specialize (Hb j y Hj Hy);
              apply Z.eqb_neq in Hb; lia|].
      split; [reflexivity|].
      split; [rewrite length_app, length_take, length_drop; lia|].
      split; [|split].
      * intros j Hj. rewrite lookup_app_l by (rewrite length_take; lia).
        apply lookup_take_lt; lia.
      * intros j Hj. rewrite lookup_app_r by (rewrite length_take; lia).
        rewrite length_take, lookup_drop. f_equal. lia.
      * intros Hnodup (y & Hy & Hid).
        rewrite <- (take_drop_middle sel i x Hx) in Hnodup.
        rewrite fmap_app, fmap_cons in Hnodup.
        apply NoDup_app in Hnodup as (_ & Hleft & Hright).
        apply NoDup_cons in Hright as [Hright _].
        apply Z.eqb_eq in Hp.
        apply elem_of_app in Hy as [Hy|Hy].
        -- apply (Hleft (id y)); [now apply list_elem_of_fmap_2|].
           replace (id y) with (id x) by lia. left.
        -- apply Hright. replace (id x) with (id y) by lia.
           now apply list_elem_of_fmap_2.
    + intros Hnot Hfull Hmulti.
      destruct (Z.ltb_spec (-1) (indexOf item sel)) as [Hin|_];
        [exfalso; apply Hnot, Hsel; lia|].
      destruct (Z.leb_spec mx (Z.of_nat (length sel))); [|lia].
      destruct (Z.ltb_spec 1 mx); [reflexivity|lia].
    + intros Hnot Hfull Hsingle.
      destruct (Z.ltb_spec (-1) (indexOf item sel)) as [Hin|_];
        [exfalso; apply Hnot, Hsel; lia|].
      destruct (Z.leb_spec mx (Z.of_nat (length sel))); [|lia].
      destruct (Z.ltb_spec 1 mx); [lia|reflexivity].
    + intros Hnot Hroom.
      destruct (Z.ltb_spec (-1) (indexOf item sel)) as [Hin|_];
        [exfalso; apply Hnot, Hsel; lia|].
      destruct (Z.leb_spec mx (Z.of_nat (length sel))); [lia|reflexivity].
  - intros w A B C Hempty Hmax HAB HAC HBC.
    assert (EBA : (id B =? id A) = false) by (apply Z.eqb_neq; lia).
    assert (ECA : (id C =? id A) = false) by (apply Z.eqb_neq; lia).
    assert (ECB : (id C =? id B) = false) by (apply Z.eqb_neq; lia).
    assert (S1 : toggled 2 A [] = [A]) by reflexivity.
    assert (S2 : toggled 2 B [A] = [A; B]).
    { unfold toggled, indexOf, findIndex, sameItem. cbn [findIndexFrom].
      now rewrite EBA. }
    assert (S3 : toggled 2 C [A; B] = [A; B]).
    { unfold toggled, indexOf, findIndex, sameItem. cbn [findIndexFrom].
      now rewrite ECA, ECB. }
    assert (S4 : toggled 2 A [A; B] = [B]).
    { unfold toggled, indexOf, findIndex, sameItem. cbn [findIndexFrom].
      now rewrite Z.eqb_refl. }
    assert (S5 : toggled 2 C [B] = [B; C]).
    { unfold toggled, indexOf, findIndex, sameItem. cbn [findIndexFrom].
      now rewrite ECB. }
    rewrite !toggleAll_selectedItems, Hempty, Hmax. cbn [foldl].
    now rewrite S1, S2, S3, S4, S5.
Qed.

Lemma selection_toggle_law_witness :
  selectedItems (this freshWorld) = [] /\ maxSelectedItems (this freshWorld) = 2 /\
  id itemA <> id itemB /\ id itemA <> id itemC /\ id itemB <> id itemC /\
  (selectedItems (this (toggleAll [itemA; itemB; itemC] freshWorld)) = [itemA; itemB] /\
   selectedItems (this (toggleAll [itemA; itemB; itemC; itemA] freshWorld)) = [itemB] /\
   selectedItems (this (toggleAll [itemA; itemB; itemC; itemA; itemC] freshWorld))
   = [itemB; itemC]).
Proof.
  split; [reflexivity|]. split; [reflexivity|].
  split; [cbn; lia|]. split; [cbn; lia|]. split; [cbn; lia|].
  apply (proj2 selection_toggle_law freshWorld itemA itemB itemC);
    try reflexivity; cbn; lia.
Defined.

(** ** The time window is recomputed without touching the items *)

Lemma same_items_refl w : same_items w w.
Proof. repeat split. Qed.

Lemma same_items_trans w1 w2 w3 : same_items w1 w2 -> same_items w2 w3 -> same_items w1 w3.
Proof. unfold same_items. intros H1 H2. intuition congruence. Qed.

Lemma get_viewStartDate_same_items w :
  exists d, (get_viewStartDate w).1 = Returns d /\ same_items w (get_viewStartDate w).2.
Proof.
  eexists. split; [apply get_viewStartDate_value|].
  unfold get_viewStartDate. unfold_monad. mred.
  destruct (viewStartDate_ (this w)); [apply same_items_refl|].
  rewrite get_effectiveStartDate_eq. mred. rewrite calculateStartDate_eq. mred.
  destruct (effectiveStartDate_ (this w)); repeat split.
Qed.

Lemma findIndexM_viewStartDate_same_items l i w :
  let p := fun d : DayBucket => bind get_viewStartDate (fun v => ret (bucket_day d <? v)) in
  exists r, (findIndexM p l i w).1 = Returns r /\ same_items w (findIndexM p l i w).2.
Proof.
  intros p. revert i w. induction l as [|b l IH]; intros i w; cbn [findIndexM].
  - exists (-1). split; [reflexivity|apply same_items_refl].
  - destruct (get_viewStartDate_same_items w) as (d & Hd & Hsame).
    destruct (get_viewStartDate w) as [o w1] eqn:E. cbn [fst snd] in *. subst o.
    assert (Hp : p b w = (Returns (bucket_day b <? d), w1)).
    { subst p. cbv beta. now rewrite (bind_Returns _ _ _ _ _ E). }
    rewrite (bind_Returns _ _ _ _ _ Hp).
    destruct (bucket_day b <? d).
    + exists i. split; [reflexivity|exact Hsame].
    + destruct (IH (i + 1) w1) as (r & Hr & Hs).
      exists r. split; [exact Hr|]. eapply same_items_trans; eauto.
Qed.

Lemma updateViewProperties_same_items w :
  (updateViewProperties w).1 = Returns tt /\ same_items w (updateViewProperties w).2.
Proof.
  unfold updateViewProperties, calculateMinStartTime, calculateMaxEndTime.
  repeat (rewrite bind_modify || rewrite bind_gets || rewrite bind_ret || rewrite bind_bind).
  mred.
  match goal with |- context [bind (findIndexM ?p ?l ?i) ?k ?w'] =>
    destruct (findIndexM_viewStartDate_same_items l i w') as (r & Hr & Hs);
    destruct (findIndexM p l i w') as [o w1] eqn:E;
    cbn [fst snd] in Hr, Hs; subst o;
    rewrite (bind_Returns _ k _ _ _ E)
  end.
  repeat (rewrite bind_modify || rewrite bind_gets || rewrite bind_ret || rewrite bind_bind).
  unfold modify. mred.
  split; [reflexivity|].
  destruct Hs as (? & ? & ? & ? & ? & ? & ? & ? & ? & ?). mred_in_all.
  repeat split; assumption.
Qed.

(** ** Item construction and insertion *)

Lemma new_SchedulingItem_eq spec w :
  new_SchedulingItem spec w =
  (match specItem (seed w + 1) spec with
   | Some item => Returns item
   | None => Throws AvermentFailure
   end,
   mkWorld (seed w + 1) (clock w) (this w)).
Proof.
  unfold new_SchedulingItem, specItem, nextId, captionAccepted.
  rewrite (bind_Returns nextId _ w (seed w + 1) (mkWorld (seed w + 1) (clock w) (this w)))
    by reflexivity.
  destruct spec as [cap dy sta dat dur]. cbn [spec_caption spec_day spec_startTimeMins
    spec_data spec_durationMins].
  assert (Hcap :
    (if negb (strictEqualsNull cap) && negb (types.isNonEmptyString cap)
        && negb (types.isFunction cap)
     then lift (aver.isNonEmptyString cap) else ret cap)
    = (if strictEqualsNull cap || types.isNonEmptyString cap || types.isFunction cap
       then ret cap else throw AvermentFailure)).
  { unfold aver.isNonEmptyString.
    destruct (strictEqualsNull cap), (types.isNonEmptyString cap) eqn:E,
      (types.isFunction cap); cbn; try reflexivity. }
  rewrite Hcap. clear Hcap.
  destruct (strictEqualsNull cap || types.isNonEmptyString cap || types.isFunction cap);
    unfold_monad; cbn [andb].
  - destruct dy; try reflexivity; destruct sta; try reflexivity;
      destruct dur; try reflexivity; destruct dat; reflexivity.
  - destruct dy; try reflexivity; destruct sta; try reflexivity;
      destruct dur; reflexivity.
Qed.

Lemma accepted_specItem spec newId :
  accepted spec <-> exists item, specItem newId spec = Some item.
Proof.
  unfold accepted, specItem. destruct spec as [cap dy sta dat dur]; cbn.
  split.
  - intros (Hc & Hd & Hs & Hn & Ho).
    destruct dy; try discriminate. destruct sta; try discriminate.
    destruct dur; try discriminate. rewrite Hc, Ho. cbn. eauto.
  - intros (item & H).
    destruct dy; try discriminate. destruct sta; try discriminate.
    destruct dur; try discriminate.
    destruct (captionAccepted cap); [|discriminate].
    destruct (types.isObject dat); [|discriminate]. auto.
Qed.

Lemma addItem_eq spec w :
  addItem spec w =
  match specItem (seed w + 1) spec with
  | None => (Throws AvermentFailure, mkWorld (seed w + 1) (clock w) (this w))
  | Some item =>
      (Returns item,
       (updateViewProperties
          (mkWorld (seed w + 1) (clock w)
             (set_schedulingItemsByDay_
                (bucketInsert item (schedulingItemsByDay_ (this w))) (this w)))).2)
  end.
Proof.
  unfold addItem, bind at 1. rewrite new_SchedulingItem_eq.
  destruct (specItem (seed w + 1) spec) as [item|]; [|reflexivity].
  rewrite bind_gets. mred. unfold bucketInsert.
  set (w1 := mkWorld (seed w + 1) (clock w) (this w)).
  set (p := fun d : DayBucket => bool_decide _).
  set (f := fun d : DayBucket => mkBucket _ _).
  assert (Hmod : forall l (k : unit -> M SchedulingItem),
             bind (modify (set_schedulingItemsByDay_ l)) k w1
             = k tt (mkWorld (seed w + 1) (clock w) (set_schedulingItemsByDay_ l (this w))))
    by reflexivity.
  destruct (find p (schedulingItemsByDay_ (this w))); rewrite Hmod;
    match goal with |- context [updateViewProperties ?w2] =>
      destruct (updateViewProperties_same_items w2) as [Hr _];
      unfold bind; destruct (updateViewProperties w2) as [o w3];
      cbn [fst snd] in *; subst o; reflexivity
    end.
Qed.

(** ** The view start date stays aligned *)




Lemma set_viewStartDate_keeps_ok v w :
  0 <= viewStartDay_ (this w) < 7 ->
  (set_viewStartDate v w).1 = Returns tt ->
  viewStartDate_ok (this (set_viewStartDate v w).2).
Proof.
  intros Hv. unfold set_viewStartDate. rewrite bind_gets. unfold bind, lift.
  destruct (Z.eqb_spec (getDay (setHoursMidnight v)) (viewStartDay_ (this w))) as [Hd|Hd];
    cbn; [|discriminate].
  intros _. split; [exact Hv|]. intros d [= <-].
  split; [exact Hd|apply setHoursMidnight_idem].
Qed.

(** ** Array facts *)

Section ArrayFacts.
Context {A : Type}.
Implicit Types (p : A -> bool) (compare : A -> A -> Z) (l : list A).

Lemma elem_of_insertSorted compare a l x :
  x ∈ insertSorted compare a l <-> x = a \/ x ∈ l.
Proof.
  induction l as [|y l IH]; cbn.
  - rewrite list_elem_of_singleton, elem_of_nil. tauto.
  - destruct (compare a y <? 0).
    + rewrite !elem_of_cons. tauto.
    + rewrite !elem_of_cons, IH. tauto.
Qed.

Lemma sort_snoc compare l x :
  sort compare (l ++ [x]) = insertSorted compare x (sort compare l).
Proof. unfold sort. now rewrite foldl_app. Qed.

Lemma elem_of_sort compare l x : x ∈ sort compare l <-> x ∈ l.
Proof.
  induction l as [|y l IH] using rev_ind.
  - reflexivity.
  - rewrite sort_snoc, elem_of_insertSorted, elem_of_app, list_elem_of_singleton, IH. tauto.
Qed.

Lemma find_ext p q l : (forall x, p x = q x) -> find p l = find q l.
Proof. intros H. induction l as [|y l IH]; cbn; [done|]. now rewrite H, IH. Qed.

Lemma find_None_elem_of p l : find p l = None <-> forall x, x ∈ l -> p x = false.
Proof.
  induction l as [|y l IH]; cbn.
  - split; [intros _ x Hx; inversion Hx|done].
  - destruct (p y) eqn:E.
    + split; [done|]. intros H. rewrite (H y) in E by left. done.
    + rewrite IH. split.
      * intros H x [->|Hx]%elem_of_cons; auto.
      * intros H x Hx. apply H. now right.
Qed.

Lemma find_Some_elem_of p l x : find p l = Some x -> x ∈ l /\ p x = true.
Proof.
  induction l as [|y l IH]; cbn; [done|].
  destruct (p y) eqn:E.
  - intros [= ->]. split; [left|done].
  - intros H. destruct (IH H). split; [now right|done].
Qed.

Lemma find_unique p l x :
  x ∈ l -> p x = true -> (forall y, y ∈ l -> p y = true -> y = x) -> find p l = Some x.
Proof.
  intros Hx Hp Huniq. destruct (find p l) as [y|] eqn:E.
  - apply find_Some_elem_of in E as [Hy Hpy]. f_equal. auto.
  - rewrite find_None_elem_of in E. rewrite (E x Hx) in Hp. done.
Qed.

Lemma find_updateFound p q (f : A -> A) l :
  (forall x, q (f x) = q x) -> (forall x, q x = p x) ->
  find q (updateFound p f l) = f <$> find q l.
Proof.
  intros Hf Hpq. induction l as [|y l IH]; cbn; [done|].
  destruct (p y) eqn:E; cbn.
  - now rewrite Hf, Hpq, E.
  - now rewrite Hpq, E, IH.
Qed.

End ArrayFacts.

Lemma sameDay_toLocaleDateString a b :
  commonEra a -> commonEra b ->
  bool_decide (toLocaleDateString a = toLocaleDateString b) = sameDay a b.
Proof.
  intros Ha Hb. unfold sameDay. destruct (Z.eqb_spec (Day a) (Day b)) as [H|H].
  - apply bool_decide_eq_true_2. now apply toLocaleDateString_eq.
  - apply bool_decide_eq_false_2. now rewrite toLocaleDateString_eq.
Qed.

Lemma sameDay_toDateString a b :
  bool_decide (toDateString a = toDateString b) = sameDay a b.
Proof.
  unfold sameDay. destruct (Z.eqb_spec (Day a) (Day b)) as [H|H].
  - apply bool_decide_eq_true_2. now apply toDateString_eq.
  - apply bool_decide_eq_false_2. now rewrite toDateString_eq.
Qed.

Lemma sameDay_sym a b : sameDay a b = sameDay b a.
Proof. unfold sameDay. apply Z.eqb_sym. Qed.

Lemma sameDay_refl a : sameDay a a = true.
Proof. unfold sameDay. apply Z.eqb_refl. Qed.

Lemma find_ext_in {A} (p q : A -> bool) l :
  (forall x, x ∈ l -> p x = q x) -> find p l = find q l.
Proof.
  induction l as [|y l IH]; intros H; cbn; [done|].
  rewrite (H y) by left. rewrite IH; [done|]. intros x Hx. apply H. now right.
Qed.

Lemma updateFound_ext_in {A} (p q : A -> bool) f l :
  (forall x, x ∈ l -> p x = q x) -> updateFound p f l = updateFound q f l.
Proof.
  induction l as [|y l IH]; intros H; cbn; [done|].
  rewrite (H y) by left. destruct (q y); [done|].
  rewrite IH; [done|]. intros x Hx. apply H. now right.
Qed.

(** [bucketInsert] in terms of calendar days, for dates of year 1 or
    later. *)
Lemma bucketInsert_eq item byDay :
  commonEra (day item) ->
  Forall (fun b => commonEra (bucket_day b)) byDay ->
  bucketInsert item byDay =
  match find (fun d => sameDay (bucket_day d) (day item)) byDay with
  | None => sort compareDays (byDay ++ [mkBucket (day item) [item]])
  | Some _ => updateFound (fun d => sameDay (bucket_day d) (day item))
                (fun d => mkBucket (bucket_day d) (bucket_items d ++ [item])) byDay
  end.
Proof.
  intros Hitem Hall. rewrite Forall_forall in Hall. unfold bucketInsert.
  assert (Hp : forall d, d ∈ byDay ->
    bool_decide (toLocaleDateString (day item) = toLocaleDateString (bucket_day d))
    = sameDay (bucket_day d) (day item)).
  { intros d Hd. rewrite sameDay_toLocaleDateString by auto. apply sameDay_sym. }
  rewrite (find_ext_in _ _ _ Hp).
  destruct (find _ byDay); [|reflexivity].
  now apply updateFound_ext_in.
Qed.

(** After the insertion the bucket that prints the item's locale date
    ends with the item. *)
Lemma bucketInsert_find item byDay :
  exists b,
    find (fun d => bool_decide (toLocaleDateString (day item)
                                = toLocaleDateString (bucket_day d)))
         (bucketInsert item byDay) = Some b
    /\ last (bucket_items b) = Some item.
Proof.
  unfold bucketInsert.
  set (p := fun d : DayBucket =>
              bool_decide (toLocaleDateString (day item) = toLocaleDateString (bucket_day d))).
  destruct (find p byDay) as [b|] eqn:E.
  - exists (mkBucket (bucket_day b) (bucket_items b ++ [item])).
    rewrite (find_updateFound p p) by done. rewrite E. split; [done|].
    cbn. apply last_snoc.
  - exists (mkBucket (day item) [item]). split; [|done].
    rewrite find_None_elem_of in E.
    apply find_unique.
    + apply elem_of_sort, elem_of_app. right. now left.
    + subst p. cbn. now apply bool_decide_eq_true_2.
    + intros y Hy Hpy. apply elem_of_sort, elem_of_app in Hy as [Hy|Hy].
      * rewrite (E y Hy) in Hpy. done.
      * now apply list_elem_of_singleton in Hy.
Qed.

Lemma elem_of_updateFound_any {A} (p : A -> bool) f (l : list A) x :
  x ∈ updateFound p f l -> x ∈ l \/ exists y, y ∈ l /\ x = f y.
Proof.
  induction l as [|y l IH]; cbn; [intros H; inversion H|].
  destruct (p y).
  - intros [->|Hx]%elem_of_cons.
    + right. exists y. split; [left|done].
    + left. now right.
  - intros [->|Hx]%elem_of_cons; [left; left|].
    destruct (IH Hx) as [H|(z & Hz & ->)]; [left; now right|].
    right. exists z. split; [now right|done].
Qed.

Lemma bucketInsert_commonEra item byDay :
  commonEra (day item) ->
  Forall (fun b => commonEra (bucket_day b)) byDay ->
  Forall (fun b => commonEra (bucket_day b)) (bucketInsert item byDay).
Proof.
  intros Hitem Hall. rewrite Forall_forall in *. unfold bucketInsert.
  destruct (find _ byDay).
  - intros x [Hx|(y & Hy & ->)]%elem_of_updateFound_any; [auto|]. cbn. auto.
  - intros x [Hx|Hx]%elem_of_sort%elem_of_app; [auto|].
    apply list_elem_of_singleton in Hx as ->. exact Hitem.
Qed.

Lemma theDaysItems_eq date w :
  theDaysItems date w =
  bucket_items <$> find (fun d => sameDay (bucket_day d) date) (schedulingItemsByDay_ (this w)).
Proof.
  unfold theDaysItems. f_equal. apply find_ext. intros d. apply sameDay_toDateString.
Qed.

Lemma calculateTheDaysItems_eq date w :
  calculateTheDaysItems date w = (Returns (theDaysItems date w), w).
Proof. reflexivity. Qed.

(** ** C5: what [addItem] validates *)

(** C5 (as the code has it).  [addItem] throws, synchronously and leaving
    the scheduler's state as it was, exactly for the specs the constructor
    does not accept: a caption that is neither [null], a non-empty string
    nor a function, a [day] that is not a [Date], a [startTimeMins] or
    [durationMins] that is not a number, a [data] that is not an object.
    Every other spec is accepted, whatever its numbers: the created item is
    returned and ends the bucket that prints its locale date, which is the
    bucket a lookup of its day finds when the days in the store and its own
    are of year 1 or later.  No range of [durationMins] or [startTimeMins]
    is checked. *)
Theorem addItem_validation (spec : ItemSpec) (w : World) :
  (~ accepted spec ->
   (addItem spec w).1 = Throws AvermentFailure /\ this (addItem spec w).2 = this w) /\
  (accepted spec ->
   exists item items,
     (addItem spec w).1 = Returns item /\
     specItem (seed w + 1) spec = Some item /\
     bucket_items <$>
       find (fun d => bool_decide (toLocaleDateString (day item)
                                   = toLocaleDateString (bucket_day d)))
            (schedulingItemsByDay_ (this (addItem spec w).2)) = Some items /\
     last items = Some item /\
     (commonEra (day item) ->
      Forall (fun b => commonEra (bucket_day b)) (schedulingItemsByDay_ (this w)) ->
      theDaysItems (day item) (addItem spec w).2 = Some items)) /\
  (forall d sta dur,
     spec = mkSpec JSNull (JSDateObject d) (JSNumber sta) (JSObject 0) (JSNumber dur) ->
     accepted spec).
Proof.
  rewrite addItem_eq. split; [|split].
  - intros Hnot. destruct (specItem (seed w + 1) spec) as [item|] eqn:E; [|done].
    exfalso. apply Hnot. apply (accepted_specItem spec (seed w + 1)). eauto.
  - intros Hacc. apply (accepted_specItem spec (seed w + 1)) in Hacc as [item E].
    rewrite E. mred.
    destruct (bucketInsert_find item (schedulingItemsByDay_ (this w))) as (b & Hb & Hlast).
    exists item, (bucket_items b). split; [done|]. split; [done|].
    match goal with |- context [updateViewProperties ?w1] =>
      destruct (updateViewProperties_same_items w1) as (_ & _ & _ & Hs & _) end.
    split; [|split; [done|]].
    + rewrite Hs. mred. now rewrite Hb.
    + intros Hitem Hall. rewrite theDaysItems_eq, Hs. mred.
      pose proof (bucketInsert_commonEra item _ Hitem Hall) as Hall'.
      rewrite Forall_forall in Hall'.
      rewrite (find_ext_in _ (fun d => bool_decide (toLocaleDateString (day item)
                                = toLocaleDateString (bucket_day d)))).
      * now rewrite Hb.
      * intros d Hd. rewrite sameDay_toLocaleDateString by auto. apply sameDay_sym.
  - intros d sta dur ->. repeat split.
Qed.

Lemma addItem_validation_witness :
  accepted scenarioSpec /\
  exists item items,
    (addItem scenarioSpec freshWorld).1 = Returns item /\
    specItem (seed freshWorld + 1) scenarioSpec = Some item /\
    bucket_items <$>
      find (fun d => bool_decide (toLocaleDateString (day item)
                                  = toLocaleDateString (bucket_day d)))
           (schedulingItemsByDay_ (this (addItem scenarioSpec freshWorld).2)) = Some items /\
    last items = Some item /\
    (commonEra (day item) ->
     Forall (fun b => commonEra (bucket_day b)) (schedulingItemsByDay_ (this freshWorld)) ->
     theDaysItems (day item) (addItem scenarioSpec freshWorld).2 = Some items).
Proof.
  assert (H : accepted scenarioSpec) by (repeat split).
  split; [exact H|].
  apply (proj1 (proj2 (addItem_validation scenarioSpec freshWorld)) H).
Defined.

(** C5 as stated fails: a spec with [durationMins = 0] and
    [startTimeMins = 2000] is accepted and stored. *)
Lemma addItem_validation_counterexample :
  spec_durationMins outOfRangeSpec = JSNumber 0 /\
  spec_startTimeMins outOfRangeSpec = JSNumber 2000 /\
  (addItem outOfRangeSpec freshWorld).1
  = Returns (mkItem 1 (ymd 2024 12 28) JSNull 2000 0 (JSObject 0)) /\
  theDaysItems (ymd 2024 12 28) (addItem outOfRangeSpec freshWorld).2
  = Some [mkItem 1 (ymd 2024 12 28) JSNull 2000 0 (JSObject 0)].
Proof. repeat split; vm_compute; reflexivity. Qed.

(** ** C3: the end-to-end scenario *)

(** C3 (as the code has it).  On a freshly constructed scheduler (empty
    store, granularity 30), [addItem] of an item on 2024-12-28 starting at
    540 and lasting 60 minutes (with [caption: null] and a [data] object)
    sets [viewStartTimeMins = 540] and [viewEndTimeMins = 599], the item's
    [endTimeMins].  The placement pass for that day returns five cells, of
    which exactly one carries an item: the added item, at slot 2, with row
    span 2. *)
Theorem scenario_single_item (seed0 : Z) (now : Date) :
  let w0 := (new_WeeklyScheduler seed0 now).2 in
  let item := mkItem (seed0 + 1) (ymd 2024 12 28) JSNull 540 60 (JSObject 0) in
  let w1 := (addItem scenarioSpec w0).2 in
  schedulingItemsByDay_ (this w0) = [] /\
  timeViewGranularityMins_ (this w0) = 30 /\
  (addItem scenarioSpec w0).1 = Returns item /\
  viewStartTimeMins (this w1) = 540 /\
  viewEndTimeMins (this w1) = 599 /\
  exists cells,
    (renderTimeCells 7 (ymd 2024 12 28) w1).1 = Returns cells /\
    length cells = 5%nat /\
    List.filter hasItem cells = [mkCell 2 540 true (Some item) (Some 2)].
Proof.
  intros w0 item w1.
  split; [reflexivity|]. split; [reflexivity|]. split; [reflexivity|].
  split; [reflexivity|]. split; [reflexivity|].
  eexists. split; [vm_compute; reflexivity|]. split; reflexivity.
Qed.

(** C3 as stated fails: the scenario leaves [viewEndTimeMins] at 599, not
    600; and the spec exactly as written, without caption and data, is
    thrown out by the constructor. *)
Lemma scenario_single_item_counterexample :
  viewStartTimeMins (this (addItem scenarioSpec freshWorld).2) = 540 /\
  viewEndTimeMins (this (addItem scenarioSpec freshWorld).2) <> 600 /\
  (addItem scenarioSpecLiteral freshWorld).1 = Throws AvermentFailure.
Proof.
  split; [reflexivity|]. split; [|reflexivity]. vm_compute. discriminate.
Qed.

(** ** C2: the derived time window *)

(** C2 at its failing input.  After adding, to a fresh scheduler, an item
    at 600 for 60 minutes and then one at 540 for 30 minutes on the same
    day, the code leaves [viewStartTimeMins = 600] (the first item of the
    bucket) and [viewEndTimeMins = 569] (the last item's end), while both
    items lie in the view window, whose least start is 540 and greatest end
    is 659. *)
Theorem time_window_ignores_bucket_order (seed0 : Z) (now : Date) :
  let w0 := (new_WeeklyScheduler seed0 now).2 in
  let w := (addItem earlySpec (addItem lateSpec w0).2).2 in
  let window := spec_windowItems (ymd 2024 12 23) (viewNumDays (this w))
                  (schedulingItemsByDay_ (this w)) in
  (get_viewStartDate w).1 = Returns (ymd 2024 12 23) /\
  map startTimeMins window = [600; 540] /\
  map endTimeMins window = [659; 569] /\
  viewStartTimeMins (this w) = 600 /\
  viewEndTimeMins (this w) = 569 /\
  spec_viewStartTimeMins window = 540 /\
  spec_viewEndTimeMins window = 659.
Proof.
  intros w0 w window. repeat split; reflexivity.
Qed.

(** The same defect from its other side: with a bucket on each of the six
    days of the view window, every item starting at 600, the scan for the
    least start looks at no bucket at all and falls back to 540. *)
Example time_window_full_week :
  let w := (addAll weekSpecs freshWorld).2 in
  let window := spec_windowItems (ymd 2024 12 23) (viewNumDays (this w))
                  (schedulingItemsByDay_ (this w)) in
  (get_viewStartDate w).1 = Returns (ymd 2024 12 23) /\
  map startTimeMins window = [600; 600; 600; 600; 600; 600] /\
  viewStartTimeMins (this w) = 540 /\
  spec_viewStartTimeMins window = 600 /\
  viewEndTimeMins (this w) = 659.
Proof. repeat split; vm_compute; reflexivity. Qed.

(** ** C9: the day buckets stay sorted and hold what was added *)

Lemma Day_mono a b : a <= b -> Day a <= Day b.
Proof. unfold Day, msPerDay. intros H. apply Z.div_le_mono; lia. Qed.

Lemma Day_lt_lt a b : Day a < Day b -> a < b.
Proof. intros H. destruct (Z.lt_ge_cases a b) as [|Hge]; [done|]. apply Day_mono in Hge. lia. Qed.

Lemma sameDay_true a b : sameDay a b = true <-> Day a = Day b.
Proof. unfold sameDay. apply Z.eqb_eq. Qed.

Lemma sameDay_false a b : sameDay a b = false <-> Day a <> Day b.
Proof. unfold sameDay. apply Z.eqb_neq. Qed.

Lemma storedFor_snoc date added item :
  storedFor date (added ++ [item]) =
  storedFor date added ++ (if sameDay (day item) date then [item] else []).
Proof. unfold storedFor. rewrite List.filter_app. reflexivity. Qed.


Lemma storedFor_nil date added :
  storedFor date added = [] <-> forall item, item ∈ added -> Day (day item) <> Day date.
Proof.
  unfold storedFor. induction added as [|it l IH]; cbn.
  - split; [intros _ x Hx; inversion Hx|done].
  - destruct (sameDay (day it) date) eqn:E.
    + split; [done|]. intros H. apply sameDay_true in E. exfalso. apply (H it); [left|done].
    + rewrite IH. apply sameDay_false in E. split.
      * intros H x [->|Hx]%elem_of_cons; auto.
      * intros H x Hx. apply H. now right.
Qed.

Section BucketFacts.
Variable item : SchedulingItem.
Let p := fun d : DayBucket => sameDay (bucket_day d) (day item).
Let push := fun d : DayBucket => mkBucket (bucket_day d) (bucket_items d ++ [item]).

Lemma updateFound_sorted l :
  StronglySorted (fun a b => dayOf a < dayOf b) l ->
  StronglySorted (fun a b => dayOf a < dayOf b) (updateFound p push l).
Proof.
  induction 1 as [|b l Hs IH Hall]; cbn; [constructor|].
  destruct (p b).
  - constructor; [done|]. exact Hall.
  - constructor; [done|].
    rewrite Forall_forall in *. intros x Hx.
    assert (Hd : exists y, y ∈ l /\ dayOf x = dayOf y).
    { clear -Hx. induction l as [|y l IHl]; cbn in Hx; [inversion Hx|].
      destruct (p y).
      - apply elem_of_cons in Hx as [->|Hx].
        + exists y. split; [left|done].
        + exists x. split; [now right|done].
      - apply elem_of_cons in Hx as [->|Hx].
        + exists y. split; [left|done].
        + destruct (IHl Hx) as (z & Hz & E). exists z. split; [now right|done]. }
    destruct Hd as (y & Hy & ->). auto.
Qed.

Lemma elem_of_updateFound l b' :
  StronglySorted (fun a b => dayOf a < dayOf b) l ->
  b' ∈ updateFound p push l ->
  (b' ∈ l /\ p b' = false) \/ (exists b, b ∈ l /\ p b = true /\ b' = push b).
Proof.
  induction 1 as [|b l Hs IH Hall]; cbn; [intros Hx; inversion Hx|].
  destruct (p b) eqn:E.
  - intros [->|Hx]%elem_of_cons.
    + right. exists b. split; [left|done].
    + left. split; [now right|].
      rewrite Forall_forall in Hall. specialize (Hall b' Hx).
      subst p. cbn in *. apply sameDay_true in E. apply sameDay_false.
      unfold dayOf in Hall. lia.
  - intros [->|Hx]%elem_of_cons.
    + left. split; [left|done].
    + destruct (IH Hx) as [[Hin Hp]|(b0 & Hin & Hp & ->)].
      * left. split; [now right|done].
      * right. exists b0. split; [now right|done].
Qed.

Lemma insertSorted_days_sorted l :
  StronglySorted (fun a b => dayOf a < dayOf b) l ->
  (forall y, y ∈ l -> p y = false) ->
  StronglySorted (fun a b => dayOf a < dayOf b)
    (insertSorted compareDays (mkBucket (day item) [item]) l).
Proof.
  set (nb := mkBucket (day item) [item]).
  induction 1 as [|b l Hs IH Hall]; intros Hp; cbn; [repeat constructor|].
  assert (Hb : dayOf b <> dayOf nb).
  { specialize (Hp b ltac:(left)). subst p. cbn in Hp. apply sameDay_false in Hp. done. }
  assert (Hl : forall y, y ∈ l -> p y = false) by (intros y Hy; apply Hp; now right).
  rewrite Forall_forall in Hall.
  unfold compareDays at 1. destruct (Z.ltb_spec (bucket_day nb - bucket_day b) 0) as [Hlt|Hge].
  - assert (Hd : dayOf nb < dayOf b).
    { assert (dayOf nb <= dayOf b) by (apply Day_mono; lia). lia. }
    constructor; [now constructor; [|apply Forall_forall]|].
    constructor; [done|]. apply Forall_forall. intros y Hy. specialize (Hall y Hy). lia.
  - assert (Hd : dayOf b < dayOf nb).
    { assert (dayOf b <= dayOf nb) by (apply Day_mono; lia). lia. }
    constructor; [now apply IH|].
    apply Forall_forall. intros y [->|Hy]%elem_of_insertSorted; auto.
Qed.

Lemma insertSorted_snoc l (nb : DayBucket) :
  (forall y, y ∈ l -> bucket_day y <= bucket_day nb) ->
  insertSorted compareDays nb l = l ++ [nb].
Proof.
  induction l as [|b l IH]; intros H; cbn; [done|].
  unfold compareDays at 1.
  destruct (Z.ltb_spec (bucket_day nb - bucket_day b) 0) as [Hlt|Hge].
  - specialize (H b ltac:(left)). lia.
  - rewrite IH; [done|]. intros y Hy. apply H. now right.
Qed.

End BucketFacts.

Lemma sort_sorted_id l :
  StronglySorted (fun a b => dayOf a < dayOf b) l -> sort compareDays l = l.
Proof.
  induction l as [|nb l IH] using rev_ind; intros Hs; [done|].
  apply StronglySorted_app in Hs as (Hcross & Hl & _).
  rewrite sort_snoc, IH by done.
  apply insertSorted_snoc. intros y Hy.
  specialize (Hcross y nb Hy ltac:(left)). apply Day_lt_lt in Hcross. lia.
Qed.

(** In a store that holds what was added, the buckets' days are days of
    added items. *)
Lemma store_ok_commonEra added byDay :
  store_ok added byDay ->
  Forall (fun it => commonEra (day it)) added ->
  Forall (fun b => commonEra (bucket_day b)) byDay.
Proof.
  intros (_ & Hitems & _) Hadded. rewrite Forall_forall in Hadded. rewrite Forall_forall.
  intros b Hb. destruct (Hitems b Hb) as [Hne Heq].
  destruct (bucket_items b) as [|it rest] eqn:E; [done|].
  assert (Hit : it ∈ storedFor (bucket_day b) added) by (rewrite <- Heq; left).
  unfold storedFor in Hit. apply list_elem_of_In, List.filter_In in Hit as [Hin Hsame].
  apply list_elem_of_In in Hin. apply sameDay_true in Hsame.
  eapply commonEra_same_Day; [exact Hsame|]. exact (Hadded it Hin).
Qed.

Lemma commonEra_items_check (l : list SchedulingItem) :
  forallb (fun it => 1 <=? YearFromTime (day it)) l = true ->
  Forall (fun it => commonEra (day it)) l.
Proof.
  rewrite forallb_forall, Forall_forall. intros H it Hit.
  apply Z.leb_le, H. now apply list_elem_of_In.
Qed.




(** One accepted [addItem] keeps the store invariant. *)
Lemma bucketInsert_ok added byDay item :
  store_ok added byDay ->
  Forall (fun it => commonEra (day it)) added -> commonEra (day item) ->
  store_ok (added ++ [item]) (bucketInsert item byDay).
Proof.
  intros Hok Hadded Hitem.
  pose proof (store_ok_commonEra added byDay Hok Hadded) as Hbuckets.
  destruct Hok as (Hsorted & Hitems & Hcover).
  rewrite bucketInsert_eq by done.
  set (p := fun d : DayBucket => sameDay (bucket_day d) (day item)).
  set (push := fun d : DayBucket => mkBucket (bucket_day d) (bucket_items d ++ [item])).
  destruct (find p byDay) as [b0|] eqn:E.
  - apply find_Some_elem_of in E as [Hb0 Hp0].
    split; [now apply updateFound_sorted|]. split.
    + intros b' Hb'. rewrite storedFor_snoc.
      apply elem_of_updateFound in Hb' as [[Hin Hp]|(b & Hin & Hp & ->)]; [| |done].
      * destruct (Hitems b' Hin) as [Hne Heq].
        subst p. cbn in Hp. rewrite sameDay_sym, Hp, app_nil_r. done.
      * destruct (Hitems b Hin) as [Hne Heq]. cbn.
        subst p. cbn in Hp. rewrite sameDay_sym, Hp, <- Heq.
        split; [|done]. intros Hnil. now apply app_eq_nil in Hnil as [_ ?].
    + intros it [Hit|Hit]%elem_of_app.
      * destruct (Hcover it Hit) as (b & Hb & Hd).
        assert (Hmap : forall l, b ∈ l ->
                  exists b', b' ∈ updateFound p push l /\ dayOf b' = dayOf b).
        { clear. induction l as [|y l IHl]; intros Hb; [inversion Hb|]. cbn.
          destruct (p y) eqn:Ey.
          - apply elem_of_cons in Hb as [->|Hb].
            + exists (push y). split; [left|done].
            + exists b. split; [now right|done].
          - apply elem_of_cons in Hb as [->|Hb].
            + exists y. split; [left|done].
            + destruct (IHl Hb) as (b' & Hb' & E'). exists b'. split; [now right|done]. }
        destruct (Hmap byDay Hb) as (b' & Hb' & Hd'). exists b'. split; [done|]. lia.
      * apply list_elem_of_singleton in Hit as ->.
        assert (Hmap : forall l, b0 ∈ l ->
                  exists b', b' ∈ updateFound p push l /\ dayOf b' = dayOf b0).
        { clear. induction l as [|y l IHl]; intros Hb; [inversion Hb|]. cbn.
          destruct (p y) eqn:Ey.
          - apply elem_of_cons in Hb as [->|Hb].
            + exists (push y). split; [left|done].
            + exists b0. split; [now right|done].
          - apply elem_of_cons in Hb as [->|Hb].
            + exists y. split; [left|done].
            + destruct (IHl Hb) as (b' & Hb' & E'). exists b'. split; [now right|done]. }
        destruct (Hmap byDay Hb0) as (b' & Hb' & Hd'). exists b'. split; [done|].
        subst p. cbn in Hp0. apply sameDay_true in Hp0. unfold dayOf in *. lia.
  - rewrite find_None_elem_of in E.
    rewrite sort_snoc, sort_sorted_id by done.
    set (nb := mkBucket (day item) [item]).
    assert (Hfresh : storedFor (day item) added = []).
    { apply storedFor_nil. intros it Hit Hd.
      destruct (Hcover it Hit) as (b & Hb & Hdb). specialize (E b Hb).
      subst p. cbn in E. apply sameDay_false in E. unfold dayOf in *. lia. }
    split; [now apply insertSorted_days_sorted|]. split.
    + intros b' [->|Hb']%elem_of_insertSorted; rewrite storedFor_snoc.
      * cbn. rewrite Hfresh, sameDay_refl. done.
      * destruct (Hitems b' Hb') as [Hne Heq]. specialize (E b' Hb').
        subst p. cbn in E. rewrite sameDay_sym, E, app_nil_r. done.
    + intros it [Hit|Hit]%elem_of_app.
      * destruct (Hcover it Hit) as (b & Hb & Hd). exists b.
        split; [|done]. apply elem_of_insertSorted. now right.
      * apply list_elem_of_singleton in Hit as ->. exists nb.
        split; [|done]. apply elem_of_insertSorted. now left.
Qed.

Lemma addAll_ok specs : forall w added,
  store_ok added (schedulingItemsByDay_ (this w)) ->
  Forall (fun it => commonEra (day it)) (added ++ (addAll specs w).1) ->
  store_ok (added ++ (addAll specs w).1) (schedulingItemsByDay_ (this (addAll specs w).2)).
Proof.
  induction specs as [|spec rest IH]; intros w added Hok; cbn [addAll].
  - now rewrite app_nil_r.
  - rewrite addItem_eq. destruct (specItem (seed w + 1) spec) as [item|].
    + cbn [fst snd].
      match goal with |- context [updateViewProperties ?w1] =>
        destruct (updateViewProperties_same_items w1) as (_ & _ & _ & Hs & _);
        set (w2 := (updateViewProperties w1).2) in * end.
      replace (added ++ item :: (addAll rest w2).1)
        with ((added ++ [item]) ++ (addAll rest w2).1) by (now rewrite <- app_assoc).
      intros Hce. apply IH; [|exact Hce]. rewrite Hs. mred.
      apply Forall_app in Hce as [Hce _]. apply Forall_app in Hce as [Hadded Hitem].
      apply bucketInsert_ok; [done|done|]. now apply Forall_inv in Hitem.
    + apply IH. exact Hok.
Qed.





Example threeSpecs_lookup :
  map id (addAll threeSpecs freshWorld).1 = [1; 2; 4] /\
  map dayOf (schedulingItemsByDay_ (this (addAll threeSpecs freshWorld).2)) = [20085; 20087] /\
  (map id <$> theDaysItems (ymd 2024 12 30) (addAll threeSpecs freshWorld).2) = Some [1; 4] /\
  theDaysItems (ymd 2024 12 29) (addAll threeSpecs freshWorld).2 = None.
Proof. repeat split; vm_compute; reflexivity. Qed.

(** ** C10: termination of the placement pass *)

Lemma slotCount_step cur renderEnd gran :
  0 < gran -> cur < renderEnd ->
  slotCount cur renderEnd gran = S (slotCount (cur + gran) renderEnd gran).
Proof.
  intros Hg Hlt. unfold slotCount.
  replace (renderEnd - cur + gran - 1) with ((renderEnd - (cur + gran) + gran - 1) + 1 * gran)
    by lia.
  rewrite Z.div_add by lia.
  assert (0 <= (renderEnd - (cur + gran) + gran - 1) / gran) by (apply Z.div_pos; lia).
  lia.
Qed.

Lemma slotCount_done cur renderEnd gran :
  0 < gran -> renderEnd <= cur -> slotCount cur renderEnd gran = O.
Proof.
  intros Hg Hge. unfold slotCount.
  assert ((renderEnd - cur + gran - 1) / gran <= 0); [|lia].
  assert ((renderEnd - cur + gran - 1) / gran < 1); [|lia].
  apply Z.div_lt_upper_bound; lia.
Qed.

(** The [while] loop against its closed form: it returns as soon as the
    fuel exceeds the number of slots, and runs out otherwise. *)
Lemma timeSlotsLoop_eq gran viewStart viewEnd renderEnd :
  0 < gran ->
  forall fuel cur acc,
    timeSlotsLoop fuel cur renderEnd viewStart viewEnd gran acc =
    if (slotCount cur renderEnd gran <? fuel)%nat
    then Returns (acc ++ slotsFrom (slotCount cur renderEnd gran) cur viewStart viewEnd gran)
    else OutOfFuel.
Proof.
  intros Hg. induction fuel as [|fuel IH]; intros cur acc; cbn [timeSlotsLoop].
  - destruct (Nat.ltb_spec (slotCount cur renderEnd gran) 0); [lia|done].
  - destruct (Z.ltb_spec cur renderEnd) as [Hlt|Hge].
    + rewrite IH, (slotCount_step cur renderEnd gran Hg Hlt). cbn [slotsFrom].
      change (S ?a <? S ?b)%nat with (a <? b)%nat.
      destruct (_ <? _)%nat; [|done]. now rewrite <- app_assoc.
    + rewrite (slotCount_done cur renderEnd gran Hg Hge). cbn. now rewrite app_nil_r.
Qed.

Lemma get_timeSlotsView_eq fuel w :
  0 < timeViewGranularityMins_ (this w) ->
  get_timeSlotsView fuel w =
  if (axisFuel w <=? fuel)%nat
  then (Returns (axisOf w),
        match timeSlotsView_ (this w) with
        | Some _ => w
        | None => mkWorld (seed w) (clock w) (set_timeSlotsView_ (Some (axisOf w)) (this w))
        end)
  else (OutOfFuel, w).
Proof.
  intros Hg. unfold get_timeSlotsView, axisOf, axisFuel. rewrite bind_gets.
  destruct (timeSlotsView_ (this w)) as [slots|] eqn:E; [reflexivity|].
  rewrite !bind_gets. unfold bind, lift.
  rewrite (timeSlotsLoop_eq _ _ _ _ Hg). cbn [app].
  set (n := slotCount _ _ _).
  change (S n <=? fuel)%nat with (n <? fuel)%nat.
  destruct (n <? fuel)%nat; reflexivity.
Qed.

Lemma renderTimeCells_eq fuel date w :
  0 < timeViewGranularityMins_ (this w) ->
  (renderTimeCells fuel date w).1 =
  if (axisFuel w <=? fuel)%nat
  then timeCellsLoop fuel (axisOf w) (theDaysItems date w) (timeViewGranularityMins_ (this w)) 0 []
  else OutOfFuel.
Proof.
  intros Hg. unfold renderTimeCells.
  rewrite (bind_Returns _ _ _ _ _ (calculateTheDaysItems_eq date w)).
  unfold bind at 1. rewrite (get_timeSlotsView_eq fuel w Hg).
  destruct (axisFuel w <=? fuel)%nat; [|reflexivity].
  rewrite bind_gets. unfold lift.
  destruct (timeSlotsView_ (this w)); reflexivity.
Qed.

Section Placement.
Variables (slots : list (Z * bool)) (items : option (list SchedulingItem)) (gran : Z).
Hypothesis gran_pos : 0 < gran.

Lemma at_index_Some i :
  0 <= i < Z.of_nat (length slots) -> exists slot, at_index slots i = Some slot.
Proof.
  intros Hi. unfold at_index. destruct (Z.ltb_spec i 0); [lia|].
  apply lookup_lt_is_Some_2. lia.
Qed.

Lemma at_index_elem_of i slot : at_index slots i = Some slot -> slot ∈ slots.
Proof.
  unfold at_index. destruct (i <? 0); [done|]. apply list_elem_of_lookup_2.
Qed.

Lemma found_item_elem_of m item :
  items ≫= find (fun item => startTimeMins item =? m) = Some item ->
  item ∈ default [] items /\ startTimeMins item = m.
Proof.
  destruct items as [l|]; cbn; [|done].
  intros [Hin Hm]%find_Some_elem_of. split; [done|]. now apply Z.eqb_eq.
Qed.

(** Under the span condition one pass of the body never moves the index
    back, and the cell it pushes takes the slots up to the index it leaves. *)
Lemma timeCellAt_advances i :
  spansAtLeastOneSlot slots items gran ->
  0 <= i < Z.of_nat (length slots) ->
  exists cell i',
    timeCellAt slots items gran i = Returns (cell, i') /\
    i <= i' /\ cell_slotIndex cell = i /\ cellSpan cell = i' - i + 1.
Proof.
  intros Hsafe Hi. destruct (at_index_Some i Hi) as [[m inView] Hslot].
  unfold timeCellAt. rewrite Hslot.
  destruct inView; [|eexists _, _; split; [reflexivity|cbn; lia]].
  destruct (items ≫= find _) as [item|] eqn:E;
    [|eexists _, _; split; [reflexivity|cbn; lia]].
  apply found_item_elem_of in E as [Hin Hm].
  pose proof (Hsafe item m Hin (at_index_elem_of _ _ Hslot) Hm) as Hdur.
  assert (1 <= durationMins item / gran) by (apply Z.div_le_lower_bound; lia).
  eexists _, _. split; [reflexivity|]. cbn. lia.
Qed.

Lemma timeCellsLoop_S fuel i acc :
  timeCellsLoop (S fuel) slots items gran i acc =
  if i <? Z.of_nat (length slots) then
    match timeCellAt slots items gran i with
    | Returns (cell, i') => timeCellsLoop fuel slots items gran (i' + 1) (acc ++ [cell])
    | Throws e => Throws e
    | OutOfFuel => OutOfFuel
    end
  else Returns acc.
Proof. reflexivity. Qed.

Lemma timeCellsLoop_terminates :
  spansAtLeastOneSlot slots items gran ->
  forall n i acc,
    0 <= i -> (Z.to_nat (Z.of_nat (length slots) - i) <= n)%nat ->
    exists cells,
      timeCellsLoop (S n) slots items gran i acc = Returns (acc ++ cells) /\
      (forall j, i <= j < Z.of_nat (length slots) -> covered cells j) /\
      exists stop, tilesFrom i cells = Some stop /\ Z.of_nat (length slots) <= stop.
Proof.
  intros Hsafe. induction n as [|n IH]; intros i acc Hi Hn; rewrite timeCellsLoop_S.
  - destruct (Z.ltb_spec i (Z.of_nat (length slots))); [lia|].
    exists []. split; [now rewrite app_nil_r|]. split; [intros j Hj; lia|].
    exists i. split; [reflexivity|lia].
  - destruct (Z.ltb_spec i (Z.of_nat (length slots))) as [Hlt|Hge].
    + destruct (timeCellAt_advances i Hsafe ltac:(lia)) as (cell & i' & Hcell & Hadv & Hidx & Hspan).
      rewrite Hcell.
      destruct (IH (i' + 1) (acc ++ [cell]) ltac:(lia) ltac:(lia))
        as (cells & Hrun & Hcov & stop & Htiles & Hstop).
      exists (cell :: cells). split; [|split].
      * rewrite Hrun. now rewrite <- app_assoc.
      * intros j Hj. destruct (Z.le_gt_cases j i') as [Hle|Hgt].
        -- exists cell. split; [left|lia].
        -- destruct (Hcov j ltac:(lia)) as (c & Hc & Hr). exists c. split; [now right|done].
      * exists stop. split; [|done]. cbn [tilesFrom].
        rewrite Hidx, Z.eqb_refl, Hspan.
        destruct (Z.leb_spec 1 (i' - i + 1)); [|lia]. cbn [andb].
        now replace (i + (i' - i + 1)) with (i' + 1) by lia.
    + exists []. split; [now rewrite app_nil_r|]. split; [intros j Hj; lia|].
      exists i. split; [reflexivity|lia].
Qed.

(** An item shorter than one granularity gets row span 0 and leaves the
    index one back, so the loop's increment returns to the same slot. *)
Lemma timeCellAt_short i m item :
  at_index slots i = Some (m, true) ->
  items ≫= find (fun item => startTimeMins item =? m) = Some item ->
  0 <= durationMins item < gran ->
  durationMins item / gran = 0 /\
  timeCellAt slots items gran i = Returns (mkCell i m true (Some item) (Some 0), i - 1).
Proof.
  intros Hslot Hfound Hdur.
  assert (Hspan : durationMins item / gran = 0) by (apply Z.div_small; lia).
  split; [done|]. unfold timeCellAt. rewrite Hslot, Hfound, Hspan.
  reflexivity.
Qed.

Lemma timeCellsLoop_stuck i cell :
  i < Z.of_nat (length slots) ->
  timeCellAt slots items gran i = Returns (cell, i - 1) ->
  forall fuel acc, timeCellsLoop fuel slots items gran i acc = OutOfFuel.
Proof.
  intros Hlt Hcell. induction fuel as [|fuel IH]; intros acc; [done|].
  rewrite timeCellsLoop_S.
  destruct (Z.ltb_spec i (Z.of_nat (length slots))); [|lia].
  rewrite Hcell. replace (i - 1 + 1) with i by lia. apply IH.
Qed.

Lemma visited_diverges i :
  visited slots items gran i ->
  (forall fuel acc, timeCellsLoop fuel slots items gran i acc = OutOfFuel) ->
  forall fuel acc, timeCellsLoop fuel slots items gran 0 acc = OutOfFuel.
Proof.
  induction 1 as [|i cell i' Hv IH Hlt Hcell]; [done|].
  intros Hstuck. apply IH. intros [|fuel] acc; [done|].
  rewrite timeCellsLoop_S.
  destruct (Z.ltb_spec i (Z.of_nat (length slots))); [|lia].
  rewrite Hcell. apply Hstuck.
Qed.

End Placement.

Lemma at_index_lt {A} (l : list A) i x : at_index l i = Some x -> 0 <= i < Z.of_nat (length l).
Proof.
  unfold at_index. destruct (Z.ltb_spec i 0) as [|Hi]; [done|].
  intros Hx%lookup_lt_Some. lia.
Qed.

(** C10.  With a positive granularity: if every item of the day that
    starts on an in-view slot minute lasts at least one granularity, the
    placement pass returns (any fuel above the number of slots is enough)
    and its cells take every slot position of the axis, lying end to end
    from position 0 to the end of the axis or past it; if the pass reaches
    an in-view slot whose matched item has [0 <= durationMins < granularity],
    that item's row span is 0, the body leaves the index one back, and the
    pass never returns, however much fuel it is given. *)
Theorem placement_pass_termination (w : World) (date : Date) :
  let gran := timeViewGranularityMins_ (this w) in
  let slots := axisOf w in
  let items := theDaysItems date w in
  0 < gran ->
  (spansAtLeastOneSlot slots items gran ->
   forall fuel, (axisFuel w <= fuel)%nat -> (length slots < fuel)%nat ->
     exists cells,
       (renderTimeCells fuel date w).1 = Returns cells /\
       (forall j, 0 <= j < Z.of_nat (length slots) -> covered cells j) /\
       exists stop, tilesFrom 0 cells = Some stop /\ Z.of_nat (length slots) <= stop) /\
  (forall i m item,
     visited slots items gran i ->
     at_index slots i = Some (m, true) ->
     items ≫= find (fun it => startTimeMins it =? m) = Some item ->
     0 <= durationMins item < gran ->
     durationMins item / gran = 0 /\
     timeCellAt slots items gran i = Returns (mkCell i m true (Some item) (Some 0), i - 1) /\
     forall fuel, (renderTimeCells fuel date w).1 = OutOfFuel).
Proof.
  intros gran slots items Hg. split.
  - intros Hsafe fuel Haxis Hlen.
    rewrite (renderTimeCells_eq fuel date w Hg).
    destruct (Nat.leb_spec (axisFuel w) fuel); [|lia].
    destruct fuel as [|n]; [lia|].
    destruct (timeCellsLoop_terminates slots items gran Hg Hsafe n 0 [] ltac:(lia) ltac:(lia))
      as (cells & Hrun & Hcov & Htiles).
    exists cells. split; [exact Hrun|]. split; [exact Hcov|exact Htiles].
  - intros i m item Hvis Hslot Hfound Hdur.
    destruct (timeCellAt_short slots items gran i m item Hslot Hfound Hdur) as [Hspan Hcell].
    split; [done|]. split; [done|]. intros fuel.
    rewrite (renderTimeCells_eq fuel date w Hg).
    destruct (axisFuel w <=? fuel)%nat; [|done].
    apply (visited_diverges slots items gran i Hvis).
    apply (timeCellsLoop_stuck slots items gran i _ (proj2 (at_index_lt _ _ _ Hslot)) Hcell).
Qed.

Lemma placement_pass_termination_witness :
  0 < timeViewGranularityMins_ (this scenarioWorld) /\
  spansAtLeastOneSlot (axisOf scenarioWorld) (theDaysItems (ymd 2024 12 28) scenarioWorld)
    (timeViewGranularityMins_ (this scenarioWorld)) /\
  (exists cells,
     (renderTimeCells 7 (ymd 2024 12 28) scenarioWorld).1 = Returns cells /\
     (forall j, 0 <= j < Z.of_nat (length (axisOf scenarioWorld)) -> covered cells j) /\
     exists stop, tilesFrom 0 cells = Some stop
                  /\ Z.of_nat (length (axisOf scenarioWorld)) <= stop) /\
  0 < timeViewGranularityMins_ (this shortWorld) /\
  visited (axisOf shortWorld) (theDaysItems (ymd 2024 12 28) shortWorld)
    (timeViewGranularityMins_ (this shortWorld)) 2 /\
  (durationMins shortItem / timeViewGranularityMins_ (this shortWorld) = 0 /\
   timeCellAt (axisOf shortWorld) (theDaysItems (ymd 2024 12 28) shortWorld)
     (timeViewGranularityMins_ (this shortWorld)) 2
   = Returns (mkCell 2 540 true (Some shortItem) (Some 0), 2 - 1) /\
   forall fuel, (renderTimeCells fuel (ymd 2024 12 28) shortWorld).1 = OutOfFuel).
Proof.
  assert (Hg1 : 0 < timeViewGranularityMins_ (this scenarioWorld)) by reflexivity.
  assert (Hg2 : 0 < timeViewGranularityMins_ (this shortWorld)) by reflexivity.
  assert (Hsafe : spansAtLeastOneSlot (axisOf scenarioWorld)
                    (theDaysItems (ymd 2024 12 28) scenarioWorld)
                    (timeViewGranularityMins_ (this scenarioWorld))).
  { intros item m Hin _ _.
    change (item ∈ [mkItem 1 (ymd 2024 12 28) JSNull 540 60 (JSObject 0)]) in Hin.
    apply list_elem_of_singleton in Hin. subst item. vm_compute. discriminate. }
  assert (Hvis : visited (axisOf shortWorld) (theDaysItems (ymd 2024 12 28) shortWorld)
                   (timeViewGranularityMins_ (this shortWorld)) 2).
  { apply (visited_next _ _ _ 1 (mkCell 1 510 false None None) 1);
      [|vm_compute; reflexivity|reflexivity].
    apply (visited_next _ _ _ 0 (mkCell 0 480 false None None) 0);
      [|vm_compute; reflexivity|reflexivity].
    apply visited_first. }
  split; [exact Hg1|]. split; [exact Hsafe|].
  split.
  { apply (proj1 (placement_pass_termination scenarioWorld (ymd 2024 12 28) Hg1) Hsafe 7%nat).
    - vm_compute. lia.
    - vm_compute. lia. }
  split; [exact Hg2|]. split; [exact Hvis|].
  apply (proj2 (placement_pass_termination shortWorld (ymd 2024 12 28) Hg2) 2 540 shortItem Hvis).
  - reflexivity.
  - reflexivity.
  - vm_compute. split; [discriminate|reflexivity].
Defined.

(** The slot-count and placement laws of the specification, on the code. *)
Example slot_count_law :
  slotsFrom (slotCount (540 - 60) (1020 + 60) 30) (540 - 60) 540 1020 30
  = axisOf freshWorld /\
  length (axisOf freshWorld) = 20%nat /\
  map fst (axisOf freshWorld) =
  [480; 510; 540; 570; 600; 630; 660; 690; 720; 750;
   780; 810; 840; 870; 900; 930; 960; 990; 1020; 1050].
Proof. repeat split; reflexivity. Qed.

(** * Properties of the further methods *)

(** ** What [#updateViewProperties] leaves in the date caches *)

Lemma get_viewStartDate_cached w d :
  viewStartDate_ (this w) = Some d -> get_viewStartDate w = (Returns d, w).
Proof. intros H. unfold get_viewStartDate. rewrite bind_gets, H. reflexivity. Qed.

Lemma get_viewStartDate_eq w :
  get_viewStartDate w =
  match viewStartDate_ (this w) with
  | Some d => (Returns d, w)
  | None =>
      let d := weekStart (viewStartDay_ (this w)) (effectiveDate w) in
      (Returns d,
       mkWorld (seed w) (clock w)
         (set_viewStartDate_ (Some d)
            (set_effectiveStartDate_ (Some (effectiveDate w)) (this w))))
  end.
Proof.
  destruct (viewStartDate_ (this w)) as [d|] eqn:E; [now apply get_viewStartDate_cached|].
  unfold get_viewStartDate. rewrite bind_gets, E.
  unfold bind at 1. rewrite get_effectiveStartDate_eq.
  unfold bind at 1. rewrite calculateStartDate_eq. unfold weekStart.
  destruct (effectiveStartDate_ (this w)) as [e|] eqn:Ee; mred.
  - destruct w as [sd ck []]. cbn in *. subst. reflexivity.
  - reflexivity.
Qed.

Lemma findIndexM_viewStartDate_cached dv l : forall i w,
  viewStartDate_ (this w) = Some dv ->
  findIndexM (fun d : DayBucket => bind get_viewStartDate (fun v => ret (bucket_day d <? v)))
    l i w
  = (Returns (findIndexFrom (fun d => bucket_day d <? dv) l i), w).
Proof.
  induction l as [|b l IH]; intros i w Hc; cbn [findIndexM findIndexFrom]; [reflexivity|].
  unfold bind at 1. unfold bind at 1. rewrite (get_viewStartDate_cached w dv Hc).
  unfold ret at 1. destruct (bucket_day b <? dv); [reflexivity|]. now apply IH.
Qed.

Lemma findIndexM_viewStartDate_eq l i w :
  l <> [] ->
  viewStartDate_ (this w) = None ->
  findIndexM (fun d : DayBucket => bind get_viewStartDate (fun v => ret (bucket_day d <? v)))
    l i w
  = (Returns (findIndexFrom
                (fun d => bucket_day d <? weekStart (viewStartDay_ (this w)) (effectiveDate w))
                l i),
     mkWorld (seed w) (clock w)
       (set_viewStartDate_ (Some (weekStart (viewStartDay_ (this w)) (effectiveDate w)))
          (set_effectiveStartDate_ (Some (effectiveDate w)) (this w)))).
Proof.
  intros Hne Hnone. set (dv := weekStart (viewStartDay_ (this w)) (effectiveDate w)).
  destruct l as [|b l]; [done|]. cbn [findIndexM findIndexFrom].
  unfold bind at 1. unfold bind at 1. rewrite get_viewStartDate_eq, Hnone.
  cbv zeta. fold dv. unfold ret at 1.
  destruct (bucket_day b <? dv); [reflexivity|].
  now apply findIndexM_viewStartDate_cached.
Qed.

Lemma findIndexFrom_false {A} (l : list A) i : findIndexFrom (fun _ => false) l i = -1.
Proof. revert i. induction l as [|x l IH]; intros i; cbn; [done|apply IH]. Qed.

Lemma slice_nil {A} a b : slice (@nil A) a b = [].
Proof. unfold slice. now rewrite drop_nil, take_nil. Qed.

(** [#updateViewProperties] in closed form: with an empty store both date
    caches end up empty and the time bounds at their defaults; otherwise
    the effective start date is the first bucket's day, the view start
    date its week start, and the bounds come from the two scans. *)
Lemma updateViewProperties_eq w :
  (updateViewProperties w).1 = Returns tt /\
  (updateViewProperties w).2 =
  let s := this w in
  let byDay := schedulingItemsByDay_ s in
  match byDay with
  | [] =>
      mkWorld (seed w) (clock w)
        (set_viewEndTimeMins 1020
           (set_viewStartTimeMins 540
              (set_viewStartDate_ None (set_effectiveStartDate_ None s))))
  | first :: _ =>
      let dv := weekStart (viewStartDay_ s) (bucket_day first) in
      mkWorld (seed w) (clock w)
        (set_viewEndTimeMins (default 1020 (maxEndOf byDay (viewNumDays s) dv))
           (set_viewStartDate_ (Some dv)
              (set_effectiveStartDate_ (Some (bucket_day first))
                 (set_viewStartTimeMins (default 540 (minStartOf byDay (viewNumDays s)))
                    (set_viewStartDate_ None (set_effectiveStartDate_ None s))))))
  end.
Proof.
  unfold updateViewProperties, calculateMinStartTime, calculateMaxEndTime.
  repeat (rewrite bind_modify || rewrite bind_gets || rewrite bind_ret || rewrite bind_bind).
  mred. cbv zeta.
  destruct (schedulingItemsByDay_ (this w)) as [|first rest] eqn:E.
  - cbn [rev findIndexM]. rewrite bind_ret.
    repeat (rewrite bind_modify || rewrite bind_gets || rewrite bind_ret || rewrite bind_bind).
    unfold modify. mred. rewrite !slice_nil. split; reflexivity.
  - erewrite bind_Returns;
      [|apply findIndexM_viewStartDate_eq;
        [cbn; intros H; now apply app_eq_nil in H as [_ ?]|reflexivity]].
    repeat (rewrite bind_modify || rewrite bind_gets || rewrite bind_ret || rewrite bind_bind).
    unfold modify. mred.
    unfold effectiveDate. mred. rewrite E. unfold maxEndOf, minStartOf, findIndex, sameDateObject.
    rewrite findIndexFrom_false. split; reflexivity.
Qed.

Lemma insertSorted_nonempty {A} (compare : A -> A -> Z) x l : insertSorted compare x l <> [].
Proof. destruct l as [|y l]; cbn; [done|]. destruct (compare x y <? 0); done. Qed.

Lemma updateFound_nonempty {A} (p : A -> bool) f (l : list A) : l <> [] -> updateFound p f l <> [].
Proof. destruct l as [|y l]; [done|]. cbn. destruct (p y); done. Qed.

Lemma bucketInsert_nonempty item byDay : bucketInsert item byDay <> [].
Proof.
  unfold bucketInsert. destruct (find _ byDay) as [b|] eqn:E.
  - apply updateFound_nonempty. apply find_Some_elem_of in E as [Hb _].
    intros ->. inversion Hb.
  - rewrite sort_snoc. apply insertSorted_nonempty.
Qed.

(** The state an accepted [addItem] leaves, whatever the date caches held
    before. *)
Lemma addItem_accepted_state spec w item :
  specItem (seed w + 1) spec = Some item ->
  exists first rest,
    bucketInsert item (schedulingItemsByDay_ (this w)) = first :: rest /\
    (addItem spec w).1 = Returns item /\
    schedulingItemsByDay_ (this (addItem spec w).2) = first :: rest /\
    effectiveStartDate_ (this (addItem spec w).2) = Some (bucket_day first) /\
    viewStartDate_ (this (addItem spec w).2)
    = Some (weekStart (viewStartDay_ (this w)) (bucket_day first)) /\
    viewStartDay_ (this (addItem spec w).2) = viewStartDay_ (this w) /\
    viewNumDays (this (addItem spec w).2) = viewNumDays (this w) /\
    viewStartTimeMins (this (addItem spec w).2)
    = default 540 (minStartOf (first :: rest) (viewNumDays (this w))) /\
    viewEndTimeMins (this (addItem spec w).2)
    = default 1020 (maxEndOf (first :: rest) (viewNumDays (this w))
                      (weekStart (viewStartDay_ (this w)) (bucket_day first))).
Proof.
  intros E. rewrite addItem_eq, E. mred.
  destruct (bucketInsert item (schedulingItemsByDay_ (this w))) as [|first rest] eqn:Eb;
    [now apply bucketInsert_nonempty in Eb|].
  exists first, rest. split; [done|]. split; [done|].
  match goal with |- context [updateViewProperties ?w1] =>
    destruct (updateViewProperties_eq w1) as [_ ->] end.
  mred. cbv zeta. mred. repeat split; reflexivity.
Qed.

(** ** Which fields a call can touch *)

Lemma bind_same_items {A B} (m : M A) (k : A -> M B) w :
  same_items w (m w).2 ->
  (forall a w', same_items w' (k a w').2) ->
  same_items w (bind m k w).2.
Proof.
  intros Hm Hk. unfold bind. destruct (m w) as [[a|e|] w1]; cbn [snd] in *; try done.
  eapply same_items_trans; [exact Hm|apply Hk].
Qed.

Lemma get_effectiveStartDate_same_items w : same_items w (get_effectiveStartDate w).2.
Proof.
  rewrite get_effectiveStartDate_eq. cbn [snd].
  destruct (effectiveStartDate_ (this w)); repeat split.
Qed.

Lemma get_viewStartDate_same_items' w : same_items w (get_viewStartDate w).2.
Proof. now destruct (get_viewStartDate_same_items w) as (d & _ & H). Qed.

Lemma set_viewStartDate_eq v w :
  set_viewStartDate v w =
  if getDay v =? viewStartDay_ (this w)
  then (Returns tt,
        mkWorld (seed w) (clock w) (set_viewStartDate_ (Some (setHoursMidnight v)) (this w)))
  else (Throws AvermentFailure, w).
Proof.
  unfold set_viewStartDate. rewrite bind_gets. unfold bind, lift.
  rewrite getDay_setHoursMidnight.
  destruct (getDay v =? viewStartDay_ (this w)); reflexivity.
Qed.

Lemma set_viewStartDate_same_items v w : same_items w (set_viewStartDate v w).2.
Proof.
  rewrite set_viewStartDate_eq. destruct (_ =? _); cbn [snd]; repeat split.
Qed.

Lemma changeViewPage_same_items count w : same_items w (changeViewPage count w).2.
Proof.
  unfold changeViewPage. apply bind_same_items; [apply get_viewStartDate_same_items'|].
  intros d w1. apply bind_same_items; [apply get_viewStartDate_same_items'|].
  intros d' w2. destruct (TimeClip _); [apply set_viewStartDate_same_items|].
  apply same_items_refl.
Qed.

Lemma set_effectiveStartDate_same_items v w : same_items w (set_effectiveStartDate v w).2.
Proof.
  unfold set_effectiveStartDate. apply bind_same_items; [apply get_viewStartDate_same_items'|].
  intros d w1. apply bind_same_items; [apply get_effectiveStartDate_same_items|].
  intros d' w2. apply bind_same_items; [unfold lift; apply same_items_refl|].
  intros d'' w3. unfold_monad. repeat split.
Qed.

Lemma addItem_timeSlotsView spec w :
  timeSlotsView_ (this (addItem spec w).2) = timeSlotsView_ (this w).
Proof.
  rewrite addItem_eq. destruct (specItem _ spec); [|reflexivity]. cbn [snd].
  match goal with |- context [updateViewProperties ?w1] =>
    destruct (updateViewProperties_same_items w1) as (_ & _ & _ & _ & _ & _ & _ & _ & _ & _ & H) end.
  rewrite H. reflexivity.
Qed.

(** The state [get timeSlotsView()] leaves: the axis is cached, nothing
    else changes. *)
Lemma get_timeSlotsView_state fuel w :
  match get_timeSlotsView fuel w with
  | (Returns slots, w') =>
      timeSlotsView_ (this w') = Some slots /\
      (forall cached, timeSlotsView_ (this w) = Some cached -> slots = cached /\ w' = w) /\
      w' = mkWorld (seed w) (clock w) (set_timeSlotsView_ (Some slots) (this w))
  | (Throws _, _) => False
  | (OutOfFuel, w') => w' = w /\ timeSlotsView_ (this w) = None
  end.
Proof.
  unfold get_timeSlotsView. rewrite bind_gets.
  destruct (timeSlotsView_ (this w)) as [cached|] eqn:E.
  - unfold ret. split; [done|]. split; [intros c [= <-]; done|].
    destruct w as [sd ck []]. cbn in *. now subst.
  - rewrite !bind_gets. unfold bind, lift.
    destruct (timeSlotsLoop _ _ _ _ _ _ _) as [slots|e|] eqn:El.
    + unfold_monad. mred. split; [done|]. split; [intros c; discriminate|done].
    + exfalso. revert El. generalize (@nil (Z * bool)).
      generalize (viewStartTimeMins (this w) - timeViewRenderOffMins (this w)).
      induction fuel as [|fuel IH]; intros cur acc; cbn; [done|].
      destruct (cur <? _); [apply IH|done].
    + done.
Qed.

Lemma renderTimeCells_state fuel date w :
  (renderTimeCells fuel date w).2 = w \/
  exists slots,
    timeSlotsView_ (this w) = None /\
    (renderTimeCells fuel date w).2
    = mkWorld (seed w) (clock w) (set_timeSlotsView_ (Some slots) (this w)).
Proof.
  unfold renderTimeCells.
  rewrite (bind_Returns _ _ _ _ _ (calculateTheDaysItems_eq date w)).
  unfold bind, gets, lift. pose proof (get_timeSlotsView_state fuel w) as H.
  destruct (get_timeSlotsView fuel w) as [[slots|e|] w']; [|done|].
  - destruct H as (_ & Hc & ->). cbn [snd].
    destruct (timeSlotsView_ (this w)) as [cached|] eqn:E.
    + left. destruct (Hc cached eq_refl) as [_ Hw]. exact Hw.
    + right. exists slots. split; reflexivity.
  - left. now destruct H.
Qed.

Lemma perform_timeSlotsView c w slots :
  timeSlotsView_ (this w) = Some slots ->
  timeSlotsView_ (this (perform w c)) = Some slots.
Proof.
  intros H. destruct c; cbn [perform].
  - now rewrite addItem_timeSlotsView.
  - destruct (changeViewPage_same_items count w) as (_&_&_&_&_&_&_&_&_&->). done.
  - destruct (set_viewStartDate_same_items v w) as (_&_&_&_&_&_&_&_&_&->). done.
  - unfold set_viewStartDay, bind, lift. destruct (aver.isTrue _); done.
  - destruct (set_effectiveStartDate_same_items v w) as (_&_&_&_&_&_&_&_&_&->). done.
  - done.
  - rewrite handleSelectItem_eq. cbn [snd].
    repeat match goal with |- context [if ?b then _ else _] => destruct b end; done.
  - destruct (get_viewStartDate_same_items' w) as (_&_&_&_&_&_&_&_&_&->). done.
  - destruct (get_effectiveStartDate_same_items w) as (_&_&_&_&_&_&_&_&_&->). done.
  - destruct (renderTimeCells_state fuel date w) as [->|(s & Hn & _)]; [done|congruence].
Qed.

(** ** Calls keep the view start date aligned *)












Example session_run :
  (get_viewStartDate (performAll session freshWorld)).1 = Returns (ymd 2025 1 27) /\
  (get_viewStartDate (performAll (firstn 7 session) freshWorld)).1 = Returns (ymd 2025 1 6).
Proof. split; vm_compute; reflexivity. Qed.

(** ** Explicit view start date and first weekday *)



Lemma set_viewStartDay_eq v w :
  set_viewStartDay v w =
  if (0 <=? v) && (v <? 7)
  then (Returns tt, mkWorld (seed w) (clock w) (set_viewStartDay_ v (this w)))
  else (Throws AvermentFailure, w).
Proof.
  unfold set_viewStartDay, bind, lift. destruct ((0 <=? v) && (v <? 7)); reflexivity.
Qed.

(** X3.  Assigning [viewStartDay] throws, changing nothing, for a value
    outside 0..6.  A value inside is stored, but a view start date already
    cached is not re-aligned: it is still what [viewStartDate] returns, and
    when the new weekday differs from the old one every [changeViewPage]
    from then on throws and leaves the state as it is. *)
Theorem set_viewStartDay_leaves_cached_date (v : Z) (w : World) (d : Date) :
  viewStartDate_ (this w) = Some d ->
  getDay d = viewStartDay_ (this w) ->
  (~ (0 <= v < 7) -> set_viewStartDay v w = (Throws AvermentFailure, w)) /\
  (0 <= v < 7 ->
   let w' := (set_viewStartDay v w).2 in
   (set_viewStartDay v w).1 = Returns tt /\
   viewStartDay_ (this w') = v /\
   get_viewStartDate w' = (Returns d, w') /\
   (v <> viewStartDay_ (this w) ->
    forall count, changeViewPage count w' = (Throws AvermentFailure, w'))).
Proof.
  intros Hc Hd. rewrite set_viewStartDay_eq. split; intros Hv.
  - destruct (Z.leb_spec 0 v), (Z.ltb_spec v 7); cbn [andb]; try done. lia.
  - destruct (Z.leb_spec 0 v); [|lia]. destruct (Z.ltb_spec v 7); [|lia]. cbn [andb fst snd].
    set (w' := mkWorld _ _ _).
    assert (Hget : get_viewStartDate w' = (Returns d, w'))
      by (now apply get_viewStartDate_cached).
    split; [done|]. split; [done|]. split; [exact Hget|].
    intros Hne count. rewrite (changeViewPage_eq w' count d w' Hget).
    replace (getDay d =? viewStartDay_ (this w')) with false;
      [now rewrite andb_false_r|].
    symmetry. apply Z.eqb_neq. subst w'. mred. rewrite Hd. congruence.
Qed.

Lemma set_viewStartDay_leaves_cached_date_witness :
  viewStartDate_ (this readWorld) = Some (ymd 2024 10 28) /\
  getDay (ymd 2024 10 28) = viewStartDay_ (this readWorld) /\
  0 <= 3 < 7 /\ 3 <> viewStartDay_ (this readWorld) /\
  ((set_viewStartDay 3 readWorld).1 = Returns tt /\
   viewStartDay_ (this (set_viewStartDay 3 readWorld).2) = 3 /\
   get_viewStartDate (set_viewStartDay 3 readWorld).2
   = (Returns (ymd 2024 10 28), (set_viewStartDay 3 readWorld).2) /\
   (3 <> viewStartDay_ (this readWorld) ->
    forall count, changeViewPage count (set_viewStartDay 3 readWorld).2
                  = (Throws AvermentFailure, (set_viewStartDay 3 readWorld).2))).
Proof.
  assert (H1 : viewStartDate_ (this readWorld) = Some (ymd 2024 10 28)) by reflexivity.
  assert (H2 : getDay (ymd 2024 10 28) = viewStartDay_ (this readWorld)) by reflexivity.
  assert (H3 : 0 <= 3 < 7) by lia.
  assert (H4 : 3 <> viewStartDay_ (this readWorld)) by (vm_compute; discriminate).
  split; [exact H1|]. split; [exact H2|]. split; [exact H3|]. split; [exact H4|].
  apply (proj2 (set_viewStartDay_leaves_cached_date 3 readWorld (ymd 2024 10 28) H1 H2) H3).
Defined.

(** ** The slot axis is generated once *)

Lemma performAll_timeSlotsView calls : forall w slots,
  timeSlotsView_ (this w) = Some slots ->
  timeSlotsView_ (this (performAll calls w)) = Some slots.
Proof.
  unfold performAll. induction calls as [|c calls IH]; intros w slots H; [done|].
  cbn [foldl]. apply IH. now apply perform_timeSlotsView.
Qed.

(** X4.  Once [timeSlotsView] has been read, no later call refreshes it:
    after any series of calls, items added and time bounds changed
    included, the getter still returns the axis it returned first. *)
Theorem timeSlotsView_is_generated_once (w w1 : World) (fuel0 : nat)
    (slots : list (Z * bool)) (calls : list call) (fuel : nat) :
  get_timeSlotsView fuel0 w = (Returns slots, w1) ->
  get_timeSlotsView fuel (performAll calls w1) = (Returns slots, performAll calls w1).
Proof.
  intros Hfirst. pose proof (get_timeSlotsView_state fuel0 w) as H.
  rewrite Hfirst in H. destruct H as (Hc & _).
  pose proof (performAll_timeSlotsView calls w1 slots Hc) as Hc'.
  unfold get_timeSlotsView. now rewrite bind_gets, Hc'.
Qed.

Lemma timeSlotsView_is_generated_once_witness :
  get_timeSlotsView 30 freshWorld = (Returns (axisOf freshWorld), renderedWorld) /\
  get_timeSlotsView 1 (performAll [CallAddItem dawnSpec] renderedWorld)
  = (Returns (axisOf freshWorld), performAll [CallAddItem dawnSpec] renderedWorld).
Proof.
  assert (H : get_timeSlotsView 30 freshWorld = (Returns (axisOf freshWorld), renderedWorld))
    by reflexivity.
  split; [exact H|].
  apply (timeSlotsView_is_generated_once freshWorld renderedWorld 30 (axisOf freshWorld)
           [CallAddItem dawnSpec] 1 H).
Defined.

(** What that means for an item added after the first rendering: the
    window now starts at 06:00, the axis still at 08:00, and the item is
    in no cell. *)
Example item_added_after_rendering :
  let w := performAll [CallAddItem dawnSpec] renderedWorld in
  viewStartTimeMins (this w) = 360 /\
  (hd (0, false) <$> timeSlotsView_ (this w)) = Some (480, false) /\
  (List.filter hasItem <$> (match (renderTimeCells 30 (ymd 2024 12 28) w).1 with
                            | Returns cells => Some cells | _ => None end)) = Some [].
Proof. repeat split; vm_compute; reflexivity. Qed.

(** ** [addItem] derives the view dates afresh *)



Lemma addItem_dates_derived spec w :
  (exists item, specItem (seed w + 1) spec = Some item) ->
  dates_derived (addItem spec w).2.
Proof.
  intros [item E].
  destruct (addItem_accepted_state spec w item E)
    as (first & rest & _ & _ & Hb & He & Hv & Hd & _).
  exists first, rest. rewrite Hd. auto.
Qed.

Lemma addAll_dates_derived specs : forall w,
  ((addAll specs w).1 <> [] \/ dates_derived w) -> dates_derived (addAll specs w).2.
Proof.
  induction specs as [|spec rest IH]; intros w H; cbn [addAll] in *.
  - destruct H; done.
  - pose proof (addItem_dates_derived spec w) as Hd.
    rewrite addItem_eq in *. destruct (specItem (seed w + 1) spec) as [item|].
    + cbn [fst snd] in *. apply IH. right. apply Hd. eauto.
    + apply IH. destruct H as [H|H]; [now left|right].
      destruct H as (f & r & H1 & H2 & H3). exists f, r. auto.
Qed.

(** X6.  After any series of [addItem] calls on an empty store of which at
    least one was accepted, the days of the items created being of year 1
    or later, the effective start date is the day of an added item and no
    added item lies on an earlier calendar day; the view start date is the
    week start of that day. *)
Theorem effectiveStartDate_is_earliest_day (specs : list ItemSpec) (w0 : World) :
  schedulingItemsByDay_ (this w0) = [] ->
  let added := (addAll specs w0).1 in
  let w := (addAll specs w0).2 in
  added <> [] ->
  Forall (fun item => commonEra (day item)) added ->
  exists d,
    get_effectiveStartDate w = (Returns d, w) /\
    (exists item, item ∈ added /\ Day (day item) = Day d) /\
    (forall item, item ∈ added -> Day d <= Day (day item)) /\
    get_viewStartDate w = (Returns (weekStart (viewStartDay_ (this w)) d), w).
Proof.
  intros Hempty added w Hne Hce.
  assert (Hok : store_ok added (schedulingItemsByDay_ (this w))).
  { apply (addAll_ok specs w0 []); [|exact Hce]. rewrite Hempty.
    split; [constructor|]. split; intros x Hx; inversion Hx. }
  destruct (addAll_dates_derived specs w0 (or_introl Hne)) as (first & rest & Hb & He & Hv).
  fold w in Hb, He, Hv. destruct Hok as (Hsorted & Hitems & Hcover). rewrite Hb in *.
  exists (bucket_day first). split; [|split; [|split]].
  - rewrite get_effectiveStartDate_eq. unfold effectiveDate. now rewrite He.
  - destruct (Hitems first ltac:(left)) as [Hnonempty Heq].
    destruct (bucket_items first) as [|item items] eqn:Ei; [done|].
    exists item. assert (Hin : item ∈ storedFor (bucket_day first) added)
      by (rewrite <- Heq; left).
    unfold storedFor in Hin. apply list_elem_of_In, List.filter_In in Hin as [Hin Hd].
    split; [now apply list_elem_of_In|]. now apply sameDay_true.
  - intros item Hin. destruct (Hcover item Hin) as (b & Hb' & Hd).
    apply StronglySorted_cons in Hsorted as [Hall _].
    apply elem_of_cons in Hb' as [->|Hb']; [unfold dayOf in Hd; lia|].
    rewrite Forall_forall in Hall. specialize (Hall b Hb'). unfold dayOf in *. lia.
  - now apply get_viewStartDate_cached.
Qed.

Lemma effectiveStartDate_is_earliest_day_witness :
  schedulingItemsByDay_ (this freshWorld) = [] /\
  (addAll threeSpecs freshWorld).1 <> [] /\
  Forall (fun item => commonEra (day item)) (addAll threeSpecs freshWorld).1 /\
  exists d,
    get_effectiveStartDate (addAll threeSpecs freshWorld).2
    = (Returns d, (addAll threeSpecs freshWorld).2) /\
    (exists item, item ∈ (addAll threeSpecs freshWorld).1 /\ Day (day item) = Day d) /\
    (forall item, item ∈ (addAll threeSpecs freshWorld).1 -> Day d <= Day (day item)) /\
    get_viewStartDate (addAll threeSpecs freshWorld).2
    = (Returns (weekStart (viewStartDay_ (this (addAll threeSpecs freshWorld).2)) d),
       (addAll threeSpecs freshWorld).2).
Proof.
  assert (H1 : schedulingItemsByDay_ (this freshWorld) = []) by reflexivity.
  assert (H2 : (addAll threeSpecs freshWorld).1 <> []) by (vm_compute; discriminate).
  assert (H3 : Forall (fun item => commonEra (day item)) (addAll threeSpecs freshWorld).1)
    by (apply commonEra_items_check; vm_compute; reflexivity).
  split; [exact H1|]. split; [exact H2|]. split; [exact H3|].
  apply (effectiveStartDate_is_earliest_day threeSpecs freshWorld H1 H2 H3).
Defined.

(** ** Explicit effective start date *)



(** ** Item ids *)



(** ** Selection over a series of clicks *)

Lemma toggled_length mx item sel :
  Z.of_nat (length sel) <= Z.max mx 1 ->
  Z.of_nat (length (toggled mx item sel)) <= Z.max mx 1.
Proof.
  intros Hlen. unfold toggled.
  destruct (Z.ltb_spec (-1) (indexOf item sel)) as [Hin|Hout].
  - unfold splice1. rewrite length_app, length_take, length_drop. lia.
  - destruct (Z.leb_spec mx (Z.of_nat (length sel))).
    + destruct (Z.ltb_spec 1 mx); [done|]. cbn. lia.
    + rewrite length_app. cbn. lia.
Qed.

(** X9.  Clicks never put an item into the selection twice and never let
    the selection grow beyond [maxSelectedItems] (beyond one item when
    that cap is below 1): both hold after any series of clicks if they
    held before, as they do for the empty selection. *)
Theorem selection_stays_bounded (items : list SchedulingItem) (w : World) :
  NoDup (id <$> selectedItems (this w)) ->
  Z.of_nat (length (selectedItems (this w))) <= Z.max (maxSelectedItems (this w)) 1 ->
  let w' := toggleAll items w in
  maxSelectedItems (this w') = maxSelectedItems (this w) /\
  NoDup (id <$> selectedItems (this w')) /\
  Z.of_nat (length (selectedItems (this w'))) <= Z.max (maxSelectedItems (this w)) 1.
Proof.
  cbv zeta. unfold toggleAll. revert w.
  induction items as [|item items IH]; intros w Hnd Hlen; [done|].
  cbn [foldl].
  assert (Hmx := toggle_maxSelectedItems item w).
  destruct (IH (toggle item w)) as (H1 & H2 & H3).
  - rewrite toggle_selectedItems. now apply toggled_NoDup.
  - rewrite toggle_selectedItems, Hmx. now apply toggled_length.
  - rewrite Hmx in *. auto.
Qed.

Lemma selection_stays_bounded_witness :
  NoDup (id <$> selectedItems (this freshWorld)) /\
  Z.of_nat (length (selectedItems (this freshWorld)))
  <= Z.max (maxSelectedItems (this freshWorld)) 1 /\
  maxSelectedItems (this (toggleAll [itemA; itemB; itemC; itemA; itemC] freshWorld))
  = maxSelectedItems (this freshWorld) /\
  NoDup (id <$> selectedItems (this (toggleAll [itemA; itemB; itemC; itemA; itemC] freshWorld))) /\
  Z.of_nat (length (selectedItems
                      (this (toggleAll [itemA; itemB; itemC; itemA; itemC] freshWorld))))
  <= Z.max (maxSelectedItems (this freshWorld)) 1.
Proof.
  assert (H1 : NoDup (id <$> selectedItems (this freshWorld))) by constructor.
  assert (H2 : Z.of_nat (length (selectedItems (this freshWorld)))
               <= Z.max (maxSelectedItems (this freshWorld)) 1) by (vm_compute; discriminate).
  split; [exact H1|]. split; [exact H2|].
  apply (selection_stays_bounded [itemA; itemB; itemC; itemA; itemC] freshWorld H1 H2).
Defined.

Lemma findIndexFrom_app_none {A} (p : A -> bool) l l' i :
  (forall x, x ∈ l -> p x = false) ->
  findIndexFrom p (l ++ l') i = findIndexFrom p l' (i + Z.of_nat (length l)).
Proof.
  revert i. induction l as [|a l IH]; intros i Hall; cbn [app findIndexFrom length].
  - f_equal. lia.
  - rewrite (Hall a) by left. rewrite IH by (intros x Hx; apply Hall; now right).
    f_equal. lia.
Qed.

Lemma indexOf_unselected item sel : ~ isSelected item sel -> indexOf item sel = -1.
Proof.
  intros Hsel. destruct (decide (indexOf item sel = -1)) as [|Hne]; [done|].
  now apply indexOf_selected in Hne.
Qed.

Lemma indexOf_appended item sel :
  ~ isSelected item sel -> indexOf item (sel ++ [item]) = Z.of_nat (length sel).
Proof.
  intros Hsel. unfold indexOf, findIndex. rewrite findIndexFrom_app_none.
  - cbn [findIndexFrom]. unfold sameItem. rewrite Z.eqb_refl. lia.
  - intros x Hx. unfold sameItem. apply Z.eqb_neq. intros Hid.
    apply Hsel. exists x. split; [done|lia].
Qed.

(** X10.  Two clicks in a row on an item that was not selected: below the
    cap the item is appended and removed again, and with a full selection
    and a cap above 1 neither click does anything, so the selection is as
    before; with a full selection and a cap of 1 or less the first click
    replaces the selection by the item and the second removes it, so the
    selection ends up empty and what was selected before is lost. *)
Theorem double_click_on_unselected_item (item : SchedulingItem) (w : World) :
  ~ isSelected item (selectedItems (this w)) ->
  let sel := selectedItems (this w) in
  let mx := maxSelectedItems (this w) in
  selectedItems (this (toggleAll [item; item] w)) =
  if (mx <=? Z.of_nat (length sel)) && (mx <=? 1) then [] else sel.
Proof.
  intros Hsel sel mx. unfold toggleAll. cbn [foldl].
  rewrite toggle_selectedItems, toggle_maxSelectedItems, toggle_selectedItems.
  fold sel mx. unfold toggled at 2.
  rewrite (indexOf_unselected item sel Hsel).
  replace (-1 <? -1) with false by reflexivity.
  destruct (Z.leb_spec mx (Z.of_nat (length sel))) as [Hfull|Hroom].
  - destruct (Z.ltb_spec 1 mx) as [Hmany|Hone].
    + replace (mx <=? 1) with false by (symmetry; apply Z.leb_gt; lia).
      cbn [andb]. unfold toggled. rewrite (indexOf_unselected item sel Hsel).
      replace (-1 <? -1) with false by reflexivity.
      replace (mx <=? Z.of_nat (length sel)) with true by (symmetry; apply Z.leb_le; lia).
      replace (1 <? mx) with true by (symmetry; apply Z.ltb_lt; lia). reflexivity.
    + replace (mx <=? 1) with true by (symmetry; apply Z.leb_le; lia).
      cbn [andb]. unfold toggled, indexOf, findIndex. cbn [findIndexFrom].
      unfold sameItem. rewrite Z.eqb_refl. reflexivity.
  - cbn [andb]. unfold toggled. rewrite (indexOf_appended item sel Hsel).
    replace (-1 <? Z.of_nat (length sel)) with true by (symmetry; apply Z.ltb_lt; lia).
    unfold splice1. rewrite Nat2Z.id.
    rewrite take_app_length. rewrite drop_ge by (rewrite length_app; cbn; lia).
    apply app_nil_r.
Qed.

Lemma double_click_on_unselected_item_witness :
  ~ isSelected itemB (selectedItems (this (toggleAll [itemA] (withMaxSelected 1 freshWorld)))) /\
  selectedItems (this (toggleAll [itemA] (withMaxSelected 1 freshWorld))) = [itemA] /\
  selectedItems (this (toggleAll [itemB; itemB]
                         (toggleAll [itemA] (withMaxSelected 1 freshWorld)))) = [].
Proof.
  assert (H : ~ isSelected itemB
                (selectedItems (this (toggleAll [itemA] (withMaxSelected 1 freshWorld))))).
  { intros (x & Hx & Hid). apply list_elem_of_singleton in Hx. subst x. discriminate Hid. }
  split; [exact H|]. split; [reflexivity|].
  exact (double_click_on_unselected_item itemB _ H).
Defined.

(** ** The slot axis *)

Lemma slotsFrom_length n cur vs ve g : length (slotsFrom n cur vs ve g) = n.
Proof. revert cur. induction n as [|n IH]; intros cur; cbn; [done|]. now rewrite IH. Qed.

Lemma slotsFrom_lookup n vs ve g : forall cur k,
  (k < n)%nat ->
  slotsFrom n cur vs ve g !! k =
  Some (cur + Z.of_nat k * g,
        (vs <=? cur + Z.of_nat k * g) && (cur + Z.of_nat k * g <? ve)).
Proof.
  induction n as [|n IH]; intros cur k Hk; [lia|]. cbn [slotsFrom].
  destruct k as [|k].
  - cbn [lookup list_lookup]. replace (cur + Z.of_nat 0 * g) with cur by lia. reflexivity.
  - change ((?x :: ?l) !! S k) with (l !! k). rewrite IH by lia.
    replace (cur + g + Z.of_nat k * g) with (cur + Z.of_nat (S k) * g) by lia. reflexivity.
Qed.

Lemma slotCount_inside cur renderEnd gran k :
  0 < gran -> (k < slotCount cur renderEnd gran)%nat -> cur + Z.of_nat k * gran < renderEnd.
Proof.
  unfold slotCount. intros Hg Hk.
  pose proof (Z.mul_div_le (renderEnd - cur + gran - 1) gran Hg). nia.
Qed.

Lemma slotCount_reaches cur renderEnd gran :
  0 < gran -> cur < renderEnd ->
  renderEnd - cur <= Z.of_nat (slotCount cur renderEnd gran) * gran.
Proof.
  unfold slotCount. intros Hg Hlt.
  assert (0 <= (renderEnd - cur + gran - 1) / gran) by (apply Z.div_pos; lia).
  rewrite Z2Nat.id by done.
  pose proof (Z.mod_pos_bound (renderEnd - cur + gran - 1) gran Hg).
  pose proof (Z.div_mod (renderEnd - cur + gran - 1) gran ltac:(lia)). nia.
Qed.

(** X11.  The first read of [timeSlotsView] with a positive granularity
    returns and caches the slot axis: slot [k] is minute
    [renderStart + k * granularity], where [renderStart] is
    [viewStartTimeMins - timeViewRenderOffMins]; every slot lies before
    [renderEnd = viewEndTimeMins + timeViewRenderOffMins], the axis stops
    with the first slot that would reach it, and a slot is flagged in view
    exactly when its minute is in [[viewStartTimeMins, viewEndTimeMins)]. *)
Theorem timeSlotsView_axis (w : World) (fuel : nat) :
  let s := this w in
  let gran := timeViewGranularityMins_ s in
  let renderStart := viewStartTimeMins s - timeViewRenderOffMins s in
  let renderEnd := viewEndTimeMins s + timeViewRenderOffMins s in
  timeSlotsView_ s = None -> 0 < gran ->
  (slotCount renderStart renderEnd gran < fuel)%nat ->
  exists slots,
    get_timeSlotsView fuel w =
      (Returns slots, mkWorld (seed w) (clock w) (set_timeSlotsView_ (Some slots) s)) /\
    (forall k, (k < length slots)%nat ->
       slots !! k = Some (renderStart + Z.of_nat k * gran,
                          (viewStartTimeMins s <=? renderStart + Z.of_nat k * gran)
                          && (renderStart + Z.of_nat k * gran <? viewEndTimeMins s))) /\
    (forall m b, (m, b) ∈ slots ->
       renderStart <= m < renderEnd /\
       (b = true <-> viewStartTimeMins s <= m < viewEndTimeMins s)) /\
    (renderStart < renderEnd ->
       (Z.of_nat (length slots) - 1) * gran < renderEnd - renderStart
       <= Z.of_nat (length slots) * gran) /\
    (renderEnd <= renderStart -> slots = []).
Proof.
  intros s gran renderStart renderEnd Hnone Hg Hfuel.
  pose proof (get_timeSlotsView_eq fuel w Hg) as Heq.
  unfold axisFuel, axisOf in Heq. fold s in Heq. rewrite Hnone in Heq. cbv zeta in Heq.
  fold s gran renderStart renderEnd in Heq.
  set (n := slotCount renderStart renderEnd gran) in *.
  replace (S n <=? fuel)%nat with true in Heq by (symmetry; apply Nat.leb_le; lia).
  set (slots := slotsFrom n renderStart (viewStartTimeMins s) (viewEndTimeMins s) gran) in *.
  assert (Hlen : length slots = n) by apply slotsFrom_length.
  assert (Hk : forall k, (k < length slots)%nat ->
     slots !! k = Some (renderStart + Z.of_nat k * gran,
                        (viewStartTimeMins s <=? renderStart + Z.of_nat k * gran)
                        && (renderStart + Z.of_nat k * gran <? viewEndTimeMins s))).
  { intros k Hlt. apply slotsFrom_lookup. lia. }
  exists slots. split; [exact Heq|]. split; [exact Hk|]. split; [|split].
  - intros m b Hin. apply list_elem_of_lookup in Hin as [k Hlk].
    pose proof (lookup_lt_Some _ _ _ Hlk) as Hlt. rewrite (Hk k Hlt) in Hlk.
    injection Hlk as <- <-.
    pose proof (slotCount_inside renderStart renderEnd gran k Hg ltac:(fold n; lia)).
    split; [nia|]. rewrite andb_true_iff, Z.leb_le, Z.ltb_lt. tauto.
  - intros Hlt. rewrite Hlen. split.
    + destruct n as [|n'] eqn:En; [lia|].
      pose proof (slotCount_inside renderStart renderEnd gran n' Hg ltac:(fold n; lia)). lia.
    + apply slotCount_reaches; done.
  - intros Hge. apply nil_length_inv. rewrite Hlen. subst n. now apply slotCount_done.
Qed.

Lemma timeSlotsView_axis_witness :
  exists slots,
    get_timeSlotsView 30 freshWorld =
      (Returns slots,
       mkWorld (seed freshWorld) (clock freshWorld)
         (set_timeSlotsView_ (Some slots) (this freshWorld))) /\
    length slots = 20%nat /\ slots !! 2%nat = Some (540, true) /\
    slots !! 19%nat = Some (1050, false).
Proof.
  destruct (timeSlotsView_axis freshWorld 30) as (slots & Heq & Hk & _);
    [reflexivity|reflexivity|vm_compute; lia|].
  exists slots. split; [exact Heq|].
  assert (slots = axisOf freshWorld) as ->.
  { assert (H := f_equal fst Heq). cbn [fst] in H.
    vm_compute in H. injection H as <-. reflexivity. }
  repeat split; reflexivity.
Defined.

(** ** What the cells show *)

Lemma find_Some_split {A} (p : A -> bool) l x :
  find p l = Some x ->
  p x = true /\ exists l1 l2, l = l1 ++ x :: l2 /\ forall y, y ∈ l1 -> p y = false.
Proof.
  induction l as [|y l IH]; cbn; [done|].
  destruct (p y) eqn:E.
  - intros [= ->]. split; [done|]. exists [], l. split; [done|]. intros z Hz. inversion Hz.
  - intros H. destruct (IH H) as (Hp & l1 & l2 & -> & Hbefore). split; [done|].
    exists (y :: l1), l2. split; [done|].
    intros z Hz. apply elem_of_cons in Hz as [->|Hz]; auto.
Qed.

Lemma timeCellAt_reflects slots items gran i c i' :
  timeCellAt slots items gran i = Returns (c, i') -> cellReflects slots items gran c.
Proof.
  unfold timeCellAt, cellReflects.
  destruct (at_index slots i) as [[m inView]|] eqn:Hslot; [|done].
  destruct inView.
  - destruct (items ≫= find (fun item => startTimeMins item =? m)) as [item|] eqn:Hfind.
    + intros [= <- <-]. cbn. split; [done|].
      destruct items as [l|]; [|done]. cbn in Hfind.
      apply find_Some_split in Hfind as (Hp & l1 & l2 & -> & Hbefore).
      apply Z.eqb_eq in Hp. repeat split; try done.
      exists l1, l2. split; [done|]. intros x Hx. specialize (Hbefore x Hx).
      apply Z.eqb_neq in Hbefore. lia.
    + intros [= <- <-]. cbn. split; [done|]. split; [done|]. intros _ x Hx.
      destruct items as [l|]; [|inversion Hx]. cbn in Hfind, Hx.
      rewrite find_None_elem_of in Hfind. specialize (Hfind x Hx).
      now apply Z.eqb_neq in Hfind.
  - intros [= <- <-]. cbn. split; [done|]. split; [done|]. discriminate.
Qed.

Lemma timeCellsLoop_reflects slots items gran fuel : forall i acc cells,
  Forall (cellReflects slots items gran) acc ->
  timeCellsLoop fuel slots items gran i acc = Returns cells ->
  Forall (cellReflects slots items gran) cells.
Proof.
  induction fuel as [|fuel IH]; intros i acc cells Hacc; cbn [timeCellsLoop]; [done|].
  destruct (i <? Z.of_nat (length slots)); [|now intros [= <-]].
  destruct (timeCellAt slots items gran i) as [[c i']| |] eqn:Hcell; try done.
  apply IH. apply Forall_app. split; [done|]. constructor; [|constructor].
  eapply timeCellAt_reflects; eauto.
Qed.

(** X12.  Whenever [renderTimeCells(date)] returns, each of its cells sits
    on a slot of the axis and carries that slot's minute and in-view flag;
    a cell with an item shows the first item of [date]'s bucket whose
    [startTimeMins] is that minute, on an in-view slot, with row span
    [durationMins / granularity] rounded down; a cell without an item has
    no row span, and if its slot is in view no item of the day starts at
    its minute.  So an item that starts off the slot grid, outside the
    view, or at the same minute as an earlier item of its day is in no
    cell. *)
Theorem renderTimeCells_cells_reflect_items (fuel : nat) (date : Date) (w : World)
    (cells : list TimeCell) :
  0 < timeViewGranularityMins_ (this w) ->
  (renderTimeCells fuel date w).1 = Returns cells ->
  let slots := axisOf w in
  let items := theDaysItems date w in
  (forall c, c ∈ cells -> cellReflects slots items (timeViewGranularityMins_ (this w)) c) /\
  (forall item, (exists c, c ∈ cells /\ cell_item c = Some item) ->
     (startTimeMins item, true) ∈ slots /\
     exists before after,
       items = Some (before ++ item :: after) /\
       forall x, x ∈ before -> startTimeMins x <> startTimeMins item).
Proof.
  intros Hg Hrun slots items.
  rewrite (renderTimeCells_eq fuel date w Hg) in Hrun.
  destruct (axisFuel w <=? fuel)%nat; [|done].
  assert (Hall : Forall (cellReflects slots items (timeViewGranularityMins_ (this w))) cells).
  { eapply timeCellsLoop_reflects; [|exact Hrun]. constructor. }
  rewrite Forall_forall in Hall. split; [exact Hall|].
  intros item (c & Hc & Hitem). destruct (Hall c Hc) as [Hslot Hrest].
  rewrite Hitem in Hrest. destruct Hrest as (Hview & Hstart & _ & Hfirst).
  split; [|exact Hfirst]. rewrite Hstart, <- Hview.
  unfold at_index in Hslot. destruct (_ <? 0); [done|].
  eapply list_elem_of_lookup_2; eauto.
Qed.

Lemma renderTimeCells_cells_reflect_items_witness :
  0 < timeViewGranularityMins_ (this clashWorld) /\
  exists cells,
    (renderTimeCells 30 (ymd 2024 12 28) clashWorld).1 = Returns cells /\
    cell_item <$> cells !! 2%nat = Some (Some (mkItem 1 (ymd 2024 12 28) JSNull 540 60 (JSObject 0))) /\
    cell_rowSpan <$> cells !! 3%nat = Some (Some 1) /\
    (forall c, c ∈ cells -> cell_item c <> Some (mkItem 2 (ymd 2024 12 28) JSNull 540 60 (JSObject 1))) /\
    forall c, c ∈ cells ->
      cellReflects (axisOf clashWorld) (theDaysItems (ymd 2024 12 28) clashWorld)
        (timeViewGranularityMins_ (this clashWorld)) c.
Proof.
  assert (Hg : 0 < timeViewGranularityMins_ (this clashWorld)) by reflexivity.
  split; [exact Hg|].
  destruct (renderTimeCells 30 (ymd 2024 12 28) clashWorld).1 as [cells| |] eqn:Hrun;
    [|vm_compute in Hrun; discriminate Hrun..].
  exists cells. split; [reflexivity|].
  pose proof (proj1 (renderTimeCells_cells_reflect_items 30 (ymd 2024 12 28) clashWorld cells
                       Hg Hrun)) as Hall.
  vm_compute in Hrun. injection Hrun as <-.
  split; [reflexivity|]. split; [reflexivity|]. split; [|exact Hall].
  intros c Hc. repeat (apply elem_of_cons in Hc as [->|Hc]; [discriminate|]). inversion Hc.
Defined.

(** ** The time bounds in closed form *)

Lemma addItem_window_derived spec w :
  (exists item, specItem (seed w + 1) spec = Some item) ->
  window_derived (addItem spec w).2.
Proof.
  intros [item E].
  destruct (addItem_accepted_state spec w item E)
    as (first & rest & _ & _ & Hb & _ & _ & Hd & Hn & Hs & He).
  unfold window_derived. cbv zeta. rewrite Hb, Hd, Hn. split; [exact Hs|].
  exists first, rest. split; [done|exact He].
Qed.

Lemma addAll_window_derived specs : forall w,
  ((addAll specs w).1 <> [] \/ window_derived w) -> window_derived (addAll specs w).2.
Proof.
  induction specs as [|spec rest IH]; intros w H; cbn [addAll] in *.
  - destruct H; done.
  - pose proof (addItem_window_derived spec w) as Hd.
    rewrite addItem_eq in *. destruct (specItem (seed w + 1) spec) as [item|].
    + cbn [fst snd] in *. apply IH. right. apply Hd. eauto.
    + apply IH. destruct H as [H|H]; [now left|right]. exact H.
Qed.

Lemma last_drop_pred {A} (l : list A) x :
  last l = Some x -> drop (length l - 1) l = [x].
Proof.
  intros H. apply last_Some in H as [l' ->].
  rewrite length_app. cbn [length]. replace (length l' + 1 - 1)%nat with (length l') by lia.
  now rewrite drop_app_length.
Qed.

Lemma slice_last {A} (l : list A) n :
  slice l (-1) (-1 + n) =
  if Z.of_nat (length l) <? n then match last l with Some b => [b] | None => [] end else [].
Proof.
  destruct (last l) as [x|] eqn:Hlast.
  - pose proof (last_drop_pred l x Hlast) as Hdrop.
    assert (Hlen : (0 < length l)%nat).
    { apply last_Some in Hlast as [l' ->]. rewrite length_app. cbn. lia. }
    unfold slice. replace (-1 <? 0) with true by reflexivity.
    replace (Z.to_nat (Z.max (Z.of_nat (length l) + -1) 0)) with (length l - 1)%nat by lia.
    rewrite Hdrop.
    destruct (Z.ltb_spec (Z.of_nat (length l)) n) as [Hlt|Hge].
    + replace (-1 + n <? 0) with false by (symmetry; apply Z.ltb_ge; lia).
      replace (Z.to_nat _) with 1%nat by lia. reflexivity.
    + destruct (Z.ltb_spec (-1 + n) 0).
      * replace (Z.to_nat _) with 0%nat by lia. reflexivity.
      * replace (Z.to_nat _) with 0%nat by lia. reflexivity.
  - apply last_None in Hlast. subst l. rewrite slice_nil. now destruct (_ <? _).
Qed.

Lemma minStartOf_eq byDay n :
  minStartOf byDay n =
  if Z.of_nat (length byDay) <? n
  then last byDay ≫= fun b => startTimeMins <$> head (bucket_items b)
  else None.
Proof.
  unfold minStartOf. rewrite slice_last.
  destruct (_ <? _); [|reflexivity].
  destruct (last byDay) as [b|]; [|reflexivity]. cbn.
  destruct (bucket_items b); reflexivity.
Qed.

Lemma StronglySorted_last {A} (R : A -> A -> Prop) l x :
  StronglySorted R l -> last l = Some x -> forall y, y ∈ l -> y = x \/ R y x.
Proof.
  induction 1 as [|a l Hs IH Hall]; intros Hlast y Hy; [inversion Hy|].
  destruct l as [|b l'].
  - cbn in Hlast. injection Hlast as <-. apply list_elem_of_singleton in Hy. now left.
  - change (last (a :: b :: l')) with (last (b :: l')) in Hlast.
    apply elem_of_cons in Hy as [->|Hy]; [|now apply IH].
    right. rewrite Forall_forall in Hall. apply Hall.
    apply last_Some in Hlast as [l'' ->]. apply elem_of_app. right. left.
Qed.

(** X13.  After any series of [addItem] calls on an empty store of which
    at least one was accepted, the days of the items created being of year
    1 or later, [viewStartTimeMins] is not the least start
    of the window: while the store has fewer day buckets than
    [viewNumDays] it is the [startTimeMins] of the item added first for
    the latest day that has items, and once the store has [viewNumDays]
    buckets or more it is the default 540. *)
Theorem viewStartTimeMins_reads_latest_day (specs : list ItemSpec) (w0 : World) :
  schedulingItemsByDay_ (this w0) = [] ->
  let added := (addAll specs w0).1 in
  let w := (addAll specs w0).2 in
  let byDay := schedulingItemsByDay_ (this w) in
  added <> [] ->
  Forall (fun item => commonEra (day item)) added ->
  exists latest first,
    last byDay = Some latest /\
    (forall item, item ∈ added -> Day (day item) <= Day (bucket_day latest)) /\
    head (storedFor (bucket_day latest) added) = Some first /\
    viewStartTimeMins (this w) =
    if Z.of_nat (length byDay) <? viewNumDays (this w) then startTimeMins first else 540.
Proof.
  intros Hempty added w byDay Hadded Hce.
  assert (Hok : store_ok added byDay).
  { apply (addAll_ok specs w0 []); [|exact Hce]. rewrite Hempty.
    split; [constructor|]. split; intros x Hx; inversion Hx. }
  destruct (addAll_window_derived specs w0 (or_introl Hadded)) as (Hstart & f & r & Hb & _).
  fold w byDay in Hstart, Hb.
  destruct Hok as (Hsorted & Hitems & Hcover).
  destruct (last byDay) as [latest|] eqn:Hlast;
    [|apply last_None in Hlast; congruence].
  assert (Hin : latest ∈ byDay).
  { apply last_Some in Hlast as [l' ->]. apply elem_of_app. right. left. }
  destruct (Hitems latest Hin) as [Hne Hstored].
  destruct (bucket_items latest) as [|first others] eqn:Hbi; [done|].
  exists latest, first. split; [done|]. split; [|split].
  - intros item Hitem. destruct (Hcover item Hitem) as (b & Hb' & Hday).
    destruct (StronglySorted_last _ _ _ Hsorted Hlast b Hb') as [->|Hlt];
      unfold dayOf in *; lia.
  - now rewrite <- Hstored.
  - rewrite Hstart, minStartOf_eq. destruct (_ <? _); [|reflexivity].
    rewrite Hlast. cbn. rewrite Hbi. reflexivity.
Qed.

Lemma viewStartTimeMins_reads_latest_day_witness :
  schedulingItemsByDay_ (this freshWorld) = [] /\
  (addAll threeSpecs freshWorld).1 <> [] /\
  Forall (fun item => commonEra (day item)) (addAll threeSpecs freshWorld).1 /\
  viewStartTimeMins (this (addAll threeSpecs freshWorld).2) = 600 /\
  exists latest first,
    last (schedulingItemsByDay_ (this (addAll threeSpecs freshWorld).2)) = Some latest /\
    (forall item, item ∈ (addAll threeSpecs freshWorld).1 ->
       Day (day item) <= Day (bucket_day latest)) /\
    head (storedFor (bucket_day latest) (addAll threeSpecs freshWorld).1) = Some first /\
    viewStartTimeMins (this (addAll threeSpecs freshWorld).2) =
    if Z.of_nat (length (schedulingItemsByDay_ (this (addAll threeSpecs freshWorld).2)))
       <? viewNumDays (this (addAll threeSpecs freshWorld).2)
    then startTimeMins first else 540.
Proof.
  assert (H1 : schedulingItemsByDay_ (this freshWorld) = []) by reflexivity.
  assert (H2 : (addAll threeSpecs freshWorld).1 <> []) by (vm_compute; discriminate).
  assert (H3 : Forall (fun item => commonEra (day item)) (addAll threeSpecs freshWorld).1)
    by (apply commonEra_items_check; vm_compute; reflexivity).
  split; [exact H1|]. split; [exact H2|]. split; [exact H3|].
  split; [vm_compute; reflexivity|].
  exact (viewStartTimeMins_reads_latest_day threeSpecs freshWorld H1 H2 H3).
Defined.

Lemma slice_from_0 {A} (l : list A) n : 0 <= n -> slice l 0 n = take (Z.to_nat n) l.
Proof.
  intros Hn. unfold slice. replace (0 <? 0) with false by reflexivity.
  replace (n <? 0) with false by (symmetry; apply Z.ltb_ge; lia).
  replace (Z.to_nat (Z.min 0 (Z.of_nat (length l)))) with 0%nat by lia.
  rewrite drop_0. destruct (Z.le_ge_cases n (Z.of_nat (length l))).
  - f_equal. lia.
  - rewrite !take_ge by lia. reflexivity.
Qed.

Lemma findIndexFrom_all_false {A} (p : A -> bool) l i :
  (forall x, x ∈ l -> p x = false) -> findIndexFrom p l i = -1.
Proof.
  intros H. rewrite <- (app_nil_r l). rewrite findIndexFrom_app_none by done. reflexivity.
Qed.

Lemma lastEnds_cons b l :
  lastEnds (b :: l) =
  match last (bucket_items b) with
  | Some final => endTimeMins final :: lastEnds l
  | None => lastEnds l
  end.
Proof. unfold lastEnds. cbn [omap list_omap]. destruct (last (bucket_items b)); reflexivity. Qed.

(** The scan of [#calculateMaxEndTime] is a running maximum, from 0, of
    the last items' ends. *)
Lemma maxEnd_scan l : forall m0,
  let e := foldl (fun maxTime b =>
                    match last (bucket_items b) with
                    | None => maxTime
                    | Some final => if maxTime <? endTimeMins final
                                    then endTimeMins final else maxTime
                    end) m0 l in
  m0 <= e /\ Forall (fun x => x <= e) (lastEnds l) /\ (e = m0 \/ e ∈ lastEnds l).
Proof.
  induction l as [|b l IH]; intros m0; cbn [foldl].
  - cbv zeta. split; [lia|]. split; [constructor|now left].
  - rewrite lastEnds_cons.
    destruct (last (bucket_items b)) as [final|]; [|apply IH].
    destruct (Z.ltb_spec m0 (endTimeMins final)) as [Hlt|Hge].
    + specialize (IH (endTimeMins final)). cbv zeta in *.
      destruct IH as (H1 & H2 & H3). split; [lia|]. split.
      * constructor; [lia|done].
      * right. destruct H3 as [->|H3]; [left|now right].
    + specialize (IH m0). cbv zeta in *.
      destruct IH as (H1 & H2 & H3). split; [lia|]. split.
      * constructor; [lia|done].
      * destruct H3 as [H3|H3]; [now left|right; now right].
Qed.

(** X14.  After any series of [addItem] calls on an empty store of which
    at least one was accepted, the days of the items created being of year
    1 or later, if the earliest day with items does not
    fall on a weekday before [viewStartDay], [viewEndTimeMins] is computed
    from the first [viewNumDays] day buckets of the store, whether or not
    their days lie in the viewed week, and from the item added last for
    each of them only: it is the greatest [endTimeMins] among those items
    if one of them is positive, and the default 1020 otherwise. *)
Theorem viewEndTimeMins_reads_first_buckets (specs : list ItemSpec) (w0 : World) :
  schedulingItemsByDay_ (this w0) = [] ->
  let added := (addAll specs w0).1 in
  let w := (addAll specs w0).2 in
  let byDay := schedulingItemsByDay_ (this w) in
  let ends := lastEnds (take (Z.to_nat (viewNumDays (this w))) byDay) in
  added <> [] ->
  Forall (fun item => commonEra (day item)) added ->
  0 <= viewNumDays (this w) ->
  (forall first, head byDay = Some first ->
     viewStartDay_ (this w) <= getDay (bucket_day first)) ->
  (Forall (fun e => e <= 0) ends -> viewEndTimeMins (this w) = 1020) /\
  (Exists (fun e => 0 < e) ends ->
   viewEndTimeMins (this w) ∈ ends /\ Forall (fun e => e <= viewEndTimeMins (this w)) ends).
Proof.
  intros Hempty added w byDay ends Hadded Hce Hn Hweekday.
  assert (Hok : store_ok added byDay).
  { apply (addAll_ok specs w0 []); [|exact Hce]. rewrite Hempty.
    split; [constructor|]. split; intros x Hx; inversion Hx. }
  destruct (addAll_window_derived specs w0 (or_introl Hadded)) as (_ & f & r & Hb & Hend).
  fold w byDay in Hend, Hb.
  destruct Hok as (Hsorted & _ & _).
  specialize (Hweekday f). rewrite Hb in Hweekday. specialize (Hweekday eq_refl).
  assert (Hnone : forall b, b ∈ rev byDay ->
            (bucket_day b <? weekStart (viewStartDay_ (this w)) (bucket_day f)) = false).
  { intros b Hin. apply list_elem_of_In, in_rev, list_elem_of_In in Hin. apply Z.ltb_ge.
    assert (Hday : Day (bucket_day f) <= Day (bucket_day b)).
    { rewrite Hb in Hin, Hsorted. apply elem_of_cons in Hin as [->|Hin]; [lia|].
      apply StronglySorted_inv in Hsorted as [_ Hall]. rewrite Forall_forall in Hall.
      specialize (Hall b Hin). unfold dayOf in Hall. lia. }
    pose proof (setHoursMidnight_le (bucket_day b)).
    unfold weekStart, addDays, setHoursMidnight, MakeDate, msPerDay in *. nia. }
  unfold maxEndOf in Hend. unfold findIndex in Hend.
  rewrite (findIndexFrom_all_false _ _ _ Hnone) in Hend.
  change (1 + -1) with 0 in Hend. rewrite Z.add_0_l, (slice_from_0 _ _ Hn) in Hend.
  destruct (maxEnd_scan (take (Z.to_nat (viewNumDays (this w))) byDay) 0) as (H0 & Hall & Hor).
  fold ends in Hall, Hor. cbv zeta in Hend.
  set (e := foldl _ 0 _) in *. rewrite Hend. split.
  - intros Hnonpos. assert (e = 0) as ->; [|reflexivity].
    destruct Hor as [|Hin]; [done|]. rewrite Forall_forall in Hnonpos.
    specialize (Hnonpos e Hin). lia.
  - intros Hpos. apply Exists_exists in Hpos as (x & Hx & Hxpos).
    rewrite Forall_forall in Hall. pose proof (Hall x Hx).
    replace (e =? 0) with false by (symmetry; apply Z.eqb_neq; lia). cbn [default].
    split; [|now apply Forall_forall]. destruct Hor as [|Hin]; [lia|done].
Qed.

Lemma viewEndTimeMins_reads_first_buckets_witness :
  get_viewStartDate (addAll twoMondays freshWorld).2
  = (Returns (ymd 2024 12 30), (addAll twoMondays freshWorld).2) /\
  viewNumDays (this (addAll twoMondays freshWorld).2) = 6 /\
  lastEnds (take 6 (schedulingItemsByDay_ (this (addAll twoMondays freshWorld).2)))
  = [659; 1199] /\
  viewEndTimeMins (this (addAll twoMondays freshWorld).2) = 1199 /\
  (Exists (fun e => 0 < e)
     (lastEnds (take (Z.to_nat (viewNumDays (this (addAll twoMondays freshWorld).2)))
                  (schedulingItemsByDay_ (this (addAll twoMondays freshWorld).2)))) ->
   viewEndTimeMins (this (addAll twoMondays freshWorld).2)
   ∈ lastEnds (take (Z.to_nat (viewNumDays (this (addAll twoMondays freshWorld).2)))
                 (schedulingItemsByDay_ (this (addAll twoMondays freshWorld).2))) /\
   Forall (fun e => e <= viewEndTimeMins (this (addAll twoMondays freshWorld).2))
     (lastEnds (take (Z.to_nat (viewNumDays (this (addAll twoMondays freshWorld).2)))
                  (schedulingItemsByDay_ (this (addAll twoMondays freshWorld).2))))).
Proof.
  assert (H1 : schedulingItemsByDay_ (this freshWorld) = []) by reflexivity.
  assert (H2 : (addAll twoMondays freshWorld).1 <> []) by (vm_compute; discriminate).
  assert (H5 : Forall (fun item => commonEra (day item)) (addAll twoMondays freshWorld).1)
    by (apply commonEra_items_check; vm_compute; reflexivity).
  assert (H3 : 0 <= viewNumDays (this (addAll twoMondays freshWorld).2))
    by (vm_compute; discriminate).
  assert (H4 : forall first,
             head (schedulingItemsByDay_ (this (addAll twoMondays freshWorld).2)) = Some first ->
             viewStartDay_ (this (addAll twoMondays freshWorld).2) <= getDay (bucket_day first)).
  { intros first Hf. vm_compute in Hf. injection Hf as <-. vm_compute. discriminate. }
  split; [vm_compute; reflexivity|]. split; [vm_compute; reflexivity|].
  split; [vm_compute; reflexivity|]. split; [vm_compute; reflexivity|].
  exact (proj2 (viewEndTimeMins_reads_first_buckets twoMondays freshWorld H1 H2 H5 H3 H4)).
Defined.

(** ** Week start and view end *)








(** The view of the scenario runs from Monday 2024-12-23 to Saturday
    2024-12-28; its end date is Sunday 2024-12-29, 23:59:59.099. *)
Example viewEndDate_of_scenario :
  (get_viewEndDate scenarioWorld).1 = Returns (ymd 2024 12 29 + 86399099).
Proof. reflexivity. Qed.


(** ** C4: the transaction bracket *)













Example bulkLoad_run :
  (run (Changes bulkLoad) openStore).1 = Throws AvermentFailure /\
  depth (run (Changes bulkLoad) openStore).2 = O /\
  flushes (run (Changes bulkLoad) openStore).2 = 1%nat /\
  flushes (run bulkLoad openStore).2 = 2%nat /\
  window (run (Changes bulkLoad) openStore).2 = window (run bulkLoad openStore).2.
Proof. repeat split; vm_compute; reflexivity. Qed.
